(** * ntfy-wx: the message history, the subscription registry and the
      stream workers of [ntfy.py]

    A shallow embedding of the non-visual core of [ntfy.py]: the message
    value ([NtfyMessage]), the de-duplicated, time-ordered history
    ([MessagePanel]), the subscription registry ([SubscriptionPanel]) and
    the worker code of [NtfyGUI] (live stream, reconnect loop, history
    fetch).

    Conventions of the embedding.
    - Python objects are mutated in place; here every method takes the
      state it touches and returns the new state next to its result.
    - The fields of a message carry the types of the ntfy wire format
      ([id], [event], [topic], ... are [str], [time] and [priority] are
      [int], [tags] is a list of [str], [attachment] is a dict).  A [str]
      is the [string] of its UTF-8 bytes; the raw line read from the
      socket is a byte string, also a [string].
    - Calls into the widget toolkit (list control rows, text controls) are
      not part of the state; what the frame shows to the outside (status
      bar text, tray balloon, per-subscription status) is recorded as a
      list of effects, oldest first.
    - One call into the list control can raise: the row of a message
      holds its formatted time, and [datetime.fromtimestamp] raises for a
      time stamp out of range.  [MessagePanel] and [NtfyGUI] give the
      state the methods leave and what they answer when they return;
      [WithListCtrl] gives the same methods with that exception.
    - [wx.CallAfter(f, args)] queues the call for the GUI thread; a worker
      therefore only produces a trace of queued calls, and the GUI thread
      runs the queued calls one after the other. *)

From Stdlib Require Import ZArith String Ascii List Lia Permutation.
From stdpp Require Import base option gmap sets list strings pretty sorting.

Local Open Scope Z_scope.
Local Open Scope string_scope.
Local Open Scope list_scope.

(** ** JSON values that the client stores without looking inside *)

#[local] Set Warnings "-register-all,-clear-no-such-hyp".

Inductive json : Type :=
| JNull
| JBool (b : bool)
| JNum (z : Z)
| JStr (s : string)
| JArr (items : list json)
| JObj (members : list (string * json)).

(** ** class NtfyMessage *)

Module NtfyMessage.

(** The decoded JSON object handed to the constructor: a key is either
    absent ([None]) or bound to a value of the field's type.  Keys the
    constructor never reads are left out. *)
Record dict : Type := Dict {
  d_id : option string;
  d_time : option Z;
  d_event : option string;
  d_topic : option string;
  d_message : option string;
  d_title : option string;
  d_tags : option (list string);
  d_priority : option Z;
  d_click : option string;
  d_attachment : option (gmap string json);
  d_server : option string
}.

Record t : Type := Msg {
  id : string;
  time : Z;
  event : string;
  topic : string;
  message : string;
  title : string;
  tags : list string;
  priority : Z;
  click : string;
  attachment : gmap string json;
  server : string
}.

(** [__init__]: every field is [data.get(key, default)]. *)
Definition init (data : dict) : t :=
  {| id := default "" (d_id data);
     time := default 0 (d_time data);
     event := default "" (d_event data);
     topic := default "" (d_topic data);
     message := default "" (d_message data);
     title := default "" (d_title data);
     tags := default [] (d_tags data);
     priority := default 3 (d_priority data);
     click := default "" (d_click data);
     attachment := default ∅ (d_attachment data);
     server := default "" (d_server data) |}.

(** [to_dict]: all eleven keys are written. *)
Definition to_dict (self : t) : dict :=
  {| d_id := Some (id self);
     d_time := Some (time self);
     d_event := Some (event self);
     d_topic := Some (topic self);
     d_message := Some (message self);
     d_title := Some (title self);
     d_tags := Some (tags self);
     d_priority := Some (priority self);
     d_click := Some (click self);
     d_attachment := Some (attachment self);
     d_server := Some (server self) |}.

(** [data['server'] = server_url], done by both workers before the
    message is built. *)
Definition set_server (server_url : string) (data : dict) : dict :=
  {| d_id := d_id data;
     d_time := d_time data;
     d_event := d_event data;
     d_topic := d_topic data;
     d_message := d_message data;
     d_title := d_title data;
     d_tags := d_tags data;
     d_priority := d_priority data;
     d_click := d_click data;
     d_attachment := d_attachment data;
     d_server := Some server_url |}.

(** [get_priority_text] *)
Definition get_priority_text (self : t) : string :=
  match priority self with
  | 1 => "Min"
  | 2 => "Low"
  | 3 => "Default"
  | 4 => "High"
  | 5 => "Max"
  | _ => "Unknown"
  end.

(** A [string] holds the UTF-8 bytes of a [str], as the literals of this
    file do.  A byte [10xxxxxx] continues a character. *)
Definition is_continuation (c : ascii) : bool :=
  match c with
  | Ascii _ _ _ _ _ _ b6 b7 => b7 && negb b6
  end.

(** [s[:n]]: the first [n] characters of [s], each with the bytes that
    continue it. *)
Fixpoint take_chars (n : nat) (s : string) : string :=
  match s with
  | EmptyString => EmptyString
  | String c rest =>
      if is_continuation c then String c (take_chars n rest)
      else
        match n with
        | O => EmptyString
        | S n' => String c (take_chars n' rest)
        end
  end.

(** [title or message[:n]], the text shown for a message. *)
Definition headline (n : nat) (self : t) : string :=
  if bool_decide (title self = "") then take_chars n (message self)
  else title self.

End NtfyMessage.

(** ** class MessagePanel *)

Module MessagePanel.

Record t : Type := Panel {
  message_ids : gset string;
  messages : list NtfyMessage.t
}.

(** [__init__]: [message_ids = set()], [messages = []]. *)
Definition new : t := {| message_ids := ∅; messages := [] |}.

(** The search loop of [add_message]:
<<
    insert_index = 0
    for i, existing_msg in enumerate(self.messages):
        if message.time > existing_msg.time:
            break
        insert_index = i + 1
>>
    [i] is the index of the head of [rest]. *)
Fixpoint find_insert_index (time : Z) (rest : list NtfyMessage.t)
    (i insert_index : nat) : nat :=
  match rest with
  | [] => insert_index
  | existing_msg :: rest' =>
      if time >? NtfyMessage.time existing_msg then insert_index
      else find_insert_index time rest' (S i) (S i)
  end.

(** [list.insert(index, x)]: an index past the end appends. *)
Definition list_insert_at {A} (index : nat) (x : A) (l : list A) : list A :=
  take index l ++ x :: drop index l.

(** [add_message]: the panel after the call and the answer "newly added".
    The last statement before [return True] hands the row to the list
    control, which can raise when the panel has already changed;
    [WithListCtrl.add_message] has that call. *)
Definition add_message (message : NtfyMessage.t) (self : t) : bool * t :=
  if bool_decide (NtfyMessage.event message = "message")
     && negb (bool_decide (NtfyMessage.id message = ""))
  then
    if bool_decide (NtfyMessage.id message ∈ message_ids self)
    then (false, self)
    else
      let ids := {[ NtfyMessage.id message ]} ∪ message_ids self in
      let insert_index :=
        find_insert_index (NtfyMessage.time message) (messages self) 0 0 in
      (true, {| message_ids := ids;
                messages := list_insert_at insert_index message (messages self) |})
  else (false, self).

(** [clear_messages] *)
Definition clear_messages (self : t) : t :=
  {| message_ids := ∅; messages := [] |}.

(** [sorted(l, key=lambda m: m.time, reverse=True)]: a stable sort, larger
    times first; records with equal times keep their order. *)
Fixpoint insert_by_time (x : NtfyMessage.t) (l : list NtfyMessage.t)
    : list NtfyMessage.t :=
  match l with
  | [] => [x]
  | y :: l' =>
      if NtfyMessage.time y >? NtfyMessage.time x
      then y :: insert_by_time x l'
      else x :: l
  end.

Definition sorted_by_time_desc (l : list NtfyMessage.t) : list NtfyMessage.t :=
  foldr insert_by_time [] l.

(** The conversion loop of [load_messages]:
<<
    for data in messages_data:
        if data.get('id') not in self.message_ids:
            msg = NtfyMessage(data)
            loaded_messages.append(msg)
            self.message_ids.add(msg.id)
>>
    [data.get('id')] is [None] for an absent key, and [None] is in no
    set of strings. *)
Fixpoint load_loop (messages_data : list NtfyMessage.dict)
    (ids : gset string) (loaded_messages : list NtfyMessage.t)
    : gset string * list NtfyMessage.t :=
  match messages_data with
  | [] => (ids, loaded_messages)
  | data :: rest =>
      let seen :=
        match NtfyMessage.d_id data with
        | Some i => bool_decide (i ∈ ids)
        | None => false
        end in
      if seen then load_loop rest ids loaded_messages
      else
        let msg := NtfyMessage.init data in
        load_loop rest ({[ NtfyMessage.id msg ]} ∪ ids) (loaded_messages ++ [msg])
  end.

(** [load_messages]: the panel after the call;
    [WithListCtrl.load_messages] has the loop that fills the list control. *)
Definition load_messages (messages_data : list NtfyMessage.dict) (self : t) : t :=
  let cleared := clear_messages self in
  let '(ids, loaded_messages) := load_loop messages_data (message_ids cleared) [] in
  {| message_ids := ids; messages := sorted_by_time_desc loaded_messages |}.

End MessagePanel.

(** ** class SubscriptionPanel *)

Module SubscriptionPanel.

(** One entry of [self.subscriptions]: the dict
    [{'server': ..., 'topic': ..., 'status': ..., 'message_count': ...}]. *)
Record sub : Type := Sub {
  server : string;
  topic : string;
  status : string;
  message_count : nat
}.

Record t : Type := Panel {
  subscriptions : list sub
}.

(** [__init__]: [subscriptions = []]. *)
Definition new : t := {| subscriptions := [] |}.

(** [server_url.startswith(('http://', 'https://'))] *)
Definition has_scheme (server_url : string) : bool :=
  String.prefix "http://" server_url || String.prefix "https://" server_url.

(** [s.rstrip('/')]: the trailing run of slashes is removed. *)
Fixpoint rstrip_slash (s : string) : string :=
  match s with
  | EmptyString => EmptyString
  | String c rest =>
      match rstrip_slash rest with
      | EmptyString => if Ascii.eqb c "/" then EmptyString else String c EmptyString
      | rest' => String c rest'
      end
  end.

(** The two rewriting lines of [add_subscription]. *)
Definition normalize (server_url : string) : string :=
  let server_url :=
    if has_scheme server_url then server_url else "https://" +:+ server_url in
  rstrip_slash server_url.

(** [s['server'] == server_url and s['topic'] == topic_name] *)
Definition has_key (server_url topic_name : string) (s : sub) : bool :=
  bool_decide (server s = server_url) && bool_decide (topic s = topic_name).

(** [add_subscription] *)
Definition add_subscription (server_url topic_name : string) (self : t) : bool * t :=
  if bool_decide (server_url = "") || bool_decide (topic_name = "")
  then (false, self)
  else
    let server_url := normalize server_url in
    if existsb (has_key server_url topic_name) (subscriptions self)
    then (false, self)
    else
      let sub_data :=
        {| server := server_url; topic := topic_name;
           status := "未连接"; message_count := 0%nat |} in
      (true, {| subscriptions := subscriptions self ++ [sub_data] |}).

(** The confirmed branch of [on_remove_subscription]:
    [self.subscriptions.pop(selected)] for a selected row. *)
Definition remove_subscription (selected : nat) (self : t) : t :=
  {| subscriptions := delete selected (subscriptions self) |}.

(** The update loops: the first entry with the key is changed, then
    [break]. *)
Fixpoint update_first (server_url topic_name : string) (f : sub → sub)
    (l : list sub) : list sub :=
  match l with
  | [] => []
  | s :: rest =>
      if has_key server_url topic_name s then f s :: rest
      else s :: update_first server_url topic_name f rest
  end.

(** [update_subscription_status] *)
Definition update_subscription_status (server_url topic_name status' : string)
    (self : t) : t :=
  {| subscriptions :=
       update_first server_url topic_name
         (λ s, {| server := server s; topic := topic s;
                  status := status'; message_count := message_count s |})
         (subscriptions self) |}.

(** [update_subscription_message_count] *)
Definition update_subscription_message_count (server_url topic_name : string)
    (count : nat) (self : t) : t :=
  {| subscriptions :=
       update_first server_url topic_name
         (λ s, {| server := server s; topic := topic s;
                  status := status s; message_count := count |})
         (subscriptions self) |}.

End SubscriptionPanel.

(** ** class NtfyGUI *)

Module NtfyGUI.

(** *** State owned by the GUI thread *)

Record t : Type := Frame {
  message_panel : MessagePanel.t;
  sub_panel : SubscriptionPanel.t;
  sub_message_counts : gmap (string * string) nat
}.

(** [__init__], before [load_data]. *)
Definition new : t :=
  {| message_panel := MessagePanel.new;
     sub_panel := SubscriptionPanel.new;
     sub_message_counts := ∅ |}.

(** What the frame shows to the user. *)
Inductive shown : Type :=
| StatusText (text : string)          (* self.SetStatusText(text) *)
| Balloon (title text : string).      (* self.tray_icon.show_notification(title, text) *)

(** [add_message_and_notify] when [add_message] returns;
    [WithListCtrl.add_message_and_notify] has the case that it raises. *)
Definition add_message_and_notify (message : NtfyMessage.t)
    (is_live_message : bool) (self : t) : t * list shown :=
  let '(is_newly_added, panel) :=
    MessagePanel.add_message message (message_panel self) in
  if is_newly_added then
    let sub_key := (NtfyMessage.server message, NtfyMessage.topic message) in
    let count := S (default 0%nat (sub_message_counts self !! sub_key)) in
    ({| message_panel := panel;
        sub_panel :=
          SubscriptionPanel.update_subscription_message_count
            (NtfyMessage.server message) (NtfyMessage.topic message) count
            (sub_panel self);
        sub_message_counts := <[sub_key := count]> (sub_message_counts self) |},
     if is_live_message then
       [ StatusText ("[" +:+ NtfyMessage.topic message +:+ "] "
                     +:+ NtfyMessage.headline 30 message);
         Balloon ("新消息 - " +:+ NtfyMessage.topic message)
                 (NtfyMessage.headline 50 message) ]
     else [])
  else
    ({| message_panel := panel;
        sub_panel := sub_panel self;
        sub_message_counts := sub_message_counts self |}, []).

(** *** Calls queued for the GUI thread with [wx.CallAfter] *)

Inductive call : Type :=
| UpdateSubscriptionStatus (server_url topic status : string)
    (* self.control_panel.update_subscription_status *)
| SubPanelUpdateStatus (server_url topic status : string)
    (* self.sub_panel.update_subscription_status, queued by the former *)
| AddMessageAndNotify (message : NtfyMessage.t) (is_live_message : bool)
| SetStatusText (text : string).

(** One queued call run by the GUI thread: the new state, what is shown,
    and the calls it queues in turn, when the call returns;
    [WithListCtrl.run_call] has the call that raises. *)
Definition run_call (c : call) (self : t) : t * list shown * list call :=
  match c with
  | UpdateSubscriptionStatus server_url topic status =>
      (self, [], [SubPanelUpdateStatus server_url topic status])
  | SubPanelUpdateStatus server_url topic status =>
      ({| message_panel := message_panel self;
          sub_panel :=
            SubscriptionPanel.update_subscription_status server_url topic status
              (sub_panel self);
          sub_message_counts := sub_message_counts self |}, [], [])
  | AddMessageAndNotify message is_live_message =>
      let '(self', out) := add_message_and_notify message is_live_message self in
      (self', out, [])
  | SetStatusText text => (self, [StatusText text], [])
  end.

(** The GUI thread runs the queued calls in the order they were queued. *)
Fixpoint run_calls (queue : list call) (self : t) : t * list shown * list call :=
  match queue with
  | [] => (self, [], [])
  | c :: rest =>
      let '(self1, out1, queued1) := run_call c self in
      let '(self2, out2, queued2) := run_calls rest self1 in
      (self2, out1 ++ out2, queued1 ++ queued2)
  end.

(** *** What a worker thread does *)

Inductive log_level : Type := Debug | Info | Warning | Error.

(** The logging call sites of the two workers. *)
Inductive log_text : Type :=
| LogConnect                          (* "连接到订阅 ..." *)
| LogJSONError (line : string)        (* "JSON解析错误: ..., on line: ..." *)
| LogRequestError                     (* "订阅 ... 请求错误: ..." *)
| LogReconnect (attempt : nat)        (* "... 连接断开，尝试重连... (第n次)" *)
| LogReconnectError (attempt : nat)   (* "... 连接错误: ..., 尝试重连... (第n次)" *)
| LogFetch                            (* "获取订阅 ... 历史消息: ..." *)
| LogFetchJSONError                   (* "JSON解析错误: ..." *)
| LogFetchFailed.                     (* "获取订阅 ... 历史消息失败: ..." *)

Inductive effect : Type :=
| CallAfter (c : call)
| Log (level : log_level) (text : log_text)
| Sleep (seconds : nat)                       (* time.sleep(seconds) *)
| DelThread (sub_key : string * string).      (* del self.listening_threads[sub_key], if present *)

Inductive exn : Type := TypeError | UnicodeDecodeError | RequestException.

(** The result of [json.loads(line.decode('utf-8'))]: a JSON object, some
    other JSON value (the assignment [data['server'] = ...] then raises
    [TypeError]), or one of the two exceptions. *)
Inductive parsed : Type :=
| Object (data : NtfyMessage.dict)
| NonObject
| JSONDecodeError
| BadUnicode.

(** The calls queued in a trace, in order. *)
Definition queued (trace : list effect) : list call :=
  omap (λ e, match e with CallAfter c => Some c | _ => None end) trace.

Definition is_json_error (e : effect) : bool :=
  match e with
  | Log Warning (LogJSONError _) | Log Warning LogFetchJSONError => true
  | _ => false
  end.

(** [self.reconnect_delay = 5] in [__init__]; no other assignment. *)
Definition default_reconnect_delay : nat := 5.

Section Workers.

(** [json.loads(line.decode('utf-8'))], a library function. *)
Variable json_loads : string → parsed.

(** The value of [self.reconnect_delay]. *)
Variable reconnect_delay : nat.

Local Abbreviation sub := SubscriptionPanel.sub.

(** **** listen_subscription_messages *)

(** One connection attempt, as the worker sees it. *)
Record session : Type := Session {
  (* requests.get and resp.raise_for_status() succeed *)
  connected : bool;
  (* the lines resp.iter_lines() yields, each with the value of
     self.stop_listening read when the loop body starts on it *)
  received : list (bool * string);
  (* after the last line iter_lines raises a RequestException; otherwise
     the server closes the stream *)
  broken : bool
}.

Inductive loop_exit : Type :=
| Exhausted
| Break
| Raise (e : exn).

(** The [for line in resp.iter_lines()] loop. *)
Fixpoint stream_loop (server_url : string) (lines : list (bool * string))
    : list effect * loop_exit :=
  match lines with
  | [] => ([], Exhausted)
  | (stop_listening, line) :: rest =>
      if stop_listening then ([], Break)
      else if bool_decide (line = "") then stream_loop server_url rest
      else
        match json_loads line with
        | Object data =>
            let message := NtfyMessage.init (NtfyMessage.set_server server_url data) in
            let '(trace, exit) := stream_loop server_url rest in
            (CallAfter (AddMessageAndNotify message true) :: trace, exit)
        | NonObject => ([], Raise TypeError)
        | JSONDecodeError =>
            let '(trace, exit) := stream_loop server_url rest in
            (Log Warning (LogJSONError line) :: trace, exit)
        | BadUnicode => ([], Raise UnicodeDecodeError)
        end
  end.

(** [listen_subscription_messages]: the trace, and the exception that
    leaves the function, if any. *)
Definition listen_subscription_messages (subscription : sub) (s : session)
    : list effect * option exn :=
  let server_url := SubscriptionPanel.server subscription in
  let topic := SubscriptionPanel.topic subscription in
  if connected s then
    let '(trace, exit) := stream_loop server_url (received s) in
    let trace :=
      Log Info LogConnect
      :: CallAfter (UpdateSubscriptionStatus server_url topic "已连接")
      :: trace in
    match exit with
    | Exhausted =>
        if broken s
        then (trace ++ [Log Error LogRequestError], Some RequestException)
        else (trace, None)
    | Break => (trace, None)
    | Raise e => (trace, Some e)
    end
  else ([Log Info LogConnect; Log Error LogRequestError], Some RequestException).

(** **** listen_subscription_with_reconnect *)

(** Where the worker is in [listen_subscription_with_reconnect]. *)
Inductive pc : Type :=
| LoopHead (reconnect_attempts : nat)    (* at [while not self.stop_listening] *)
| Listening (reconnect_attempts : nat)   (* "连接中..." queued, about to listen *)
| Ended (reconnect_attempts : nat) (raised : option exn)
                                         (* listen_subscription_messages is over *)
| Backoff (reconnect_attempts : nat) (remaining : nat)
                                         (* in the sleep loop, [remaining] rounds to go *)
| Exited.

(** What the worker finds when it takes its next step: the two shared
    flags as they are at that moment, and the connection attempt that a
    step from [Listening] goes through. *)
Record observation : Type := Obs {
  stop_listening : bool;
  auto_reconnect : bool;
  next_session : session
}.

(** The statements after the [while] loop. *)
Definition after_loop (subscription : sub) : list effect :=
  let server_url := SubscriptionPanel.server subscription in
  let topic := SubscriptionPanel.topic subscription in
  [ DelThread (server_url, topic);
    CallAfter (UpdateSubscriptionStatus server_url topic "已断开") ].

(** Entering [for _ in range(self.reconnect_delay)]. *)
Definition enter_backoff (reconnect_attempts : nat) : pc :=
  match reconnect_delay with
  | O => LoopHead reconnect_attempts
  | S _ => Backoff reconnect_attempts reconnect_delay
  end.

Definition step (subscription : sub) (p : pc) (o : observation)
    : pc * list effect :=
  let server_url := SubscriptionPanel.server subscription in
  let topic := SubscriptionPanel.topic subscription in
  match p with
  | LoopHead n =>
      if stop_listening o then (Exited, after_loop subscription)
      else (Listening n,
            [CallAfter (UpdateSubscriptionStatus server_url topic "连接中...")])
  | Listening n =>
      let '(trace, raised) :=
        listen_subscription_messages subscription (next_session o) in
      (Ended n raised, trace)
  | Ended n raised =>
      if stop_listening o then (Exited, after_loop subscription)
      else if auto_reconnect o then
        let n := S n in
        (enter_backoff n,
         match raised with
         | None =>
             [ Log Info (LogReconnect n);
               CallAfter (UpdateSubscriptionStatus server_url topic
                            ("重连中(" +:+ pretty n +:+ ")")) ]
         | Some _ =>
             [ Log Error (LogReconnectError n);
               CallAfter (UpdateSubscriptionStatus server_url topic
                            ("错误,重连中(" +:+ pretty n +:+ ")")) ]
         end)
      else
        (Exited,
         match raised with
         | None => []
         | Some _ =>
             [CallAfter (UpdateSubscriptionStatus server_url topic "连接错误")]
         end ++ after_loop subscription)
  | Backoff n remaining =>
      if stop_listening o then (Exited, [])
      else
        (match remaining with
         | S (S k) => Backoff n (S k)
         | _ => LoopHead n
         end,
         [Sleep 1])
  | Exited => (Exited, [])
  end.

(** The worker run against a sequence of observations. *)
Fixpoint run (subscription : sub) (p : pc) (os : list observation)
    : pc * list effect :=
  match os with
  | [] => (p, [])
  | o :: rest =>
      let '(p1, trace1) := step subscription p o in
      let '(p2, trace2) := run subscription p1 rest in
      (p2, trace1 ++ trace2)
  end.

(** **** fetch_history *)

(** The answer to one history request: [None] when [requests.get] or
    [raise_for_status] raises a [RequestException], the lines of the
    body otherwise. *)
Definition response : Type := option (list string).

(** The inner loop of [fetch_thread] over the lines of one response. *)
Fixpoint fetch_lines (server_url : string) (lines : list string)
    (total_messages_fetched : nat) : list effect * (exn + nat) :=
  match lines with
  | [] => ([], inr total_messages_fetched)
  | line :: rest =>
      if bool_decide (line = "")
      then fetch_lines server_url rest total_messages_fetched
      else
        match json_loads line with
        | Object data =>
            let message := NtfyMessage.init (NtfyMessage.set_server server_url data) in
            let total :=
              if bool_decide (NtfyMessage.event message = "message")
              then S total_messages_fetched else total_messages_fetched in
            let '(trace, r) := fetch_lines server_url rest total in
            (CallAfter (AddMessageAndNotify message false) :: trace, r)
        | NonObject => ([], inl TypeError)
        | JSONDecodeError =>
            let '(trace, r) := fetch_lines server_url rest total_messages_fetched in
            (Log Warning LogFetchJSONError :: trace, r)
        | BadUnicode => ([], inl UnicodeDecodeError)
        end
  end.

(** The outer loop of [fetch_thread] over the subscriptions. *)
Fixpoint fetch_subscriptions (requests : list (sub * response))
    (total_messages_fetched : nat) : list effect * (exn + nat) :=
  match requests with
  | [] => ([], inr total_messages_fetched)
  | (s, resp) :: rest =>
      match resp with
      | None =>
          let '(trace, r) := fetch_subscriptions rest total_messages_fetched in
          (Log Info LogFetch :: Log Error LogFetchFailed :: trace, r)
      | Some lines =>
          match fetch_lines (SubscriptionPanel.server s) lines
                  total_messages_fetched with
          | (trace1, inl e) => (Log Info LogFetch :: trace1, inl e)
          | (trace1, inr total) =>
              let '(trace2, r) := fetch_subscriptions rest total in
              (Log Info LogFetch :: trace1 ++ trace2, r)
          end
      end
  end.

(** The status-bar text of the completion report. *)
Definition fetch_report (total_messages_fetched : nat) (since : string) : string :=
  "历史消息获取完成: 新增 " +:+ pretty total_messages_fetched
    +:+ " 条 (since=" +:+ since +:+ ")".

(** [fetch_thread]: the trace and the exception that ends the thread, if
    any. *)
Definition fetch_thread (requests : list (sub * response)) (since : string)
    : list effect * option exn :=
  match fetch_subscriptions requests 0 with
  | (trace, inr total) =>
      (trace ++ [CallAfter (SetStatusText (fetch_report total since))], None)
  | (trace, inl e) => (trace, Some e)
  end.

End Workers.

End NtfyGUI.

(** ** The calls that reach the list control *)

Module WithListCtrl.

(** How a call ends: it returns a value, or an exception leaves it. *)
Inductive outcome (A : Type) : Type :=
| Returned (value : A)
| Raised.

Arguments Returned {A} value.
Arguments Raised {A}.

Section Formatting.

(** [NtfyMessage.get_formatted_time] is
    [datetime.fromtimestamp(self.time).strftime('%Y-%m-%d %H:%M:%S')].
    [fromtimestamp] raises [OverflowError], [OSError] or [ValueError] for
    a time stamp outside the range that the C library of the platform and
    the years 1..9999 allow; which time stamps these are depends on the
    platform and on the time zone.  [formats time] says that the call
    returns. *)
Variable formats : Z → bool.

(** [_insert_message_into_listctrl]: it evaluates
    [message.get_formatted_time()] first; the calls of the list control
    behind it do not raise. *)
Definition _insert_message_into_listctrl (message : NtfyMessage.t) : outcome unit :=
  if formats (NtfyMessage.time message) then Returned tt else Raised.

(** [MessagePanel.add_message], with the call of
    [_insert_message_into_listctrl] between the insertion into
    [self.messages] and [return True]. *)
Definition add_message (message : NtfyMessage.t) (self : MessagePanel.t)
    : outcome bool * MessagePanel.t :=
  if bool_decide (NtfyMessage.event message = "message")
     && negb (bool_decide (NtfyMessage.id message = ""))
  then
    if bool_decide (NtfyMessage.id message ∈ MessagePanel.message_ids self)
    then (Returned false, self)
    else
      let ids := {[ NtfyMessage.id message ]} ∪ MessagePanel.message_ids self in
      let insert_index :=
        MessagePanel.find_insert_index (NtfyMessage.time message)
          (MessagePanel.messages self) 0 0 in
      let self' :=
        {| MessagePanel.message_ids := ids;
           MessagePanel.messages :=
             MessagePanel.list_insert_at insert_index message
               (MessagePanel.messages self) |} in
      match _insert_message_into_listctrl message with
      | Returned _ => (Returned true, self')
      | Raised => (Raised, self')
      end
  else (Returned false, self).

(** The loop of [load_messages] over the sorted messages:
<<
    for i, msg in enumerate(self.messages):
        self._insert_message_into_listctrl(i, msg)
>> *)
Fixpoint insert_all (msgs : list NtfyMessage.t) : outcome unit :=
  match msgs with
  | [] => Returned tt
  | msg :: rest =>
      match _insert_message_into_listctrl msg with
      | Returned _ => insert_all rest
      | Raised => Raised
      end
  end.

(** [MessagePanel.load_messages]: [self.messages] and [self.message_ids]
    are set before the list control is filled. *)
Definition load_messages (messages_data : list NtfyMessage.dict)
    (self : MessagePanel.t) : outcome unit * MessagePanel.t :=
  let cleared := MessagePanel.clear_messages self in
  let '(ids, loaded_messages) :=
    MessagePanel.load_loop messages_data (MessagePanel.message_ids cleared) [] in
  let self' :=
    {| MessagePanel.message_ids := ids;
       MessagePanel.messages := MessagePanel.sorted_by_time_desc loaded_messages |} in
  (insert_all (MessagePanel.messages self'), self').

(** [NtfyGUI.add_message_and_notify]: an exception of [add_message] leaves
    the function at its first statement. *)
Definition add_message_and_notify (message : NtfyMessage.t)
    (is_live_message : bool) (self : NtfyGUI.t)
    : outcome unit * NtfyGUI.t * list NtfyGUI.shown :=
  match add_message message (NtfyGUI.message_panel self) with
  | (Raised, panel) =>
      (Raised,
       {| NtfyGUI.message_panel := panel;
          NtfyGUI.sub_panel := NtfyGUI.sub_panel self;
          NtfyGUI.sub_message_counts := NtfyGUI.sub_message_counts self |},
       [])
  | (Returned is_newly_added, panel) =>
      if is_newly_added then
        let sub_key := (NtfyMessage.server message, NtfyMessage.topic message) in
        let count := S (default 0%nat (NtfyGUI.sub_message_counts self !! sub_key)) in
        (Returned tt,
         {| NtfyGUI.message_panel := panel;
            NtfyGUI.sub_panel :=
              SubscriptionPanel.update_subscription_message_count
                (NtfyMessage.server message) (NtfyMessage.topic message) count
                (NtfyGUI.sub_panel self);
            NtfyGUI.sub_message_counts :=
              <[sub_key := count]> (NtfyGUI.sub_message_counts self) |},
         if is_live_message then
           [ NtfyGUI.StatusText ("[" +:+ NtfyMessage.topic message +:+ "] "
                                 +:+ NtfyMessage.headline 30 message);
             NtfyGUI.Balloon ("新消息 - " +:+ NtfyMessage.topic message)
                             (NtfyMessage.headline 50 message) ]
         else [])
      else
        (Returned tt,
         {| NtfyGUI.message_panel := panel;
            NtfyGUI.sub_panel := NtfyGUI.sub_panel self;
            NtfyGUI.sub_message_counts := NtfyGUI.sub_message_counts self |},
         [])
  end.

(** One queued call run by the GUI thread.  An exception that leaves a
    callable queued with [wx.CallAfter] is reported by wxPython and the
    event loop goes on with the state as the callable left it. *)
Definition run_call (c : NtfyGUI.call) (self : NtfyGUI.t)
    : NtfyGUI.t * list NtfyGUI.shown * list NtfyGUI.call :=
  match c with
  | NtfyGUI.UpdateSubscriptionStatus server_url topic status =>
      (self, [], [NtfyGUI.SubPanelUpdateStatus server_url topic status])
  | NtfyGUI.SubPanelUpdateStatus server_url topic status =>
      ({| NtfyGUI.message_panel := NtfyGUI.message_panel self;
          NtfyGUI.sub_panel :=
            SubscriptionPanel.update_subscription_status server_url topic status
              (NtfyGUI.sub_panel self);
          NtfyGUI.sub_message_counts := NtfyGUI.sub_message_counts self |}, [], [])
  | NtfyGUI.AddMessageAndNotify message is_live_message =>
      let '(_, self', out) := add_message_and_notify message is_live_message self in
      (self', out, [])
  | NtfyGUI.SetStatusText text => (self, [NtfyGUI.StatusText text], [])
  end.

(** The GUI thread runs the queued calls in the order they were queued. *)
Fixpoint run_calls (queue : list NtfyGUI.call) (self : NtfyGUI.t)
    : NtfyGUI.t * list NtfyGUI.shown * list NtfyGUI.call :=
  match queue with
  | [] => (self, [], [])
  | c :: rest =>
      let '(self1, out1, queued1) := run_call c self in
      let '(self2, out2, queued2) := run_calls rest self1 in
      (self2, out1 ++ out2, queued1 ++ queued2)
  end.

End Formatting.

End WithListCtrl.

(** ** class ControlPanel *)

Module ControlPanel.

(** The loop of [on_clear_click] over the subscriptions:
<<
    for sub in self.sub_panel.get_subscriptions():
        parent.sub_message_counts[(sub['server'], sub['topic'])] = 0
        self.sub_panel.update_subscription_message_count(sub['server'], sub['topic'], 0)
>> *)
Fixpoint reset_counts (subs : list SubscriptionPanel.sub) (parent : NtfyGUI.t)
    : NtfyGUI.t :=
  match subs with
  | [] => parent
  | sub :: rest =>
      let server := SubscriptionPanel.server sub in
      let topic := SubscriptionPanel.topic sub in
      reset_counts rest
        {| NtfyGUI.message_panel := NtfyGUI.message_panel parent;
           NtfyGUI.sub_panel :=
             SubscriptionPanel.update_subscription_message_count server topic 0%nat
               (NtfyGUI.sub_panel parent);
           NtfyGUI.sub_message_counts :=
             <[(server, topic) := 0%nat]> (NtfyGUI.sub_message_counts parent) |}
  end.

(** [on_clear_click]: the frame after the click and what it shows. *)
Definition on_clear_click (parent : NtfyGUI.t) : NtfyGUI.t * list NtfyGUI.shown :=
  let cleared :=
    {| NtfyGUI.message_panel := MessagePanel.clear_messages (NtfyGUI.message_panel parent);
       NtfyGUI.sub_panel := NtfyGUI.sub_panel parent;
       NtfyGUI.sub_message_counts := NtfyGUI.sub_message_counts parent |} in
  (reset_counts (SubscriptionPanel.subscriptions (NtfyGUI.sub_panel parent)) cleared,
   [NtfyGUI.StatusText "消息已清空"]).

End ControlPanel.

(** ** NtfyGUI.save_data and NtfyGUI.load_data *)

Module Persistence.

(** What [save_data] writes and [load_data] reads, without the window
    settings: the (server, topic) pairs of the subscriptions and the
    records of the messages. *)
Record saved : Type := Saved {
  subscriptions : list (string * string);
  messages : list NtfyMessage.dict
}.

(** The file [ntfy_client_data.json] as [load_data] finds it. *)
Inductive file : Type :=
| Missing                 (* os.path.exists is false *)
| Corrupt                 (* json.load raises JSONDecodeError *)
| Stored (data : saved).

(** [save_data] *)
Definition save_data (self : NtfyGUI.t) : saved :=
  {| subscriptions :=
       (λ s, (SubscriptionPanel.server s, SubscriptionPanel.topic s))
         <$> SubscriptionPanel.subscriptions (NtfyGUI.sub_panel self);
     messages :=
       NtfyMessage.to_dict <$> MessagePanel.messages (NtfyGUI.message_panel self) |}.

(** [for sub in data.get('subscriptions', []): sub_panel.add_subscription(...)] *)
Fixpoint add_saved_subscriptions (subs : list (string * string))
    (sub_panel : SubscriptionPanel.t) : SubscriptionPanel.t :=
  match subs with
  | [] => sub_panel
  | (server, topic) :: rest =>
      add_saved_subscriptions rest
        (SubscriptionPanel.add_subscription server topic sub_panel).2
  end.

(** [sum(1 for m in self.message_panel.messages
         if m.server == sub['server'] and m.topic == sub['topic'])] *)
Definition count_messages (server topic : string) (msgs : list NtfyMessage.t) : nat :=
  length (List.filter
            (λ m, bool_decide (NtfyMessage.server m = server)
                  && bool_decide (NtfyMessage.topic m = topic)) msgs).

(** The last loop of [load_data], over the subscriptions of the panel. *)
Fixpoint recount (subs : list SubscriptionPanel.sub) (self : NtfyGUI.t) : NtfyGUI.t :=
  match subs with
  | [] => self
  | sub :: rest =>
      let server := SubscriptionPanel.server sub in
      let topic := SubscriptionPanel.topic sub in
      let count :=
        count_messages server topic
          (MessagePanel.messages (NtfyGUI.message_panel self)) in
      recount rest
        {| NtfyGUI.message_panel := NtfyGUI.message_panel self;
           NtfyGUI.sub_panel :=
             SubscriptionPanel.update_subscription_message_count server topic count
               (NtfyGUI.sub_panel self);
           NtfyGUI.sub_message_counts :=
             <[(server, topic) := count]> (NtfyGUI.sub_message_counts self) |}
  end.

(** [load_data].  The body is inside [try]; when [load_messages] raises
    while it fills the list control, [except Exception] logs the error and
    the counting loop is not run. *)
Definition load_data (formats : Z → bool) (f : file) (self : NtfyGUI.t) : NtfyGUI.t :=
  match f with
  | Missing | Corrupt => self
  | Stored data =>
      let sub_panel :=
        add_saved_subscriptions (subscriptions data) (NtfyGUI.sub_panel self) in
      match messages data with
      | [] =>
          recount (SubscriptionPanel.subscriptions sub_panel)
            {| NtfyGUI.message_panel := NtfyGUI.message_panel self;
               NtfyGUI.sub_panel := sub_panel;
               NtfyGUI.sub_message_counts := NtfyGUI.sub_message_counts self |}
      | _ :: _ =>
          match WithListCtrl.load_messages formats (messages data)
                  (NtfyGUI.message_panel self) with
          | (WithListCtrl.Returned _, message_panel) =>
              recount (SubscriptionPanel.subscriptions sub_panel)
                {| NtfyGUI.message_panel := message_panel;
                   NtfyGUI.sub_panel := sub_panel;
                   NtfyGUI.sub_message_counts := NtfyGUI.sub_message_counts self |}
          | (WithListCtrl.Raised, message_panel) =>
              {| NtfyGUI.message_panel := message_panel;
                 NtfyGUI.sub_panel := sub_panel;
                 NtfyGUI.sub_message_counts := NtfyGUI.sub_message_counts self |}
          end
      end
  end.

End Persistence.

(** ** NtfyGUI.start_listening and NtfyGUI.stop_listening_func *)

Module Listening.

(** What [self.current_subscriptions] refers to: the empty list of
    [__init__], or the list object of the registry.  [get_subscriptions]
    returns [self.subscriptions] itself, not a copy, and both callers of
    [start_listening] ([on_connect_click] and [auto_start_listening]) pass
    that object on, so after a start [current_subscriptions] is the
    registry as it is when it is read. *)
Inductive subscriptions_ref : Type :=
| InitialList
| RegistryList.

(** The frame with the state of the listening. *)
Record t : Type := State {
  frame : NtfyGUI.t;
  listening_threads : gset (string * string);   (* the keys of the dict *)
  stop_listening : bool;
  auto_reconnect : bool;
  current_subscriptions : subscriptions_ref
}.

(** [__init__] *)
Definition new : t :=
  {| frame := NtfyGUI.new;
     listening_threads := ∅;
     stop_listening := false;
     auto_reconnect := true;
     current_subscriptions := InitialList |}.

Inductive effect : Type :=
| LogAlreadyListening                    (* logger.warning("已在监听中，请先断开。") *)
| StartThread (sub : SubscriptionPanel.sub)
    (* threading.Thread(target=self.listen_subscription_with_reconnect,
                        args=(sub,), daemon=True).start() *)
| CallAfter (c : NtfyGUI.call)
| SetConnectedState (connected : bool).
    (* wx.CallAfter(self.control_panel.set_connected_state, connected) *)

(** The list [self.current_subscriptions] stands for. *)
Definition current (self : t) : list SubscriptionPanel.sub :=
  match current_subscriptions self with
  | InitialList => []
  | RegistryList => SubscriptionPanel.subscriptions (NtfyGUI.sub_panel (frame self))
  end.

(** The loop of [start_listening]:
<<
    for sub in subscriptions:
        sub_key = (sub['server'], sub['topic'])
        if sub_key not in self.sub_message_counts:
            self.sub_message_counts[sub_key] = 0
        thread = threading.Thread(...)
        self.listening_threads[sub_key] = thread
        thread.start()
>> *)
Fixpoint start_threads (subscriptions : list SubscriptionPanel.sub)
    (sub_message_counts : gmap (string * string) nat)
    (threads : gset (string * string))
    : gmap (string * string) nat * gset (string * string) * list effect :=
  match subscriptions with
  | [] => (sub_message_counts, threads, [])
  | sub :: rest =>
      let sub_key := (SubscriptionPanel.server sub, SubscriptionPanel.topic sub) in
      let sub_message_counts :=
        match sub_message_counts !! sub_key with
        | None => <[sub_key := 0%nat]> sub_message_counts
        | Some _ => sub_message_counts
        end in
      let '(counts, threads', started) :=
        start_threads rest sub_message_counts ({[ sub_key ]} ∪ threads) in
      (counts, threads', StartThread sub :: started)
  end.

(** [start_listening(subscriptions, auto_reconnect)], with the registry
    list as [subscriptions]. *)
Definition start_listening (auto_reconnect' : bool) (self : t) : t * list effect :=
  if negb (bool_decide (listening_threads self = ∅))
  then (self, [LogAlreadyListening])
  else
    let subscriptions :=
      SubscriptionPanel.subscriptions (NtfyGUI.sub_panel (frame self)) in
    let '(counts, threads, started) :=
      start_threads subscriptions (NtfyGUI.sub_message_counts (frame self))
        (listening_threads self) in
    ({| frame :=
          {| NtfyGUI.message_panel := NtfyGUI.message_panel (frame self);
             NtfyGUI.sub_panel := NtfyGUI.sub_panel (frame self);
             NtfyGUI.sub_message_counts := counts |};
        listening_threads := threads;
        stop_listening := false;
        auto_reconnect := auto_reconnect';
        current_subscriptions := RegistryList |},
     started
     ++ [ CallAfter
            (NtfyGUI.SetStatusText
               ("正在监听 " +:+ pretty (length subscriptions) +:+ " 个订阅"));
          SetConnectedState true ]).

(** [stop_listening_func] *)
Definition stop_listening_func (self : t) : t * list effect :=
  ({| frame := frame self;
      listening_threads := ∅;
      stop_listening := true;
      auto_reconnect := false;
      current_subscriptions := current_subscriptions self |},
   ((λ sub,
       CallAfter
         (NtfyGUI.UpdateSubscriptionStatus
            (SubscriptionPanel.server sub) (SubscriptionPanel.topic sub) "已断开"))
      <$> current self)
   ++ [ CallAfter (NtfyGUI.SetStatusText "已停止监听");
        SetConnectedState false ]).

(** The calls of a trace that the GUI thread runs on the frame, in order. *)
Definition queued (trace : list effect) : list NtfyGUI.call :=
  omap (λ e, match e with CallAfter c => Some c | _ => None end) trace.

(** The GUI thread runs the queued calls, and then the calls these have
    queued. *)
Definition settle (queue : list NtfyGUI.call) (g : NtfyGUI.t) : NtfyGUI.t :=
  let '(g1, _, queue1) := NtfyGUI.run_calls queue g in
  (NtfyGUI.run_calls queue1 g1).1.1.

End Listening.

(** * Notions used in the statements *)

(** [a] may stand before [b] in the history: [a] is not older than [b]. *)
Definition not_older (a b : NtfyMessage.t) : Prop :=
  (NtfyMessage.time b ≤ NtfyMessage.time a)%Z.

(** [a] is strictly newer than [b]. *)
Definition newer (a b : NtfyMessage.t) : Prop :=
  (NtfyMessage.time b < NtfyMessage.time a)%Z.

(** The history is in descending order of time, equal times allowed. *)
Definition descending (l : list NtfyMessage.t) : Prop :=
  StronglySorted not_older l.

(** The history is in strictly descending order of time. *)
Definition strictly_descending (l : list NtfyMessage.t) : Prop :=
  StronglySorted newer l.

(** The panel after one admission, and after a sequence of them. *)
Definition after_admission (self : MessagePanel.t) (message : NtfyMessage.t) : MessagePanel.t :=
  (MessagePanel.add_message message self).2.

Definition after_admissions (ms : list NtfyMessage.t) (self : MessagePanel.t) : MessagePanel.t :=
  foldl after_admission self ms.

(** Where [add_message] puts a message, written by recursion on the history
    instead of by index: behind every entry that is not older. *)
Fixpoint place (m : NtfyMessage.t) (l : list NtfyMessage.t) : list NtfyMessage.t :=
  match l with
  | [] => [m]
  | e :: l' =>
      if NtfyMessage.time m >? NtfyMessage.time e then m :: l else e :: place m l'
  end.

(** The states of the panel a session can reach. *)
Inductive reachable : MessagePanel.t → Prop :=
| reach_new : reachable MessagePanel.new
| reach_add m st : reachable st → reachable (after_admission st m)
| reach_load data st : reachable st → reachable (MessagePanel.load_messages data st)
| reach_clear st : reachable st → reachable (MessagePanel.clear_messages st).

(** The identifier [NtfyMessage(data)] gets. *)
Definition id_of (data : NtfyMessage.dict) : string :=
  default "" (NtfyMessage.d_id data).

(** A message of the example scenario. *)
Definition sample (i : string) (t : Z) : NtfyMessage.t :=
  {| NtfyMessage.id := i; NtfyMessage.time := t; NtfyMessage.event := "message";
     NtfyMessage.topic := "alerts"; NtfyMessage.message := "hi";
     NtfyMessage.title := ""; NtfyMessage.tags := []; NtfyMessage.priority := 3;
     NtfyMessage.click := ""; NtfyMessage.attachment := ∅;
     NtfyMessage.server := "https://ntfy.sh" |}.

(** Two messages with the same time stamp, admitted one after the other. *)
Definition first_a1 : NtfyMessage.t := sample "a1" 1000.
Definition then_a2 : NtfyMessage.t := sample "a2" 1000.

(** A keepalive event. *)
Definition keepalive : NtfyMessage.t :=
  NtfyMessage.init
    {| NtfyMessage.d_id := Some "k1"; NtfyMessage.d_time := Some 1000;
       NtfyMessage.d_event := Some "keepalive"; NtfyMessage.d_topic := Some "alerts";
       NtfyMessage.d_message := None; NtfyMessage.d_title := None;
       NtfyMessage.d_tags := None; NtfyMessage.d_priority := None;
       NtfyMessage.d_click := None; NtfyMessage.d_attachment := None;
       NtfyMessage.d_server := Some "https://ntfy.sh" |}.

(** The key of a registry entry. *)
Definition sub_key (s : SubscriptionPanel.sub) : string * string :=
  (SubscriptionPanel.server s, SubscriptionPanel.topic s).

(** The last character of [s] is a slash. *)
Fixpoint ends_with_slash (s : string) : bool :=
  match s with
  | EmptyString => false
  | String c rest =>
      match rest with
      | EmptyString => Ascii.eqb c "/"
      | String _ _ => ends_with_slash rest
      end
  end.

(** A run of [n] slashes. *)
Fixpoint slashes (n : nat) : string :=
  match n with
  | O => EmptyString
  | S n' => String "/" (slashes n')
  end.

(** The registries a session can reach. *)
Inductive registry_reachable : SubscriptionPanel.t → Prop :=
| registry_new : registry_reachable SubscriptionPanel.new
| registry_add server_url topic_name self :
    registry_reachable self →
    registry_reachable (SubscriptionPanel.add_subscription server_url topic_name self).2
| registry_remove selected self :
    registry_reachable self →
    registry_reachable (SubscriptionPanel.remove_subscription selected self)
| registry_status server_url topic_name status self :
    registry_reachable self →
    registry_reachable
      (SubscriptionPanel.update_subscription_status server_url topic_name status self)
| registry_count server_url topic_name count self :
    registry_reachable self →
    registry_reachable
      (SubscriptionPanel.update_subscription_message_count server_url topic_name count self).

(** The registry with the subscription of the example scenario, entered
    without scheme and with a trailing slash. *)
Definition alerts_registry : SubscriptionPanel.t :=
  (SubscriptionPanel.add_subscription "ntfy.sh/" "alerts" SubscriptionPanel.new).2.

(** The tray balloon is the "new message" notification. *)
Definition is_balloon (o : NtfyGUI.shown) : bool :=
  match o with
  | NtfyGUI.Balloon _ _ => true
  | NtfyGUI.StatusText _ => false
  end.

(** How many of the queued calls after_admission a new message when the GUI thread
    runs them from state [self]. *)
Fixpoint admissions (queue : list NtfyGUI.call) (self : NtfyGUI.t) : nat :=
  match queue with
  | [] => 0%nat
  | c :: rest =>
      (match c with
       | NtfyGUI.AddMessageAndNotify m _ =>
           if (MessagePanel.add_message m (NtfyGUI.message_panel self)).1
           then 1%nat else 0%nat
       | _ => 0%nat
       end + admissions rest (NtfyGUI.run_call c self).1.1)%nat
  end.

(** The call hands over an event of kind [message]. *)
Definition is_message_event (c : NtfyGUI.call) : bool :=
  match c with
  | NtfyGUI.AddMessageAndNotify m _ => bool_decide (NtfyMessage.event m = "message")
  | _ => false
  end.

(** How many of the queued calls carry an event of kind [message]. *)
Definition message_events (queue : list NtfyGUI.call) : nat :=
  length (List.filter is_message_event queue).

(** The decode errors logged in a trace. *)
Definition decode_errors (trace : list NtfyGUI.effect) : nat :=
  length (List.filter NtfyGUI.is_json_error trace).

(** The record of a message event as the server sends it. *)
Definition message_record (i : string) (t : Z) : NtfyMessage.dict :=
  {| NtfyMessage.d_id := Some i; NtfyMessage.d_time := Some t;
     NtfyMessage.d_event := Some "message"; NtfyMessage.d_topic := Some "alerts";
     NtfyMessage.d_message := Some "hi"; NtfyMessage.d_title := None;
     NtfyMessage.d_tags := None; NtfyMessage.d_priority := None;
     NtfyMessage.d_click := None; NtfyMessage.d_attachment := None;
     NtfyMessage.d_server := None |}.

(** A decoder for three lines standing for the records [a1], [a2] and
    [a3]; any other line is not JSON. *)
Definition sample_loads (line : string) : NtfyGUI.parsed :=
  if bool_decide (line = "line a1") then NtfyGUI.Object (message_record "a1" 1000)
  else if bool_decide (line = "line a2") then NtfyGUI.Object (message_record "a2" 1001)
  else if bool_decide (line = "line a3") then NtfyGUI.Object (message_record "a3" 1002)
  else NtfyGUI.JSONDecodeError.

(** The subscription of the example scenario. *)
Definition alerts : SubscriptionPanel.sub :=
  {| SubscriptionPanel.server := "https://ntfy.sh";
     SubscriptionPanel.topic := "alerts";
     SubscriptionPanel.status := "未连接";
     SubscriptionPanel.message_count := 0%nat |}.

(** The frame after [a1] has come in over the live stream. *)
Definition frame_with_a1 : NtfyGUI.t :=
  (NtfyGUI.add_message_and_notify first_a1 true NtfyGUI.new).1.

(** Every hand-over of a message in the queue carries the flag
    [is_live_message = b]. *)
Definition call_flag_is (b : bool) (c : NtfyGUI.call) : Prop :=
  match c with
  | NtfyGUI.AddMessageAndNotify _ is_live_message => is_live_message = b
  | _ => True
  end.

Definition flag_is (b : bool) (e : NtfyGUI.effect) : Prop :=
  match e with
  | NtfyGUI.CallAfter c => call_flag_is b c
  | _ => True
  end.

(** What [add_message_and_notify] shows for a new live message. *)
Definition live_notification (m : NtfyMessage.t) : list NtfyGUI.shown :=
  [ NtfyGUI.StatusText ("[" +:+ NtfyMessage.topic m +:+ "] "
                        +:+ NtfyMessage.headline 30 m);
    NtfyGUI.Balloon ("新消息 - " +:+ NtfyMessage.topic m) (NtfyMessage.headline 50 m) ].

(** The status text of a reconnect, after a stream that ended cleanly and
    after one that raised. *)
Definition reconnecting_status (raised : option NtfyGUI.exn) (attempt : nat) : string :=
  match raised with
  | None => "重连中(" +:+ pretty attempt +:+ ")"
  | Some _ => "错误,重连中(" +:+ pretty attempt +:+ ")"
  end.

(** What the worker does when it decides to reconnect. *)
Definition announce_reconnect (subscription : SubscriptionPanel.sub)
    (raised : option NtfyGUI.exn) (attempt : nat) : list NtfyGUI.effect :=
  [ NtfyGUI.Log (match raised with None => NtfyGUI.Info | Some _ => NtfyGUI.Error end)
      (match raised with
       | None => NtfyGUI.LogReconnect attempt
       | Some _ => NtfyGUI.LogReconnectError attempt
       end);
    NtfyGUI.CallAfter
      (NtfyGUI.UpdateSubscriptionStatus
         (SubscriptionPanel.server subscription) (SubscriptionPanel.topic subscription)
         (reconnecting_status raised attempt)) ].

(** The worker enters [Connecting]: it queues the status "连接中...". *)
Definition connecting (subscription : SubscriptionPanel.sub) : NtfyGUI.effect :=
  NtfyGUI.CallAfter
    (NtfyGUI.UpdateSubscriptionStatus
       (SubscriptionPanel.server subscription) (SubscriptionPanel.topic subscription)
       "连接中...").

(** No stop request is seen. *)
Definition quiet (o : NtfyGUI.observation) : Prop :=
  NtfyGUI.stop_listening o = false.

(** The place of the worker with [k] rounds of the sleep loop to go. *)
Definition backoff_pc (attempts k : nat) : NtfyGUI.pc :=
  match k with
  | O => NtfyGUI.LoopHead attempts
  | S k' => NtfyGUI.Backoff attempts (S k')
  end.

(** An observation with the two flags as given and a connection that is
    refused. *)
Definition observe (stop auto : bool) : NtfyGUI.observation :=
  {| NtfyGUI.stop_listening := stop; NtfyGUI.auto_reconnect := auto;
     NtfyGUI.next_session :=
       {| NtfyGUI.connected := false; NtfyGUI.received := [];
          NtfyGUI.broken := false |} |}.

(** The states of the panel a session can reach when every record of a
    loaded file has an [id] key. *)
Inductive reachable_with_ids : MessagePanel.t → Prop :=
| reach_ids_new : reachable_with_ids MessagePanel.new
| reach_ids_add m st :
    reachable_with_ids st → reachable_with_ids (after_admission st m)
| reach_ids_load data st :
    Forall (λ d, is_Some (NtfyMessage.d_id d)) data →
    reachable_with_ids st →
    reachable_with_ids (MessagePanel.load_messages data st)
| reach_ids_clear st :
    reachable_with_ids st → reachable_with_ids (MessagePanel.clear_messages st).

(** The message that an effect hands over, if it hands one over, carries
    one of the servers [urls]. *)
Definition stamped (urls : list string) (e : NtfyGUI.effect) : Prop :=
  match e with
  | NtfyGUI.CallAfter (NtfyGUI.AddMessageAndNotify m _) => NtfyMessage.server m ∈ urls
  | _ => True
  end.

(** An empty line that comes in while no stop is requested. *)
Definition is_idle_line (l : bool * string) : bool :=
  negb l.1 && bool_decide (l.2 = "").

(** The reconnect counter of the worker, while it runs. *)
Definition attempts_of (p : NtfyGUI.pc) : option nat :=
  match p with
  | NtfyGUI.LoopHead n | NtfyGUI.Listening n | NtfyGUI.Ended n _
  | NtfyGUI.Backoff n _ => Some n
  | NtfyGUI.Exited => None
  end.

(** The history fetch queues its completion report. *)
Definition is_fetch_report (e : NtfyGUI.effect) : bool :=
  match e with
  | NtfyGUI.CallAfter (NtfyGUI.SetStatusText _) => true
  | _ => false
  end.

(** The number of messages of the history that belong to a subscription
    key. *)
Definition messages_of (key : string * string) (msgs : list NtfyMessage.t) : nat :=
  Persistence.count_messages key.1 key.2 msgs.

(** The frame with another registry. *)
Definition with_sub_panel (p : SubscriptionPanel.t) (g : NtfyGUI.t) : NtfyGUI.t :=
  {| NtfyGUI.message_panel := NtfyGUI.message_panel g;
     NtfyGUI.sub_panel := p;
     NtfyGUI.sub_message_counts := NtfyGUI.sub_message_counts g |}.

(** The frames a session reaches from the empty one by the calls the GUI
    thread runs, by adding and removing subscriptions and by starting to
    listen, without a load and without a click on "clear". *)
Inductive frame_reachable (formats : Z → bool) : NtfyGUI.t → Prop :=
| frame_new : frame_reachable formats NtfyGUI.new
| frame_call c g :
    frame_reachable formats g →
    frame_reachable formats (WithListCtrl.run_call formats c g).1.1
| frame_add server_url topic_name g :
    frame_reachable formats g →
    frame_reachable formats
      (with_sub_panel
         (SubscriptionPanel.add_subscription server_url topic_name
            (NtfyGUI.sub_panel g)).2 g)
| frame_remove selected g :
    frame_reachable formats g →
    frame_reachable formats
      (with_sub_panel
         (SubscriptionPanel.remove_subscription selected (NtfyGUI.sub_panel g)) g)
| frame_start auto_reconnect self :
    frame_reachable formats (Listening.frame self) →
    frame_reachable formats
      (Listening.frame (Listening.start_listening auto_reconnect self).1).

(** The time stamp of the message can be formatted for the list control. *)
Definition formattable (formats : Z → bool) (m : NtfyMessage.t) : bool :=
  formats (NtfyMessage.time m).

(** The number of messages of the history that belong to a subscription
    key and have their row in the list control. *)
Definition rows_of (formats : Z → bool) (key : string * string)
    (msgs : list NtfyMessage.t) : nat :=
  messages_of key (List.filter (formattable formats) msgs).

(** What [add_message] answered: "newly added". *)
Definition newly_added (o : WithListCtrl.outcome bool) : bool :=
  match o with
  | WithListCtrl.Returned b => b
  | WithListCtrl.Raised => false
  end.

(** A platform that formats the time stamps of the years 1970 to 9999:
    from 0 up to 253402300799. *)
Definition sample_formats (time : Z) : bool :=
  (0 <=? time)%Z && (time <? 253402300800)%Z.

(** A live message of the example subscription with a time stamp far
    behind the year 9999. *)
Definition late_a9 : NtfyMessage.t := sample "a9" 1000000000000000000.

(** A line that is not valid UTF-8: the single byte 255. *)
Definition invalid_utf8 : string := String "255" EmptyString.

(** [sample_loads] with the line that is not valid UTF-8. *)
Definition sample_loads_bytes (line : string) : NtfyGUI.parsed :=
  if bool_decide (line = invalid_utf8) then NtfyGUI.BadUnicode
  else sample_loads line.

(** A registry entry with another message count. *)
Definition with_count (count : nat) (s : SubscriptionPanel.sub) : SubscriptionPanel.sub :=
  {| SubscriptionPanel.server := SubscriptionPanel.server s;
     SubscriptionPanel.topic := SubscriptionPanel.topic s;
     SubscriptionPanel.status := SubscriptionPanel.status s;
     SubscriptionPanel.message_count := count |}.

(** The entry [add_subscription] appends for a key. *)
Definition fresh_entry (key : string * string) : SubscriptionPanel.sub :=
  {| SubscriptionPanel.server := key.1;
     SubscriptionPanel.topic := key.2;
     SubscriptionPanel.status := "未连接";
     SubscriptionPanel.message_count := 0%nat |}.

(** The shape the counting loops of [on_clear_click] and [load_data]
    share: for each subscription, in order, the counter of its key and
    the count of its entry are set to [count key]. *)
Fixpoint set_counts (count : string * string → nat)
    (subs : list SubscriptionPanel.sub) (g : NtfyGUI.t) : NtfyGUI.t :=
  match subs with
  | [] => g
  | sub :: rest =>
      set_counts count rest
        {| NtfyGUI.message_panel := NtfyGUI.message_panel g;
           NtfyGUI.sub_panel :=
             SubscriptionPanel.update_subscription_message_count
               (SubscriptionPanel.server sub) (SubscriptionPanel.topic sub)
               (count (sub_key sub)) (NtfyGUI.sub_panel g);
           NtfyGUI.sub_message_counts :=
             <[sub_key sub := count (sub_key sub)]> (NtfyGUI.sub_message_counts g) |}
  end.


(** The frame of the example scenario: [a1] has come in, and then the
    subscription has been added. *)
Definition frame_with_alerts : NtfyGUI.t :=
  with_sub_panel alerts_registry frame_with_a1.

(** The threads a trace starts, in order. *)
Definition started (trace : list Listening.effect) : list SubscriptionPanel.sub :=
  omap (λ e, match e with Listening.StartThread sub => Some sub | _ => None end) trace.

(** A registry entry with another status. *)
Definition with_status (status : string) (s : SubscriptionPanel.sub) : SubscriptionPanel.sub :=
  {| SubscriptionPanel.server := SubscriptionPanel.server s;
     SubscriptionPanel.topic := SubscriptionPanel.topic s;
     SubscriptionPanel.status := status;
     SubscriptionPanel.message_count := SubscriptionPanel.message_count s |}.

(** The listening state of the example scenario, before the first start. *)
Definition listening_alerts : Listening.t :=
  {| Listening.frame := frame_with_alerts;
     Listening.listening_threads := ∅;
     Listening.stop_listening := false;
     Listening.auto_reconnect := true;
     Listening.current_subscriptions := Listening.InitialList |}.

(** * The history: [MessagePanel] *)

Section History.

Implicit Types (m e : NtfyMessage.t) (l : list NtfyMessage.t) (st : MessagePanel.t).

Lemma find_insert_index_shift t l i :
  MessagePanel.find_insert_index t l i i
  = (i + MessagePanel.find_insert_index t l 0 0)%nat.
Proof.
  revert i. induction l as [|e l IH]; intros i; simpl.
  - lia.
  - destruct (t >? NtfyMessage.time e); [lia|].
    rewrite (IH (S i)), (IH 1%nat). lia.
Qed.

Lemma insert_at_index_place m l :
  MessagePanel.list_insert_at
    (MessagePanel.find_insert_index (NtfyMessage.time m) l 0 0) m l
  = place m l.
Proof.
  unfold MessagePanel.list_insert_at.
  induction l as [|e l IH]; simpl; [done|].
  destruct (NtfyMessage.time m >? NtfyMessage.time e); [done|].
  rewrite (find_insert_index_shift _ _ 1). simpl. by rewrite IH.
Qed.

(** [add_message] as a case distinction. *)
Lemma add_message_cases m st :
  (NtfyMessage.event m = "message" ∧ NtfyMessage.id m ≠ ""
   ∧ (NtfyMessage.id m ∉ MessagePanel.message_ids st)
   ∧ MessagePanel.add_message m st
     = (true, {| MessagePanel.message_ids :=
                   {[ NtfyMessage.id m ]} ∪ MessagePanel.message_ids st;
                 MessagePanel.messages := place m (MessagePanel.messages st) |}))
  ∨ ((NtfyMessage.event m ≠ "message" ∨ NtfyMessage.id m = ""
      ∨ NtfyMessage.id m ∈ MessagePanel.message_ids st)
     ∧ MessagePanel.add_message m st = (false, st)).
Proof.
  unfold MessagePanel.add_message.
  destruct (decide (NtfyMessage.event m = "message")) as [He|He];
    destruct (decide (NtfyMessage.id m = "")) as [Hi|Hi];
    destruct (decide (NtfyMessage.id m ∈ MessagePanel.message_ids st)) as [Hs|Hs];
    rewrite ?(bool_decide_eq_true_2 _ He), ?(bool_decide_eq_false_2 _ He),
      ?(bool_decide_eq_true_2 _ Hi), ?(bool_decide_eq_false_2 _ Hi),
      ?(bool_decide_eq_true_2 _ Hs), ?(bool_decide_eq_false_2 _ Hs); simpl;
    try (right; split; [tauto|done]).
  left. rewrite insert_at_index_place. done.
Qed.

Lemma place_split m l :
  ∃ l1 l2, l = l1 ++ l2 ∧ place m l = l1 ++ m :: l2
    ∧ Forall (λ e, not_older e m) l1
    ∧ (∀ e, head l2 = Some e → newer m e).
Proof.
  induction l as [|e l (l1 & l2 & -> & Hp & H1 & H2)]; simpl.
  - exists [], []. repeat split; [constructor | done].
  - destruct (NtfyMessage.time m >? NtfyMessage.time e) eqn:Hgt.
    + exists [], (e :: l1 ++ l2). repeat split; [constructor|].
      intros e' [= <-]. unfold newer. lia.
    + exists (e :: l1), l2. rewrite Hp. repeat split; [|done].
      constructor; [unfold not_older; lia | done].
Qed.

Lemma descending_app_inv l1 l2 :
  descending (l1 ++ l2) →
  descending l1 ∧ descending l2 ∧ Forall (λ a, Forall (not_older a) l2) l1.
Proof.
  induction l1 as [|a l1 IH]; simpl; intros H.
  - repeat split; [constructor | done | constructor].
  - apply StronglySorted_inv in H as [Hs Hf].
    destruct (IH Hs) as (H1 & H2 & H3).
    apply Forall_app in Hf as [Hf1 Hf2].
    repeat split; [by constructor | done | by constructor].
Qed.

Lemma descending_app l1 l2 :
  descending l1 → descending l2 →
  Forall (λ a, Forall (not_older a) l2) l1 → descending (l1 ++ l2).
Proof.
  induction l1 as [|a l1 IH]; simpl; intros H1 H2 H3; [done|].
  apply StronglySorted_inv in H1 as [Hs Hf].
  apply Forall_cons in H3 as [Ha H3].
  constructor; [by apply IH | by apply Forall_app].
Qed.

Lemma descending_head_newer m l :
  descending l → (∀ e, head l = Some e → newer m e) → Forall (newer m) l.
Proof.
  intros Hd Hh. destruct l as [|e l]; [constructor|].
  specialize (Hh e eq_refl). apply StronglySorted_inv in Hd as [_ Hf].
  constructor; [done|].
  eapply Forall_impl; [exact Hf|]. unfold newer, not_older in *. simpl. intros; lia.
Qed.

(** In a sorted history the message lands behind all entries that are not
    older and before all entries that are older. *)
Lemma place_sorted_split m l :
  descending l →
  ∃ l1 l2, l = l1 ++ l2 ∧ place m l = l1 ++ m :: l2
    ∧ Forall (λ e, not_older e m) l1 ∧ Forall (newer m) l2.
Proof.
  intros Hd. destruct (place_split m l) as (l1 & l2 & -> & Hp & H1 & H2).
  exists l1, l2. repeat split; try done.
  apply descending_app_inv in Hd as (_ & Hd2 & _).
  by apply descending_head_newer.
Qed.

Lemma place_descending m l : descending l → descending (place m l).
Proof.
  intros Hd. destruct (place_sorted_split m l Hd) as (l1 & l2 & -> & -> & H1 & H2).
  apply descending_app_inv in Hd as (Hd1 & Hd2 & H12).
  apply descending_app; [done| |].
  - constructor; [done|].
    eapply Forall_impl; [exact H2|]. unfold newer, not_older. simpl. intros; lia.
  - apply Forall_forall. intros a Ha. constructor.
    + by eapply Forall_forall in H1.
    + by eapply Forall_forall in H12.
Qed.

Lemma add_message_descending m st :
  descending (MessagePanel.messages st) →
  descending (MessagePanel.messages (after_admission st m)).
Proof.
  intros Hd. unfold after_admission.
  destruct (add_message_cases m st) as [(_ & _ & _ & ->)|[_ ->]]; simpl; [|done].
  by apply place_descending.
Qed.

End History.

(** ** Sorting at load time *)

Section Sorting.

Implicit Types (m x y : NtfyMessage.t) (l : list NtfyMessage.t).

Lemma insert_by_time_perm x l : MessagePanel.insert_by_time x l ≡ₚ x :: l.
Proof.
  induction l as [|y l IH]; simpl; [done|].
  destruct (NtfyMessage.time y >? NtfyMessage.time x); [|done].
  rewrite IH. apply Permutation_swap.
Qed.

Lemma sorted_by_time_desc_perm l : MessagePanel.sorted_by_time_desc l ≡ₚ l.
Proof.
  induction l as [|x l IH]; simpl; [done|].
  rewrite insert_by_time_perm. by rewrite IH.
Qed.

Lemma insert_by_time_descending x l :
  descending l → descending (MessagePanel.insert_by_time x l).
Proof.
  induction l as [|y l IH]; simpl; intros Hd.
  - repeat constructor.
  - apply StronglySorted_inv in Hd as [Hs Hf].
    destruct (NtfyMessage.time y >? NtfyMessage.time x) eqn:Hgt.
    + constructor; [by apply IH|].
      rewrite insert_by_time_perm. constructor; [|done].
      unfold not_older. lia.
    + constructor; [by constructor|].
      constructor; [unfold not_older; lia|].
      eapply Forall_impl; [exact Hf|]. unfold not_older. simpl. intros; lia.
Qed.

Lemma sorted_by_time_desc_descending l :
  descending (MessagePanel.sorted_by_time_desc l).
Proof.
  induction l as [|x l IH]; simpl; [constructor|].
  by apply insert_by_time_descending.
Qed.

(** A list that is already in order is returned as it is. *)
Lemma sorted_by_time_desc_id l :
  descending l → MessagePanel.sorted_by_time_desc l = l.
Proof.
  induction l as [|x l IH]; simpl; intros Hd; [done|].
  apply StronglySorted_inv in Hd as [Hs Hf]. rewrite (IH Hs).
  destruct l as [|y l]; simpl; [done|].
  apply Forall_cons in Hf as [Hy _]. unfold not_older in Hy.
  destruct (NtfyMessage.time y >? NtfyMessage.time x) eqn:Hgt; [lia|done].
Qed.

End Sorting.

(** ** The identifiers seen so far *)

Section Dedup.

Implicit Types (m : NtfyMessage.t) (st : MessagePanel.t).

Lemma admission_ids_mono m st :
  MessagePanel.message_ids st ⊆ MessagePanel.message_ids (after_admission st m).
Proof.
  unfold after_admission.
  destruct (add_message_cases m st) as [(_ & _ & _ & ->)|[_ ->]]; simpl;
    set_solver.
Qed.

Lemma admissions_ids_mono ms st :
  MessagePanel.message_ids st ⊆ MessagePanel.message_ids (after_admissions ms st).
Proof.
  revert st. induction ms as [|m ms IH]; intros st; simpl; [done|].
  etrans; [apply (admission_ids_mono m)|apply IH].
Qed.

Lemma add_message_seen m st :
  NtfyMessage.id m ∈ MessagePanel.message_ids st →
  MessagePanel.add_message m st = (false, st).
Proof.
  intros Hin.
  destruct (add_message_cases m st) as [(_ & _ & Hn & _)|[_ ->]]; [done|done].
Qed.

Lemma load_loop_ids data ids loaded :
  (MessagePanel.load_loop data ids loaded).1
  = list_to_set (id_of <$> data) ∪ ids.
Proof.
  revert ids loaded. induction data as [|d data IH]; intros ids loaded.
  - set_solver.
  - rewrite fmap_cons, list_to_set_cons. cbn [MessagePanel.load_loop].
    assert (NtfyMessage.id (NtfyMessage.init d) = id_of d) as -> by done.
    unfold id_of at 1 2. destruct (NtfyMessage.d_id d) as [i|]; simpl.
    + case_bool_decide as Hi; rewrite IH; set_solver.
    + rewrite IH. set_solver.
Qed.

Lemma load_messages_ids data st :
  MessagePanel.message_ids (MessagePanel.load_messages data st)
  = list_to_set (id_of <$> data).
Proof.
  unfold MessagePanel.load_messages. simpl.
  pose proof (load_loop_ids data ∅ []) as H.
  destruct (MessagePanel.load_loop data ∅ []) as [ids loaded]. simpl in *.
  rewrite H. set_solver.
Qed.

Lemma load_messages_descending data st :
  descending (MessagePanel.messages (MessagePanel.load_messages data st)).
Proof.
  unfold MessagePanel.load_messages. simpl.
  destruct (MessagePanel.load_loop data ∅ []) as [ids loaded]. simpl.
  apply sorted_by_time_desc_descending.
Qed.

(** Records written by [to_dict] from messages with pairwise different
    ids, none of them seen yet, are all loaded, in their order. *)
Lemma load_loop_saved (ms : list NtfyMessage.t) ids loaded :
  NoDup (NtfyMessage.id <$> ms) →
  (∀ m, m ∈ ms → NtfyMessage.id m ∉ ids) →
  (MessagePanel.load_loop (NtfyMessage.to_dict <$> ms) ids loaded).2
  = loaded ++ ms.
Proof.
  revert ids loaded. induction ms as [|m ms IH]; intros ids loaded Hnd Hfresh.
  - simpl. by rewrite app_nil_r.
  - rewrite fmap_cons in Hnd. rewrite fmap_cons. apply NoDup_cons in Hnd as [Hm Hnd].
    cbn [MessagePanel.load_loop NtfyMessage.to_dict NtfyMessage.d_id].
    rewrite bool_decide_eq_false_2 by (apply Hfresh; left).
    assert (NtfyMessage.init (NtfyMessage.to_dict m) = m) as Hrt by (by destruct m).
    change (NtfyMessage.init _) with (NtfyMessage.init (NtfyMessage.to_dict m)).
    rewrite Hrt, IH, <- app_assoc; [done|done|].
    intros m' Hm' Hin. apply elem_of_union in Hin as [Hin|Hin].
    + apply elem_of_singleton in Hin. apply Hm. rewrite <- Hin.
      by apply list_elem_of_fmap_2.
    + eapply Hfresh; [right; exact Hm'|done].
Qed.

(** The ids of messages that came in by admissions alone are pairwise
    different, and they are the dedup index. *)
Lemma after_admissions_ids (ms : list NtfyMessage.t) :
  let st := after_admissions ms MessagePanel.new in
  NoDup (NtfyMessage.id <$> MessagePanel.messages st)
  ∧ MessagePanel.message_ids st
    = list_to_set (NtfyMessage.id <$> MessagePanel.messages st).
Proof.
  cbv zeta.
  assert (∀ st,
            NoDup (NtfyMessage.id <$> MessagePanel.messages st)
            ∧ MessagePanel.message_ids st
              = list_to_set (NtfyMessage.id <$> MessagePanel.messages st) →
            NoDup (NtfyMessage.id <$> MessagePanel.messages (after_admissions ms st))
            ∧ MessagePanel.message_ids (after_admissions ms st)
              = list_to_set
                  (NtfyMessage.id <$> MessagePanel.messages (after_admissions ms st)))
    as H; [|apply H; split; [constructor|done]].
  induction ms as [|m ms IH]; intros st [Hnd Hids]; [done|].
  simpl. apply IH. unfold after_admission.
  destruct (add_message_cases m st) as [(_ & _ & Hn & ->)|[_ ->]]; [|done].
  simpl. destruct (place_split m (MessagePanel.messages st))
    as (l1 & l2 & Hl & -> & _ & _).
  rewrite Hids, Hl in Hn |- *. rewrite Hl in Hnd.
  rewrite !fmap_app, fmap_cons.
  rewrite fmap_app in Hnd, Hn. rewrite list_to_set_app_L in Hn.
  apply NoDup_app in Hnd as (H1 & H12 & H2).
  split.
  - apply NoDup_app. repeat split; [done| |].
    + intros i Hi Hi'. apply elem_of_cons in Hi' as [->|Hi']; [|by eapply H12].
      apply Hn. set_solver.
    + apply NoDup_cons. split; [|done]. intros Hi. apply Hn. set_solver.
  - rewrite !list_to_set_app_L, list_to_set_cons. set_solver.
Qed.

Lemma reachable_descending st : reachable st → descending (MessagePanel.messages st).
Proof.
  induction 1 as [|m st _ IH|data st _ _|st _ _]; simpl.
  - constructor.
  - by apply add_message_descending.
  - apply load_messages_descending.
  - constructor.
Qed.

End Dedup.

(** ** Claims about the history *)

(** C1, counterexample.  [a1] and then [a2] are admitted with the same time
    stamp: the later arrival [a2] stands behind [a1], not before it, and the
    history is not in strictly descending order. *)
Lemma equal_times_keep_arrival_order :
  let st := after_admissions [first_a1; then_a2] MessagePanel.new in
  MessagePanel.messages st = [first_a1; then_a2]
  ∧ NtfyMessage.time first_a1 = NtfyMessage.time then_a2
  ∧ ¬ strictly_descending (MessagePanel.messages st).
Proof.
  assert (MessagePanel.messages (after_admissions [first_a1; then_a2] MessagePanel.new)
          = [first_a1; then_a2]) as Hm by (vm_compute; reflexivity).
  cbv zeta. rewrite Hm. split; [done|]. split; [done|].
  intros Hs. apply StronglySorted_inv in Hs as [_ Hf].
  apply Forall_cons in Hf as [Hlt _]. unfold newer in Hlt. simpl in Hlt. lia.
Qed.

(** C1, as amended.  Every history a session can reach, in particular the
    one after any sequence of admissions, is in descending order of time
    stamp with equal times allowed; and an admitted message is put behind
    all entries that are not older than it (so behind the entries with the
    same time stamp) and before all older ones. *)
Theorem add_message_keeps_descending_order :
  (∀ ms, descending (MessagePanel.messages (after_admissions ms MessagePanel.new)))
  ∧ (∀ st, reachable st → descending (MessagePanel.messages st))
  ∧ (∀ m st,
       descending (MessagePanel.messages st) →
       (MessagePanel.add_message m st).1 = true →
       ∃ l1 l2,
         MessagePanel.messages st = l1 ++ l2
         ∧ MessagePanel.messages (after_admission st m) = l1 ++ m :: l2
         ∧ Forall (λ e, not_older e m) l1
         ∧ Forall (newer m) l2).
Proof.
  split; [|split].
  - intros ms. apply reachable_descending.
    assert (∀ st, reachable st → reachable (after_admissions ms st)) as H.
    { induction ms as [|m ms IH]; intros st Hr; simpl; [done|].
      apply IH. by constructor. }
    apply H. constructor.
  - apply reachable_descending.
  - intros m st Hd Ht. unfold after_admission.
    destruct (add_message_cases m st) as [(_ & _ & _ & Heq)|[_ Heq]];
      rewrite Heq in Ht |- *; simpl in *; [|done].
    by apply place_sorted_split.
Qed.

Lemma add_message_keeps_descending_order_witness :
  ∃ l1 l2,
    MessagePanel.messages (after_admission MessagePanel.new first_a1) = l1 ++ l2
    ∧ MessagePanel.messages (after_admission (after_admission MessagePanel.new first_a1) then_a2)
      = l1 ++ then_a2 :: l2
    ∧ Forall (λ e, not_older e then_a2) l1
    ∧ Forall (newer then_a2) l2.
Proof.
  apply (proj2 (proj2 add_message_keeps_descending_order)).
  - apply (proj1 (proj2 add_message_keeps_descending_order)).
    apply reach_add, reach_new.
  - vm_compute. reflexivity.
Defined.

(** C2.  A message whose id is in the dedup index is not admitted and
    nothing changes; so after an id has been admitted once, admitting it
    again, at once or after any further admissions, reports "not admitted"
    and leaves the index and the history (hence its length) as they are. *)
Theorem add_message_idempotent :
  (∀ m st,
     NtfyMessage.id m ∈ MessagePanel.message_ids st →
     MessagePanel.add_message m st = (false, st))
  ∧ (∀ m m' st,
       (MessagePanel.add_message m st).1 = true →
       NtfyMessage.id m' = NtfyMessage.id m →
       MessagePanel.add_message m' (after_admission st m) = (false, after_admission st m))
  ∧ (∀ m m' ms st,
       (MessagePanel.add_message m st).1 = true →
       NtfyMessage.id m' = NtfyMessage.id m →
       let st' := after_admissions ms (after_admission st m) in
       MessagePanel.add_message m' st' = (false, st')
       ∧ length (MessagePanel.messages (after_admission st' m'))
         = length (MessagePanel.messages st')).
Proof.
  assert (∀ m st, (MessagePanel.add_message m st).1 = true →
            NtfyMessage.id m ∈ MessagePanel.message_ids (after_admission st m)) as Hin.
  { intros m st Ht. unfold after_admission.
    destruct (add_message_cases m st) as [(_ & _ & _ & Heq)|[_ Heq]];
      rewrite Heq in Ht |- *; simpl in *; [set_solver|done]. }
  split; [|split].
  - apply add_message_seen.
  - intros m m' st Ht Hid. apply add_message_seen. rewrite Hid. by apply Hin.
  - intros m m' ms st Ht Hid st'.
    assert (MessagePanel.add_message m' st' = (false, st')) as Heq.
    { apply add_message_seen. rewrite Hid.
      by apply (admissions_ids_mono ms), Hin. }
    split; [done|]. unfold after_admission. by rewrite Heq.
Qed.

Lemma add_message_idempotent_witness :
  MessagePanel.add_message first_a1 (after_admission MessagePanel.new first_a1)
  = (false, after_admission MessagePanel.new first_a1).
Proof.
  apply (proj1 (proj2 add_message_idempotent) first_a1 first_a1 MessagePanel.new).
  - vm_compute. reflexivity.
  - reflexivity.
Defined.

(** C6.  [add_message] answers "admitted" only for a message whose event is
    [message] and whose id is not empty, and then the id is in the dedup
    index and the message is in the history; a message that fails either
    condition is not admitted and the panel is left as it was. *)
Theorem add_message_eligibility (m : NtfyMessage.t) (st : MessagePanel.t) :
  ((MessagePanel.add_message m st).1 = true →
     NtfyMessage.event m = "message" ∧ NtfyMessage.id m ≠ ""
     ∧ NtfyMessage.id m ∈ MessagePanel.message_ids (after_admission st m)
     ∧ m ∈ MessagePanel.messages (after_admission st m)
     ∧ length (MessagePanel.messages (after_admission st m))
       = S (length (MessagePanel.messages st)))
  ∧ (NtfyMessage.event m ≠ "message" ∨ NtfyMessage.id m = "" →
     MessagePanel.add_message m st = (false, st)).
Proof.
  unfold after_admission. split.
  - intros Ht.
    destruct (add_message_cases m st) as [(He & Hi & _ & Heq)|[_ Heq]];
      rewrite Heq in Ht |- *; simpl in *; [|done].
    destruct (place_split m (MessagePanel.messages st))
      as (l1 & l2 & Hl & -> & _ & _).
    repeat split; [done|done|set_solver|set_solver|].
    rewrite Hl, !length_app. simpl. lia.
  - intros Hbad.
    destruct (add_message_cases m st) as [(He & Hi & _ & _)|[_ Heq]]; [|done].
    by destruct Hbad.
Qed.

Lemma add_message_eligibility_witness :
  (NtfyMessage.event first_a1 = "message" ∧ NtfyMessage.id first_a1 ≠ ""
   ∧ NtfyMessage.id first_a1 ∈ MessagePanel.message_ids (after_admission MessagePanel.new first_a1)
   ∧ first_a1 ∈ MessagePanel.messages (after_admission MessagePanel.new first_a1)
   ∧ length (MessagePanel.messages (after_admission MessagePanel.new first_a1))
     = S (length (MessagePanel.messages MessagePanel.new)))
  ∧ MessagePanel.add_message keepalive MessagePanel.new = (false, MessagePanel.new).
Proof.
  split.
  - apply (proj1 (add_message_eligibility first_a1 MessagePanel.new)).
    vm_compute. reflexivity.
  - apply (proj2 (add_message_eligibility keepalive MessagePanel.new)).
    left. vm_compute. discriminate.
Defined.

(** C7, counterexample.  After [a1] has been admitted, clearing the
    messages empties the dedup index: [a1] is no longer in it. *)
Lemma clear_messages_forgets_ids :
  let st := after_admission MessagePanel.new first_a1 in
  "a1" ∈ MessagePanel.message_ids st
  ∧ ("a1" ∉ MessagePanel.message_ids (MessagePanel.clear_messages st))
  ∧ ¬ (MessagePanel.message_ids st
       ⊆ MessagePanel.message_ids (MessagePanel.clear_messages st)).
Proof.
  assert (MessagePanel.message_ids (after_admission MessagePanel.new first_a1)
          = {[ "a1" ]} ∪ ∅) as Hm.
  { unfold after_admission.
    by destruct (add_message_cases first_a1 MessagePanel.new)
      as [(_ & _ & _ & ->)|[[?|[?|?]] _]]. }
  cbv zeta. rewrite Hm. simpl. set_solver.
Qed.

(** C7, as amended.  An admission never removes an id from the dedup index;
    loading the persisted history sets the index to the ids of the persisted
    records, whatever it held before; clearing the messages empties it. *)
Theorem message_ids_over_a_session :
  (∀ m st, MessagePanel.message_ids st ⊆ MessagePanel.message_ids (after_admission st m))
  ∧ (∀ ms st,
       MessagePanel.message_ids st ⊆ MessagePanel.message_ids (after_admissions ms st))
  ∧ (∀ data st,
       MessagePanel.message_ids (MessagePanel.load_messages data st)
       = list_to_set (id_of <$> data))
  ∧ (∀ st, MessagePanel.message_ids (MessagePanel.clear_messages st) = ∅).
Proof.
  split; [apply admission_ids_mono|].
  split; [apply admissions_ids_mono|].
  split; [apply load_messages_ids|done].
Qed.

(** C10.  Building a message from the dict that [to_dict] writes gives the
    message back, field by field; so each message of a saved history is
    read back as it was, and [load_messages] on the saved records of a
    history in order with pairwise different ids restores that history. *)
Theorem to_dict_round_trip :
  (∀ m, NtfyMessage.init (NtfyMessage.to_dict m) = m)
  ∧ (∀ data,
       let m := NtfyMessage.init data in
       let m' := NtfyMessage.init (NtfyMessage.to_dict m) in
       NtfyMessage.id m' = NtfyMessage.id m
       ∧ NtfyMessage.time m' = NtfyMessage.time m
       ∧ NtfyMessage.event m' = NtfyMessage.event m
       ∧ NtfyMessage.topic m' = NtfyMessage.topic m
       ∧ NtfyMessage.message m' = NtfyMessage.message m
       ∧ NtfyMessage.title m' = NtfyMessage.title m
       ∧ NtfyMessage.tags m' = NtfyMessage.tags m
       ∧ NtfyMessage.priority m' = NtfyMessage.priority m
       ∧ NtfyMessage.click m' = NtfyMessage.click m
       ∧ NtfyMessage.attachment m' = NtfyMessage.attachment m
       ∧ NtfyMessage.server m' = NtfyMessage.server m)
  ∧ (∀ ms : list NtfyMessage.t,
       NtfyMessage.init <$> (NtfyMessage.to_dict <$> ms) = ms)
  ∧ (∀ (ms : list NtfyMessage.t) st,
       NoDup (NtfyMessage.id <$> ms) → descending ms →
       MessagePanel.load_messages (NtfyMessage.to_dict <$> ms) st
       = {| MessagePanel.message_ids := list_to_set (NtfyMessage.id <$> ms);
            MessagePanel.messages := ms |}).
Proof.
  assert (∀ m, NtfyMessage.init (NtfyMessage.to_dict m) = m) as H
    by (by intros []).
  split; [done|]. split; [|split].
  - intros data m m'. subst m'. by rewrite H.
  - intros ms. induction ms as [|m ms IH]; [done|].
    rewrite !fmap_cons. by rewrite H, IH.
  - intros ms st Hnd Hd. unfold MessagePanel.load_messages. simpl.
    pose proof (load_loop_ids (NtfyMessage.to_dict <$> ms) ∅ []) as Hi.
    pose proof (load_loop_saved ms ∅ [] Hnd) as Hl.
    destruct (MessagePanel.load_loop _ ∅ []) as [ids loaded]. simpl in *.
    rewrite Hi, Hl by set_solver. rewrite (sorted_by_time_desc_id _ Hd).
    f_equal. rewrite <- list_fmap_compose, union_empty_r_L. done.
Qed.

Lemma to_dict_round_trip_witness :
  MessagePanel.load_messages
    (NtfyMessage.to_dict <$> [sample "a2" 1001; first_a1]) MessagePanel.new
  = {| MessagePanel.message_ids :=
         list_to_set (NtfyMessage.id <$> [sample "a2" 1001; first_a1]);
       MessagePanel.messages := [sample "a2" 1001; first_a1] |}.
Proof.
  apply (proj2 (proj2 (proj2 to_dict_round_trip))).
  - vm_compute. repeat constructor; set_solver.
  - repeat constructor; unfold not_older; simpl; lia.
Defined.

(** * The registry: [SubscriptionPanel] *)

Section Registry.

Implicit Types (s : SubscriptionPanel.sub) (self : SubscriptionPanel.t).

Lemma prefix_append (p s : string) : String.prefix p (p +:+ s) = true.
Proof.
  induction p as [|c p IH]; [by destruct s|].
  change (String c p +:+ s) with (String c (p +:+ s)). simpl.
  destruct (ascii_dec c c); [done|congruence].
Qed.

Lemma rstrip_slash_no_trailing (u : string) :
  ends_with_slash (SubscriptionPanel.rstrip_slash u) = false.
Proof.
  induction u as [|c u IH]; simpl; [done|].
  destruct (SubscriptionPanel.rstrip_slash u) as [|c' u'].
  - destruct (Ascii.eqb c "/") eqn:E; simpl; [done|by rewrite E].
  - exact IH.
Qed.

(** Only slashes at the end are removed. *)
Lemma rstrip_slash_spec (u : string) :
  ∃ n, u = SubscriptionPanel.rstrip_slash u +:+ slashes n.
Proof.
  induction u as [|c u [n IH]]; simpl.
  - by exists 0%nat.
  - destruct (SubscriptionPanel.rstrip_slash u) as [|c' u'] eqn:E.
    + destruct (Ascii.eqb c "/") eqn:Ec.
      * apply Ascii.eqb_eq in Ec as ->. exists (S n).
        change ("" +:+ slashes (S n)) with (String "/" (slashes n)).
        by rewrite IH at 1.
      * exists n. change (String c "" +:+ slashes n) with (String c ("" +:+ slashes n)).
        by rewrite <- IH.
    + exists n. change (String c (String c' u') +:+ slashes n)
        with (String c (String c' u' +:+ slashes n)).
      by rewrite <- IH.
Qed.

(** What is in front of a part that is not all slashes is kept. *)
Lemma rstrip_slash_append (p rest : string) :
  SubscriptionPanel.rstrip_slash rest ≠ "" →
  SubscriptionPanel.rstrip_slash (p +:+ rest)
  = p +:+ SubscriptionPanel.rstrip_slash rest.
Proof.
  intros Hne. induction p as [|c p IH]; [done|].
  change (String c p +:+ rest) with (String c (p +:+ rest)).
  change (String c p +:+ SubscriptionPanel.rstrip_slash rest)
    with (String c (p +:+ SubscriptionPanel.rstrip_slash rest)).
  simpl. rewrite IH.
  destruct (p +:+ SubscriptionPanel.rstrip_slash rest) eqn:E; [|done].
  destruct p; [done|discriminate E].
Qed.

Lemma normalize_cases (server_url : string) :
  ∃ u, (u = server_url
        ∨ SubscriptionPanel.has_scheme server_url = false
          ∧ u = "https://" +:+ server_url)
       ∧ SubscriptionPanel.has_scheme u = true
       ∧ SubscriptionPanel.normalize server_url = SubscriptionPanel.rstrip_slash u.
Proof.
  unfold SubscriptionPanel.normalize.
  destruct (SubscriptionPanel.has_scheme server_url) eqn:E.
  - exists server_url. auto.
  - exists ("https://" +:+ server_url). repeat split; [by right|].
    unfold SubscriptionPanel.has_scheme.
    rewrite (prefix_append "https://"). apply orb_true_r.
Qed.

(** A host part that is not all slashes keeps the scheme in front. *)
Lemma normalize_keeps_scheme (scheme rest : string) :
  scheme = "http://" ∨ scheme = "https://" →
  SubscriptionPanel.rstrip_slash rest ≠ "" →
  SubscriptionPanel.normalize (scheme +:+ rest)
  = scheme +:+ SubscriptionPanel.rstrip_slash rest.
Proof.
  intros Hs Hne. unfold SubscriptionPanel.normalize.
  assert (SubscriptionPanel.has_scheme (scheme +:+ rest) = true) as ->.
  { unfold SubscriptionPanel.has_scheme.
    destruct Hs as [-> | ->]; rewrite prefix_append; [done|apply orb_true_r]. }
  by apply rstrip_slash_append.
Qed.

Lemma existsb_has_key server_url topic_name (l : list SubscriptionPanel.sub) :
  existsb (SubscriptionPanel.has_key server_url topic_name) l = true
  ↔ (server_url, topic_name) ∈ sub_key <$> l.
Proof.
  rewrite existsb_exists, list_elem_of_fmap. split.
  - intros (s & Hin & Hk). exists s. split; [|by apply list_elem_of_In].
    unfold SubscriptionPanel.has_key in Hk.
    apply andb_true_iff in Hk as [H1 H2].
    apply bool_decide_eq_true in H1, H2. unfold sub_key. by rewrite H1, H2.
  - intros (s & Hk & Hin). exists s. split; [by apply list_elem_of_In|].
    unfold sub_key in Hk. injection Hk as -> ->.
    unfold SubscriptionPanel.has_key. by rewrite !bool_decide_eq_true_2.
Qed.

(** [add_subscription] as a case distinction. *)
Lemma add_subscription_cases server_url topic_name self :
  (server_url ≠ "" ∧ topic_name ≠ ""
   ∧ ((SubscriptionPanel.normalize server_url, topic_name)
        ∉ sub_key <$> SubscriptionPanel.subscriptions self)
   ∧ SubscriptionPanel.add_subscription server_url topic_name self
     = (true,
        {| SubscriptionPanel.subscriptions :=
             SubscriptionPanel.subscriptions self
             ++ [ {| SubscriptionPanel.server := SubscriptionPanel.normalize server_url;
                     SubscriptionPanel.topic := topic_name;
                     SubscriptionPanel.status := "未连接";
                     SubscriptionPanel.message_count := 0%nat |} ] |}))
  ∨ ((server_url = "" ∨ topic_name = ""
      ∨ (SubscriptionPanel.normalize server_url, topic_name)
          ∈ sub_key <$> SubscriptionPanel.subscriptions self)
     ∧ SubscriptionPanel.add_subscription server_url topic_name self = (false, self)).
Proof.
  unfold SubscriptionPanel.add_subscription.
  destruct (decide (server_url = "")) as [Hs|Hs];
    [right; rewrite (bool_decide_eq_true_2 _ Hs); simpl; auto|].
  destruct (decide (topic_name = "")) as [Ht|Ht];
    [right; rewrite (bool_decide_eq_true_2 _ Ht), orb_true_r; auto|].
  rewrite (bool_decide_eq_false_2 _ Hs), (bool_decide_eq_false_2 _ Ht). simpl.
  destruct (existsb _ _) eqn:E.
  - right. apply existsb_has_key in E. auto.
  - left. repeat split; [done|done|].
    intros Hin. apply existsb_has_key in Hin. congruence.
Qed.

Lemma update_first_keys server_url topic_name (f : SubscriptionPanel.sub → SubscriptionPanel.sub)
    (l : list SubscriptionPanel.sub) :
  (∀ s, SubscriptionPanel.server (f s) = SubscriptionPanel.server s
        ∧ SubscriptionPanel.topic (f s) = SubscriptionPanel.topic s) →
  SubscriptionPanel.server <$> SubscriptionPanel.update_first server_url topic_name f l
  = SubscriptionPanel.server <$> l
  ∧ sub_key <$> SubscriptionPanel.update_first server_url topic_name f l
    = sub_key <$> l.
Proof.
  intros Hf. induction l as [|s l [IH1 IH2]]; [done|].
  cbn [SubscriptionPanel.update_first].
  destruct (SubscriptionPanel.has_key server_url topic_name s); rewrite !fmap_cons.
  - unfold sub_key. destruct (Hf s) as [-> ->]. done.
  - by rewrite IH1, IH2.
Qed.

Lemma registry_invariant self :
  registry_reachable self →
  NoDup (sub_key <$> SubscriptionPanel.subscriptions self)
  ∧ Forall (λ u, ends_with_slash u = false)
      (SubscriptionPanel.server <$> SubscriptionPanel.subscriptions self).
Proof.
  induction 1 as [|u t self _ [IH1 IH2]|i self _ [IH1 IH2]
                  |u t st self _ [IH1 IH2]|u t n self _ [IH1 IH2]].
  - split; constructor.
  - destruct (add_subscription_cases u t self) as [(_ & _ & Hn & ->)|[_ ->]];
      simpl; [|done].
    rewrite !fmap_app. simpl. split.
    + apply NoDup_app. repeat split; [done| |apply NoDup_singleton].
      intros k Hk Hk'. apply list_elem_of_singleton in Hk'. subst k. done.
    + apply Forall_app. split; [done|].
      constructor; [unfold SubscriptionPanel.normalize; apply rstrip_slash_no_trailing|constructor].
  - simpl. split.
    + eapply sublist_NoDup; [exact IH1|]. apply fmap_sublist, sublist_delete.
    + apply Forall_forall. intros u Hu.
      refine (proj1 (Forall_forall _ _) IH2 u _).
      eapply elem_of_sublist; [exact Hu|]. apply fmap_sublist, sublist_delete.
  - simpl. edestruct update_first_keys as [-> ->]; [|done]. done.
  - simpl. edestruct update_first_keys as [-> ->]; [|done]. done.
Qed.

End Registry.

(** ** Claims about the registry *)

Example normalize_adds_scheme_and_strips :
  SubscriptionPanel.normalize "ntfy.sh//" = "https://ntfy.sh"
  ∧ SubscriptionPanel.normalize "http://localhost:8080/" = "http://localhost:8080".
Proof. split; reflexivity. Qed.

(** With nothing behind the scheme, the slashes of the scheme itself are
    the trailing ones. *)
Example normalize_bare_scheme : SubscriptionPanel.normalize "https://" = "https:".
Proof. reflexivity. Qed.

(** C9, the code at the failing input.  The server URL [https://] is not
    empty and is accepted; [rstrip('/')] takes the two slashes of the
    scheme away, and the registry stores [https:], which starts with no
    scheme.  The server URL [/] is stored in the same way. *)
Theorem bare_scheme_is_stored_without_scheme :
  SubscriptionPanel.add_subscription "https://" "alerts" SubscriptionPanel.new
  = (true,
     {| SubscriptionPanel.subscriptions :=
          [ {| SubscriptionPanel.server := "https:";
               SubscriptionPanel.topic := "alerts";
               SubscriptionPanel.status := "未连接";
               SubscriptionPanel.message_count := 0%nat |} ] |})
  ∧ SubscriptionPanel.has_scheme "https:" = false
  ∧ SubscriptionPanel.add_subscription "/" "alerts" SubscriptionPanel.new
    = SubscriptionPanel.add_subscription "https://" "alerts" SubscriptionPanel.new.
Proof. vm_compute. done. Qed.

(** X29.  An accepted subscription is stored, at the end of the registry,
    with the server URL that results from putting [https://] in front when
    no scheme is there and then stripping the trailing slashes, so that the
    stored URL ends in no slash; in every registry a session can reach no
    two entries have the same (server, topic) key and no server ends in a
    slash; an empty server or topic, or a key that is already there, is
    refused and the registry stays as it was. *)
Theorem add_subscription_registry :
  (∀ server_url topic_name self self',
     SubscriptionPanel.add_subscription server_url topic_name self = (true, self') →
     SubscriptionPanel.subscriptions self'
     = SubscriptionPanel.subscriptions self
       ++ [ {| SubscriptionPanel.server := SubscriptionPanel.normalize server_url;
               SubscriptionPanel.topic := topic_name;
               SubscriptionPanel.status := "未连接";
               SubscriptionPanel.message_count := 0%nat |} ]
     ∧ ends_with_slash (SubscriptionPanel.normalize server_url) = false
     ∧ (∃ u n,
          (u = server_url
           ∨ SubscriptionPanel.has_scheme server_url = false
             ∧ u = "https://" +:+ server_url)
          ∧ SubscriptionPanel.has_scheme u = true
          ∧ u = SubscriptionPanel.normalize server_url +:+ slashes n))
  ∧ (∀ self,
       registry_reachable self →
       NoDup (sub_key <$> SubscriptionPanel.subscriptions self)
       ∧ Forall (λ u, ends_with_slash u = false)
           (SubscriptionPanel.server <$> SubscriptionPanel.subscriptions self))
  ∧ (∀ server_url topic_name self,
       server_url = "" ∨ topic_name = ""
       ∨ (SubscriptionPanel.normalize server_url, topic_name)
           ∈ sub_key <$> SubscriptionPanel.subscriptions self →
       SubscriptionPanel.add_subscription server_url topic_name self = (false, self)).
Proof.
  split; [|split].
  - intros u t self self' Hadd.
    destruct (add_subscription_cases u t self) as [(_ & _ & _ & Heq)|[_ Heq]];
      rewrite Heq in Hadd; [|done].
    injection Hadd as <-. simpl. split; [done|]. split.
    + unfold SubscriptionPanel.normalize. apply rstrip_slash_no_trailing.
    + destruct (normalize_cases u) as (u' & Hu & Hs & Hn).
      destruct (rstrip_slash_spec u') as [n Hn'].
      exists u', n. rewrite Hn. done.
  - apply registry_invariant.
  - intros u t self Hbad.
    destruct (add_subscription_cases u t self) as [(Hu & Ht & Hk & _)|[_ Heq]];
      [|done].
    by destruct Hbad as [?|[?|?]].
Qed.

Lemma add_subscription_registry_witness :
  (SubscriptionPanel.subscriptions alerts_registry
   = [ {| SubscriptionPanel.server := "https://ntfy.sh";
          SubscriptionPanel.topic := "alerts";
          SubscriptionPanel.status := "未连接";
          SubscriptionPanel.message_count := 0%nat |} ])
  ∧ NoDup (sub_key <$> SubscriptionPanel.subscriptions alerts_registry)
  ∧ SubscriptionPanel.add_subscription "https://ntfy.sh///" "alerts" alerts_registry
    = (false, alerts_registry).
Proof.
  split; [|split].
  - apply (proj1 add_subscription_registry "ntfy.sh/" "alerts" SubscriptionPanel.new).
    reflexivity.
  - apply (proj1 (proj2 add_subscription_registry)).
    apply registry_add, registry_new.
  - apply (proj2 (proj2 add_subscription_registry)).
    right. right. vm_compute. apply list_elem_of_here.
Defined.

(** * The frame and its workers: [NtfyGUI] *)

Section Frame.

Variable json_loads : string → NtfyGUI.parsed.
Variable reconnect_delay : nat.

Implicit Types (m : NtfyMessage.t) (g : NtfyGUI.t) (c : NtfyGUI.call).

Lemma add_message_and_notify_panel m live g :
  NtfyGUI.message_panel (NtfyGUI.add_message_and_notify m live g).1
  = after_admission (NtfyGUI.message_panel g) m.
Proof.
  unfold NtfyGUI.add_message_and_notify, after_admission.
  by destruct (MessagePanel.add_message m (NtfyGUI.message_panel g)) as [[] ?].
Qed.

Lemma add_message_and_notify_shown m live g :
  (NtfyGUI.add_message_and_notify m live g).2
  = if (MessagePanel.add_message m (NtfyGUI.message_panel g)).1 && live
    then live_notification m else [].
Proof.
  unfold NtfyGUI.add_message_and_notify.
  by destruct (MessagePanel.add_message m (NtfyGUI.message_panel g)) as [[] ?],
    live.
Qed.

Lemma queued_app (t1 t2 : list NtfyGUI.effect) :
  NtfyGUI.queued (t1 ++ t2) = NtfyGUI.queued t1 ++ NtfyGUI.queued t2.
Proof. apply omap_app. Qed.

Lemma queued_flag b (trace : list NtfyGUI.effect) :
  Forall (flag_is b) trace → Forall (call_flag_is b) (NtfyGUI.queued trace).
Proof.
  induction 1 as [|e trace He _ IH]; [constructor|].
  destruct e; simpl; try done. by constructor.
Qed.

Lemma stream_loop_live server_url lines :
  Forall (flag_is true) (NtfyGUI.stream_loop json_loads server_url lines).1.
Proof.
  induction lines as [|[stop line] lines IH]; simpl; [constructor|].
  destruct stop; [constructor|].
  case_bool_decide; [done|].
  destruct (json_loads line); try constructor.
  - destruct (NtfyGUI.stream_loop json_loads server_url lines). by constructor.
  - destruct (NtfyGUI.stream_loop json_loads server_url lines). by constructor.
Qed.

Lemma listen_live subscription s :
  Forall (flag_is true)
    (NtfyGUI.listen_subscription_messages json_loads subscription s).1.
Proof.
  unfold NtfyGUI.listen_subscription_messages.
  destruct (NtfyGUI.connected s); [|by repeat constructor].
  pose proof (stream_loop_live (SubscriptionPanel.server subscription)
                (NtfyGUI.received s)) as H.
  destruct (NtfyGUI.stream_loop _ _ _) as [trace []]; simpl in *.
  - destruct (NtfyGUI.broken s); simpl; repeat constructor; try done.
    apply Forall_app. split; [done|by repeat constructor].
  - by repeat constructor.
  - by repeat constructor.
Qed.

Lemma step_live subscription p o :
  Forall (flag_is true)
    (NtfyGUI.step json_loads reconnect_delay subscription p o).2.
Proof.
  destruct p as [n|n|n raised|n k|]; simpl.
  - destruct (NtfyGUI.stop_listening o); by repeat constructor.
  - pose proof (listen_live subscription (NtfyGUI.next_session o)) as H.
    by destruct (NtfyGUI.listen_subscription_messages _ _ _).
  - destruct (NtfyGUI.stop_listening o); [by repeat constructor|].
    destruct (NtfyGUI.auto_reconnect o), raised; by repeat constructor.
  - destruct (NtfyGUI.stop_listening o); by repeat constructor.
  - constructor.
Qed.

Lemma run_live subscription p os :
  Forall (flag_is true)
    (NtfyGUI.run json_loads reconnect_delay subscription p os).2.
Proof.
  revert p. induction os as [|o os IH]; intros p; simpl; [constructor|].
  pose proof (step_live subscription p o) as H.
  destruct (NtfyGUI.step _ _ _ _ _) as [p1 t1].
  specialize (IH p1). destruct (NtfyGUI.run _ _ _ _ _) as [p2 t2].
  simpl in *. by apply Forall_app.
Qed.

Lemma fetch_lines_historical server_url lines total :
  Forall (flag_is false) (NtfyGUI.fetch_lines json_loads server_url lines total).1.
Proof.
  revert total. induction lines as [|line lines IH]; intros total; simpl;
    [constructor|].
  case_bool_decide; [done|].
  destruct (json_loads line); try constructor.
  - match goal with |- context [NtfyGUI.fetch_lines _ _ _ ?t] => specialize (IH t) end.
    destruct (NtfyGUI.fetch_lines _ _ _ _). by constructor.
  - specialize (IH total). destruct (NtfyGUI.fetch_lines _ _ _ _). by constructor.
Qed.

Lemma fetch_subscriptions_historical requests total :
  Forall (flag_is false) (NtfyGUI.fetch_subscriptions json_loads requests total).1.
Proof.
  revert total. induction requests as [|[s [lines|]] requests IH]; intros total;
    simpl; [constructor| |].
  - pose proof (fetch_lines_historical (SubscriptionPanel.server s) lines total) as H.
    destruct (NtfyGUI.fetch_lines _ _ _ _) as [t1 [e|total']]; simpl in *.
    + by constructor.
    + specialize (IH total'). destruct (NtfyGUI.fetch_subscriptions _ _ _).
      constructor; [done|]. by apply Forall_app.
  - specialize (IH total). destruct (NtfyGUI.fetch_subscriptions _ _ _).
    by repeat constructor.
Qed.

Lemma fetch_thread_historical requests since :
  Forall (flag_is false) (NtfyGUI.fetch_thread json_loads requests since).1.
Proof.
  unfold NtfyGUI.fetch_thread.
  pose proof (fetch_subscriptions_historical requests 0) as H.
  destruct (NtfyGUI.fetch_subscriptions _ _ _) as [trace [e|total]]; simpl in *;
    [done|].
  apply Forall_app. split; [done|by repeat constructor].
Qed.

(** Calls that hand messages over as historical raise no balloon. *)
Lemma run_calls_historical queue g :
  Forall (call_flag_is false) queue →
  Forall (λ o, is_balloon o = false) (NtfyGUI.run_calls queue g).1.2.
Proof.
  intros H. revert g. induction H as [|c queue Hc _ IH]; intros g; simpl;
    [constructor|].
  assert (Forall (λ o, is_balloon o = false) (NtfyGUI.run_call c g).1.2) as H1.
  { destruct c as [| |m live|]; simpl; try by repeat constructor.
    simpl in Hc. subst live.
    pose proof (add_message_and_notify_shown m false g) as Hs.
    destruct (NtfyGUI.add_message_and_notify m false g) as [g' out].
    simpl in *. rewrite Hs, andb_false_r. constructor. }
  destruct (NtfyGUI.run_call c g) as [[g1 out1] q1].
  specialize (IH g1). destruct (NtfyGUI.run_calls queue g1) as [[g2 out2] q2].
  simpl in *. by apply Forall_app.
Qed.

End Frame.

(** ** Admissions made by a run of queued calls *)

Section Admissions.

Variable json_loads : string → NtfyGUI.parsed.

Implicit Types (m : NtfyMessage.t) (g : NtfyGUI.t).

Lemma run_calls_app (q1 q2 : list NtfyGUI.call) g :
  (NtfyGUI.run_calls (q1 ++ q2) g).1.1
  = (NtfyGUI.run_calls q2 (NtfyGUI.run_calls q1 g).1.1).1.1.
Proof.
  revert g. induction q1 as [|c q1 IH]; intros g; simpl; [done|].
  destruct (NtfyGUI.run_call c g) as [[g1 o1] r1]. specialize (IH g1).
  destruct (NtfyGUI.run_calls (q1 ++ q2) g1) as [[g2 o2] r2].
  destruct (NtfyGUI.run_calls q1 g1) as [[g3 o3] r3]. done.
Qed.

(** Fresh, pairwise different, admissible messages are all admitted. *)
Lemma admissions_fresh (live : bool) (ms : list NtfyMessage.t) g :
  Forall (λ m, NtfyMessage.event m = "message" ∧ NtfyMessage.id m ≠ "") ms →
  NoDup (NtfyMessage.id <$> ms) →
  (∀ m, m ∈ ms →
        NtfyMessage.id m ∉ MessagePanel.message_ids (NtfyGUI.message_panel g)) →
  let queue := (λ m, NtfyGUI.AddMessageAndNotify m live) <$> ms in
  admissions queue g = length ms
  ∧ length (MessagePanel.messages
              (NtfyGUI.message_panel (NtfyGUI.run_calls queue g).1.1))
    = (length (MessagePanel.messages (NtfyGUI.message_panel g)) + length ms)%nat.
Proof.
  intros Hel. revert g. induction Hel as [|m ms [He Hi] _ IH]; intros g Hnd Hfresh;
    [split; simpl; [done|lia]|].
  rewrite fmap_cons in Hnd. apply NoDup_cons in Hnd as [Hm Hnd].
  assert (NtfyMessage.id m ∉ MessagePanel.message_ids (NtfyGUI.message_panel g))
    as Hg by (apply Hfresh; left).
  cbv zeta. rewrite fmap_cons.
  cbn [admissions NtfyGUI.run_calls NtfyGUI.run_call].
  pose proof (add_message_and_notify_panel m live g) as Hp.
  destruct (NtfyGUI.add_message_and_notify m live g) as [g1 out1].
  cbn [fst snd] in *.
  destruct (add_message_cases m (NtfyGUI.message_panel g))
    as [(_ & _ & _ & Heq)|[[?|[?|?]] _]]; try done.
  unfold after_admission in Hp. rewrite Heq in Hp |- *. cbn [fst snd] in *.
  destruct (IH g1 Hnd) as [IH1 IH2].
  { intros m' Hm'. rewrite Hp. cbn [MessagePanel.message_ids]. intros Hin.
    apply elem_of_union in Hin as [Hin|Hin].
    - apply elem_of_singleton in Hin. apply Hm. rewrite <- Hin.
      by apply list_elem_of_fmap_2.
    - eapply Hfresh; [right; exact Hm'|done]. }
  destruct (NtfyGUI.run_calls _ g1) as [[g2 out2] q2]. cbn [fst snd length] in *.
  split; [by rewrite IH1|]. rewrite IH2, Hp. cbn [MessagePanel.messages].
  destruct (place_split m (MessagePanel.messages (NtfyGUI.message_panel g)))
    as (l1 & l2 & Hl & -> & _ & _).
  rewrite Hl, !length_app. simpl. lia.
Qed.

(** A run of well-formed lines with no stop request queues one hand-over
    per line and comes to the end of the stream. *)
Lemma stream_loop_valid server_url (valid : list (string * NtfyMessage.dict)) :
  Forall (λ ld, ld.1 ≠ "" ∧ json_loads ld.1 = NtfyGUI.Object ld.2) valid →
  NtfyGUI.stream_loop json_loads server_url ((λ ld, (false, ld.1)) <$> valid)
  = ((λ ld, NtfyGUI.CallAfter
              (NtfyGUI.AddMessageAndNotify
                 (NtfyMessage.init (NtfyMessage.set_server server_url ld.2)) true))
       <$> valid,
     NtfyGUI.Exhausted).
Proof.
  induction 1 as [|[line data] valid [Hne Hl] _ IH]; [done|].
  rewrite !fmap_cons. cbn [NtfyGUI.stream_loop]. simpl in *.
  rewrite (bool_decide_eq_false_2 _ Hne), Hl, IH. done.
Qed.

(** A line that is not valid UTF-8, or that decodes to something other
    than a JSON object, is not covered by the [except json.JSONDecodeError]
    clause: the exception leaves the loop and the function, and the lines
    behind it are not read. *)
Lemma other_decode_failures_leave_the_loop subscription line rest b :
  line ≠ "" →
  json_loads line = NtfyGUI.BadUnicode ∨ json_loads line = NtfyGUI.NonObject →
  ∃ e,
    NtfyGUI.stream_loop json_loads (SubscriptionPanel.server subscription)
      ((false, line) :: rest) = ([], NtfyGUI.Raise e)
    ∧ (NtfyGUI.listen_subscription_messages json_loads subscription
         {| NtfyGUI.connected := true; NtfyGUI.received := (false, line) :: rest;
            NtfyGUI.broken := b |}).2 = Some e.
Proof.
  intros Hne Hl. unfold NtfyGUI.listen_subscription_messages.
  cbn [NtfyGUI.connected NtfyGUI.received NtfyGUI.stream_loop].
  rewrite (bool_decide_eq_false_2 _ Hne).
  destruct Hl as [-> | ->]; eexists; split; reflexivity.
Qed.

Lemma decode_errors_calls (cs : list NtfyGUI.call) :
  decode_errors (NtfyGUI.CallAfter <$> cs) = 0%nat.
Proof. unfold decode_errors. by induction cs. Qed.

Lemma queued_calls (cs : list NtfyGUI.call) :
  NtfyGUI.queued (NtfyGUI.CallAfter <$> cs) = cs.
Proof. unfold NtfyGUI.queued. induction cs as [|c cs IH]; simpl; [done|]. by f_equal. Qed.

(** The count kept by the inner loop of the history fetch goes up by one
    for every event of kind [message] handed over, admitted or not. *)
Lemma fetch_lines_total server_url lines total trace total' :
  NtfyGUI.fetch_lines json_loads server_url lines total = (trace, inr total') →
  total' = (total + message_events (NtfyGUI.queued trace))%nat.
Proof.
  revert total trace. induction lines as [|line lines IH]; intros total trace;
    simpl.
  - intros [= <- <-]. unfold message_events. simpl. lia.
  - case_bool_decide; [apply IH|].
    destruct (json_loads line) as [data| | |]; try done.
    + destruct (NtfyGUI.fetch_lines _ _ _ _) as [t r] eqn:E.
      intros [= <- ->]. apply IH in E. rewrite E.
      unfold message_events. simpl.
      case_bool_decide; simpl; lia.
    + destruct (NtfyGUI.fetch_lines _ _ _ _) as [t r] eqn:E.
      intros [= <- ->]. apply IH in E. rewrite E. done.
Qed.

Lemma message_events_app (q1 q2 : list NtfyGUI.call) :
  message_events (q1 ++ q2) = (message_events q1 + message_events q2)%nat.
Proof. unfold message_events. by rewrite List.filter_app, length_app. Qed.

Lemma fetch_subscriptions_total requests total trace total' :
  NtfyGUI.fetch_subscriptions json_loads requests total = (trace, inr total') →
  total' = (total + message_events (NtfyGUI.queued trace))%nat.
Proof.
  revert total trace. induction requests as [|[s [lines|]] requests IH];
    intros total trace; simpl.
  - intros [= <- <-]. unfold message_events. simpl. lia.
  - destruct (NtfyGUI.fetch_lines _ _ _ _) as [t1 [e|total1]] eqn:E1; [done|].
    destruct (NtfyGUI.fetch_subscriptions _ _ _) as [t2 r] eqn:E2.
    intros [= <- ->]. apply fetch_lines_total in E1. apply IH in E2.
    simpl. rewrite queued_app, message_events_app. lia.
  - destruct (NtfyGUI.fetch_subscriptions _ _ _) as [t2 r] eqn:E2.
    intros [= <- ->]. apply IH in E2. done.
Qed.

End Admissions.

(** ** The example scenario and the count of the history fetch *)

(** The example scenario: the live lines [a1], [a1] again and [a2] give
    the history [a2; a1], a message count of 2 and two balloons. *)
Example live_scenario :
  let s := {| NtfyGUI.connected := true;
              NtfyGUI.received :=
                [(false, "line a1"); (false, "line a1"); (false, "line a2")];
              NtfyGUI.broken := false |} in
  let trace := (NtfyGUI.listen_subscription_messages sample_loads alerts s).1 in
  let '(g, out, _) := NtfyGUI.run_calls (NtfyGUI.queued trace) NtfyGUI.new in
  NtfyMessage.id <$> MessagePanel.messages (NtfyGUI.message_panel g) = ["a2"; "a1"]
  ∧ NtfyGUI.sub_message_counts g !! ("https://ntfy.sh", "alerts") = Some 2%nat
  ∧ admissions (NtfyGUI.queued trace) NtfyGUI.new = 2%nat
  ∧ length (List.filter is_balloon out) = 2%nat.
Proof. vm_compute. done. Qed.

(** The number the history fetch reports is the number of events of kind
    [message] it handed over. *)
Lemma fetch_thread_reports_message_events json_loads requests since trace :
  NtfyGUI.fetch_thread json_loads requests since = (trace, None) →
  ∃ trace',
    trace = trace'
            ++ [NtfyGUI.CallAfter
                  (NtfyGUI.SetStatusText
                     (NtfyGUI.fetch_report
                        (message_events (NtfyGUI.queued trace')) since))].
Proof.
  unfold NtfyGUI.fetch_thread.
  destruct (NtfyGUI.fetch_subscriptions _ _ _) as [t [e|total]] eqn:E; [done|].
  intros [= <-]. exists t. apply fetch_subscriptions_total in E. by rewrite E.
Qed.

(** C4, the code at the failing input.  [a1] is already in the history
    when the history fetch gets the line of [a1] once more: the fetch
    reports one new message, although running the queued calls admits none
    and the history stays as it was. *)
Theorem fetch_history_counts_a_duplicate :
  let '(trace, raised) :=
    NtfyGUI.fetch_thread sample_loads [(alerts, Some ["line a1"])] "10m" in
  raised = None
  ∧ last trace
    = Some (NtfyGUI.CallAfter (NtfyGUI.SetStatusText (NtfyGUI.fetch_report 1 "10m")))
  ∧ admissions (NtfyGUI.queued trace) frame_with_a1 = 0%nat
  ∧ MessagePanel.messages
      (NtfyGUI.message_panel
         (NtfyGUI.run_calls (NtfyGUI.queued trace) frame_with_a1).1.1)
    = MessagePanel.messages (NtfyGUI.message_panel frame_with_a1).
Proof. vm_compute. done. Qed.

(** * The reconnect loop *)

Section Reconnect.

Variable json_loads : string → NtfyGUI.parsed.
Variable reconnect_delay : nat.
Variable subscription : SubscriptionPanel.sub.

Local Abbreviation run := (NtfyGUI.run json_loads reconnect_delay subscription).
Local Abbreviation step := (NtfyGUI.step json_loads reconnect_delay subscription).

Implicit Types (o : NtfyGUI.observation) (os : list NtfyGUI.observation)
  (p : NtfyGUI.pc).

Lemma run_app p os1 os2 :
  run p (os1 ++ os2)
  = ((run (run p os1).1 os2).1, (run p os1).2 ++ (run (run p os1).1 os2).2).
Proof.
  revert p. induction os1 as [|o os1 IH]; intros p; simpl.
  - by destruct (run p os2).
  - destruct (step p o) as [p1 t1]. rewrite IH.
    destruct (run p1 os1) as [p2 t2]. simpl.
    destruct (run p2 os2) as [p3 t3]. simpl. by rewrite app_assoc.
Qed.

Lemma run_exited os : run NtfyGUI.Exited os = (NtfyGUI.Exited, []).
Proof. induction os as [|o os IH]; simpl; [done|]. by rewrite IH. Qed.

(** Rounds of the sleep loop that see no stop request: one second of
    sleep each. *)
Lemma run_backoff n k ticks :
  Forall quiet ticks → (length ticks ≤ k)%nat →
  run (backoff_pc n k) ticks
  = (backoff_pc n (k - length ticks), repeat (NtfyGUI.Sleep 1) (length ticks)).
Proof.
  intros Hq. revert k. induction Hq as [|o ticks Ho _ IH]; intros k Hk.
  - simpl. by rewrite Nat.sub_0_r.
  - destruct k as [|k]; [simpl in Hk; lia|].
    cbn [backoff_pc NtfyGUI.run NtfyGUI.step]. rewrite Ho.
    fold (backoff_pc n k).
    rewrite IH by (simpl in Hk; lia). done.
Qed.

Lemma step_ended_reconnect n raised o :
  NtfyGUI.stop_listening o = false → NtfyGUI.auto_reconnect o = true →
  step (NtfyGUI.Ended n raised) o
  = (backoff_pc (S n) reconnect_delay, announce_reconnect subscription raised (S n)).
Proof.
  intros Hs Ha. cbn [NtfyGUI.step]. rewrite Hs, Ha.
  unfold NtfyGUI.enter_backoff, backoff_pc, announce_reconnect, reconnecting_status.
  by destruct raised; case reconnect_delay.
Qed.

Lemma connecting_not_announced raised n :
  connecting subscription ∉ announce_reconnect subscription raised n.
Proof.
  unfold connecting, announce_reconnect, reconnecting_status.
  intros Hin. apply elem_of_cons in Hin as [Hin|Hin]; [done|].
  apply list_elem_of_singleton in Hin. destruct raised; simplify_eq.
Qed.

Lemma connecting_not_sleep k :
  connecting subscription ∉ repeat (NtfyGUI.Sleep 1) k.
Proof. intros Hin. apply list_elem_of_In, repeat_spec in Hin. done. Qed.

Lemma connecting_not_after_loop :
  connecting subscription ∉ NtfyGUI.after_loop subscription.
Proof.
  unfold connecting, NtfyGUI.after_loop.
  intros Hin. apply elem_of_cons in Hin as [Hin|Hin]; [done|].
  apply list_elem_of_singleton in Hin. simplify_eq.
Qed.

End Reconnect.

(** ** Claim about the reconnect loop *)

(** C8.  The stream has ended with [n] reconnects so far, no stop request
    is pending and auto-reconnect is on.  The worker logs and queues the
    status of reconnect number [n + 1]; then, in each of [reconnect_delay]
    rounds, it reads the stop flag and sleeps one second; then it reads the
    stop flag at the head of the loop and queues "连接中...", which brings
    it to the next connection attempt with its counter at [n + 1].  When
    instead one of these reads of the stop flag, in a round of the sleep
    loop or at the head of the loop, finds it raised, the worker is out of
    the function at that read: it has slept one second for each round
    before, it has not queued "连接中...", and it does nothing more. *)
Theorem reconnect_after_backoff_unless_stopped
    (json_loads : string → NtfyGUI.parsed) (reconnect_delay : nat)
    (subscription : SubscriptionPanel.sub) (n : nat) (raised : option NtfyGUI.exn) :
  (∀ o0 ticks oh,
     quiet o0 → NtfyGUI.auto_reconnect o0 = true →
     length ticks = reconnect_delay → Forall quiet ticks → quiet oh →
     NtfyGUI.run json_loads reconnect_delay subscription
       (NtfyGUI.Ended n raised) (o0 :: ticks ++ [oh])
     = (NtfyGUI.Listening (S n),
        announce_reconnect subscription raised (S n)
        ++ repeat (NtfyGUI.Sleep 1) reconnect_delay
        ++ [connecting subscription]))
  ∧ (∀ o0 ticks ostop rest,
       quiet o0 → NtfyGUI.auto_reconnect o0 = true →
       (length ticks ≤ reconnect_delay)%nat → Forall quiet ticks →
       NtfyGUI.stop_listening ostop = true →
       let r := NtfyGUI.run json_loads reconnect_delay subscription
                  (NtfyGUI.Ended n raised) (o0 :: ticks ++ ostop :: rest) in
       r.1 = NtfyGUI.Exited
       ∧ r.2 = announce_reconnect subscription raised (S n)
               ++ repeat (NtfyGUI.Sleep 1) (length ticks)
               ++ (if decide (length ticks < reconnect_delay)%nat then []
                   else NtfyGUI.after_loop subscription)
       ∧ connecting subscription ∉ r.2).
Proof.
  split.
  - intros o0 ticks oh Hq0 Ha Hlen Hq Hqh.
    cbn [NtfyGUI.run]. rewrite (step_ended_reconnect _ _ _ _ _ _ Hq0 Ha).
    rewrite run_app, run_backoff by (done || lia).
    rewrite Hlen, Nat.sub_diag. cbn [fst snd backoff_pc NtfyGUI.run NtfyGUI.step].
    rewrite Hqh. by rewrite app_nil_r.
  - intros o0 ticks ostop rest Hq0 Ha Hlen Hq Hstop r.
    assert (r = (NtfyGUI.Exited,
                 announce_reconnect subscription raised (S n)
                 ++ repeat (NtfyGUI.Sleep 1) (length ticks)
                 ++ (if decide (length ticks < reconnect_delay)%nat then []
                     else NtfyGUI.after_loop subscription))) as ->.
    { subst r. cbn [NtfyGUI.run].
      rewrite (step_ended_reconnect _ _ _ _ _ _ Hq0 Ha).
      rewrite run_app, run_backoff by done. cbn [fst snd NtfyGUI.run].
      destruct (reconnect_delay - length ticks)%nat as [|k] eqn:Hk;
        cbn [backoff_pc NtfyGUI.step]; rewrite Hstop, run_exited;
        case_decide; try lia; by rewrite ?app_nil_r. }
    cbn [fst snd]. repeat split.
    rewrite !not_elem_of_app. repeat split.
    + apply connecting_not_announced.
    + apply connecting_not_sleep.
    + case_decide; [apply not_elem_of_nil|apply connecting_not_after_loop].
Qed.

Lemma reconnect_after_backoff_unless_stopped_witness :
  NtfyGUI.run sample_loads NtfyGUI.default_reconnect_delay alerts
    (NtfyGUI.Ended 0 None)
    (observe false true :: repeat (observe false false) 5 ++ [observe false true])
  = (NtfyGUI.Listening 1,
     announce_reconnect alerts None 1
     ++ repeat (NtfyGUI.Sleep 1) NtfyGUI.default_reconnect_delay
     ++ [connecting alerts])
  ∧ (NtfyGUI.run sample_loads NtfyGUI.default_reconnect_delay alerts
       (NtfyGUI.Ended 0 None)
       (observe false true :: repeat (observe false true) 2
          ++ observe true false :: [observe false true])).1
    = NtfyGUI.Exited.
Proof.
  split.
  - apply (proj1 (reconnect_after_backoff_unless_stopped sample_loads
                    NtfyGUI.default_reconnect_delay alerts 0 None)).
    + reflexivity.
    + reflexivity.
    + reflexivity.
    + repeat constructor.
    + reflexivity.
  - apply (proj2 (reconnect_after_backoff_unless_stopped sample_loads
                    NtfyGUI.default_reconnect_delay alerts 0 None)
             (observe false true) (repeat (observe false true) 2)
             (observe true false) [observe false true]).
    + reflexivity.
    + reflexivity.
    + vm_compute. lia.
    + repeat constructor.
    + reflexivity.
Defined.

(** * Further properties of the history *)

Section Loading.

Implicit Types (m : NtfyMessage.t) (st : MessagePanel.t)
  (data : list NtfyMessage.dict) (ids : gset string).

(** What the conversion loop adds: a sublist of the records, in their
    order, whose ids go into the index. *)
Lemma load_loop_spec data ids loaded :
  ∃ new,
    MessagePanel.load_loop data ids loaded
    = (list_to_set (NtfyMessage.id <$> new) ∪ ids, loaded ++ new)
    ∧ new `sublist_of` (NtfyMessage.init <$> data)
    ∧ (Forall (λ d, is_Some (NtfyMessage.d_id d)) data →
       NoDup (NtfyMessage.id <$> new)
       ∧ ∀ m, m ∈ new → NtfyMessage.id m ∉ ids).
Proof.
  revert ids loaded. induction data as [|d data IH]; intros ids loaded.
  - exists []. simpl. rewrite app_nil_r. repeat split; try done.
    + f_equal. set_solver.
    + constructor.
    + set_solver.
  - cbn [MessagePanel.load_loop]. rewrite fmap_cons.
    destruct (NtfyMessage.d_id d) as [i|] eqn:Hd.
    + case_bool_decide as Hi.
      * destruct (IH ids loaded) as (new & Heq & Hsub & Hnd).
        exists new. split; [done|]. split; [by apply sublist_cons|].
        intros Hall. apply Forall_cons in Hall as [_ Hall]. by apply Hnd.
      * destruct (IH ({[NtfyMessage.id (NtfyMessage.init d)]} ∪ ids)
                    (loaded ++ [NtfyMessage.init d])) as (new & Heq & Hsub & Hnd).
        exists (NtfyMessage.init d :: new). rewrite Heq. split.
        { rewrite <- app_assoc, fmap_cons, list_to_set_cons. f_equal. set_solver. }
        split; [by apply sublist_skip|].
        intros Hall. apply Forall_cons in Hall as [_ Hall].
        destruct (Hnd Hall) as [Hn Hf]. rewrite fmap_cons. split.
        { apply NoDup_cons. split; [|done]. intros Hin.
          apply list_elem_of_fmap in Hin as (m & Hm & Hin).
          apply (Hf m Hin). rewrite <- Hm. set_solver. }
        intros m Hm. apply elem_of_cons in Hm as [->|Hm].
        { simpl. by rewrite Hd. }
        specialize (Hf m Hm). set_solver.
    + destruct (IH ({[NtfyMessage.id (NtfyMessage.init d)]} ∪ ids)
                  (loaded ++ [NtfyMessage.init d])) as (new & Heq & Hsub & Hnd).
      exists (NtfyMessage.init d :: new). rewrite Heq. split.
      { rewrite <- app_assoc, fmap_cons, list_to_set_cons. f_equal. set_solver. }
      split; [by apply sublist_skip|].
      intros Hall. apply Forall_cons in Hall as [[? Hsome] _]. congruence.
Qed.

Lemma load_loop_app data1 data2 ids loaded :
  MessagePanel.load_loop (data1 ++ data2) ids loaded
  = MessagePanel.load_loop data2
      (MessagePanel.load_loop data1 ids loaded).1
      (MessagePanel.load_loop data1 ids loaded).2.
Proof.
  revert ids loaded. induction data1 as [|d data1 IH]; intros ids loaded; [done|].
  simpl. by destruct (match NtfyMessage.d_id d with Some _ => _ | None => _ end).
Qed.

(** A record whose id has not come up before it is loaded. *)
Lemma load_loop_first data1 d data2 ids loaded :
  id_of d ∉ id_of <$> data1 → id_of d ∉ ids →
  NtfyMessage.init d
    ∈ (MessagePanel.load_loop (data1 ++ d :: data2) ids loaded).2.
Proof.
  intros H1 H2. rewrite load_loop_app.
  pose proof (load_loop_ids data1 ids loaded) as Hids.
  destruct (MessagePanel.load_loop data1 ids loaded) as [ids1 loaded1].
  simpl in *. subst ids1. cbn [MessagePanel.load_loop].
  assert (match NtfyMessage.d_id d with
          | Some i => bool_decide (i ∈ list_to_set (id_of <$> data1) ∪ ids)
          | None => false
          end = false) as ->.
  { unfold id_of in H1, H2 |- * at 1. destruct (NtfyMessage.d_id d) as [i|]; [|done].
    simpl in *. apply bool_decide_eq_false_2. set_solver. }
  match goal with
  | |- context [MessagePanel.load_loop data2 ?i ?l] =>
      destruct (load_loop_spec data2 i l) as (new & -> & _)
  end.
  simpl. set_solver.
Qed.

(** A record without an [id] key is always loaded. *)
Lemma load_loop_missing_id data1 d data2 ids loaded :
  NtfyMessage.d_id d = None →
  NtfyMessage.init d
    ∈ (MessagePanel.load_loop (data1 ++ d :: data2) ids loaded).2.
Proof.
  intros Hd. rewrite load_loop_app.
  destruct (MessagePanel.load_loop data1 ids loaded) as [ids1 loaded1].
  cbn [MessagePanel.load_loop fst snd]. rewrite Hd.
  match goal with
  | |- context [MessagePanel.load_loop data2 ?i ?l] =>
      destruct (load_loop_spec data2 i l) as (new & -> & _)
  end.
  simpl. set_solver.
Qed.

(** Records with pairwise different ids are all loaded, in their order. *)
Lemma load_loop_all data ids loaded :
  NoDup (id_of <$> data) →
  (∀ d, d ∈ data → id_of d ∉ ids) →
  (MessagePanel.load_loop data ids loaded).2 = loaded ++ (NtfyMessage.init <$> data).
Proof.
  revert ids loaded. induction data as [|d data IH]; intros ids loaded Hnd Hfresh.
  - simpl. by rewrite app_nil_r.
  - rewrite fmap_cons in Hnd. apply NoDup_cons in Hnd as [Hd Hnd].
    cbn [MessagePanel.load_loop].
    assert (match NtfyMessage.d_id d with
            | Some i => bool_decide (i ∈ ids)
            | None => false
            end = false) as ->.
    { pose proof (Hfresh d ltac:(left)) as Hf. unfold id_of in Hf.
      destruct (NtfyMessage.d_id d); [|done].
      by apply bool_decide_eq_false_2. }
    rewrite IH, fmap_cons, <- app_assoc; [done|done|].
    intros d' Hd' Hin.
    change (NtfyMessage.id (NtfyMessage.init d)) with (id_of d) in Hin.
    apply elem_of_union in Hin as [Hin|Hin].
    + apply elem_of_singleton in Hin. apply Hd. rewrite <- Hin.
      by apply list_elem_of_fmap_2.
    + eapply Hfresh; [right; exact Hd'|done].
Qed.

(** The sort keeps the order of messages with the same time. *)
Lemma insert_by_time_filter (x : NtfyMessage.t) (l : list NtfyMessage.t) (t : Z) :
  descending l →
  filter (λ m, NtfyMessage.time m = t) (MessagePanel.insert_by_time x l)
  = filter (λ m, NtfyMessage.time m = t) (x :: l).
Proof.
  induction l as [|y l IH]; simpl; intros Hd; [done|].
  apply StronglySorted_inv in Hd as [Hs Hf].
  destruct (NtfyMessage.time y >? NtfyMessage.time x) eqn:Hgt; [|done].
  rewrite filter_cons, (IH Hs), !filter_cons.
  repeat case_decide; try done. lia.
Qed.

Lemma sorted_by_time_desc_filter (l : list NtfyMessage.t) (t : Z) :
  filter (λ m, NtfyMessage.time m = t) (MessagePanel.sorted_by_time_desc l)
  = filter (λ m, NtfyMessage.time m = t) l.
Proof.
  induction l as [|x l IH]; [done|].
  cbn [MessagePanel.sorted_by_time_desc foldr].
  rewrite insert_by_time_filter by apply sorted_by_time_desc_descending.
  rewrite !filter_cons. fold (MessagePanel.sorted_by_time_desc l).
  by rewrite IH.
Qed.

Lemma load_messages_unfold data st :
  MessagePanel.load_messages data st
  = {| MessagePanel.message_ids := (MessagePanel.load_loop data ∅ []).1;
       MessagePanel.messages :=
         MessagePanel.sorted_by_time_desc (MessagePanel.load_loop data ∅ []).2 |}.
Proof.
  unfold MessagePanel.load_messages. simpl.
  by destruct (MessagePanel.load_loop data ∅ []).
Qed.

Lemma place_front m (l : list NtfyMessage.t) :
  Forall (newer m) l → place m l = m :: l.
Proof.
  destruct 1 as [|e l He _]; simpl; [done|].
  unfold newer in He. destruct (NtfyMessage.time m >? NtfyMessage.time e) eqn:E;
    [done|lia].
Qed.

Lemma place_back m (l : list NtfyMessage.t) :
  Forall (λ e, not_older e m) l → place m l = l ++ [m].
Proof.
  induction 1 as [|e l He _ IH]; simpl; [done|].
  unfold not_older in He. destruct (NtfyMessage.time m >? NtfyMessage.time e) eqn:E;
    [lia|by rewrite IH].
Qed.

End Loading.

Lemma load_messages_index data (st : MessagePanel.t) :
  MessagePanel.message_ids (MessagePanel.load_messages data st)
  = list_to_set
      (NtfyMessage.id <$> MessagePanel.messages (MessagePanel.load_messages data st)).
Proof.
  rewrite load_messages_unfold. simpl.
  destruct (load_loop_spec data ∅ []) as (new & -> & _). simpl.
  rewrite (sorted_by_time_desc_perm new). set_solver.
Qed.

(** X1.  [load_messages] starts from an empty panel: its result does not
    depend on what the panel held; the loaded history is in descending
    order of time and the dedup index is the set of ids in it. *)
Theorem load_messages_starts_afresh (data : list NtfyMessage.dict)
    (st st' : MessagePanel.t) :
  MessagePanel.load_messages data st = MessagePanel.load_messages data st'
  ∧ descending (MessagePanel.messages (MessagePanel.load_messages data st))
  ∧ MessagePanel.message_ids (MessagePanel.load_messages data st)
    = list_to_set
        (NtfyMessage.id <$> MessagePanel.messages (MessagePanel.load_messages data st)).
Proof.
  split; [by rewrite !load_messages_unfold|].
  split; [apply load_messages_descending|].
  apply load_messages_index.
Qed.

(** X2.  Loading keeps, for every id, the first record that has it: each
    loaded message comes from a record, a record whose id no earlier record
    has is loaded, and when every record has an [id] key no two loaded
    messages share an id.  A record without an [id] key is always loaded. *)
Theorem load_messages_keeps_first_of_each_id (data : list NtfyMessage.dict)
    (st : MessagePanel.t) :
  let h := MessagePanel.messages (MessagePanel.load_messages data st) in
  (∀ m, m ∈ h → m ∈ NtfyMessage.init <$> data)
  ∧ (∀ d1 d d2,
       data = d1 ++ d :: d2 → id_of d ∉ id_of <$> d1 → NtfyMessage.init d ∈ h)
  ∧ (∀ d1 d d2,
       data = d1 ++ d :: d2 → NtfyMessage.d_id d = None → NtfyMessage.init d ∈ h)
  ∧ (Forall (λ d, is_Some (NtfyMessage.d_id d)) data → NoDup (NtfyMessage.id <$> h)).
Proof.
  cbv zeta. rewrite load_messages_unfold. simpl. repeat split.
  - intros m Hm. rewrite sorted_by_time_desc_perm in Hm.
    destruct (load_loop_spec data ∅ []) as (new & Heq & Hsub & _).
    rewrite Heq in Hm. simpl in Hm. by eapply elem_of_sublist.
  - intros d1 d d2 -> Hfirst. rewrite sorted_by_time_desc_perm.
    apply load_loop_first; [done|set_solver].
  - intros d1 d d2 -> Hnone. rewrite sorted_by_time_desc_perm.
    by apply load_loop_missing_id.
  - intros Hall. rewrite sorted_by_time_desc_perm.
    destruct (load_loop_spec data ∅ []) as (new & -> & _ & Hnd). simpl.
    by apply Hnd.
Qed.

Lemma load_messages_keeps_first_of_each_id_witness :
  NtfyMessage.init (message_record "a1" 1000)
    ∈ MessagePanel.messages
        (MessagePanel.load_messages
           [message_record "a1" 1000; message_record "a1" 1001] MessagePanel.new)
  ∧ NoDup (NtfyMessage.id
             <$> MessagePanel.messages
                   (MessagePanel.load_messages
                      [message_record "a1" 1000; message_record "a1" 1001]
                      MessagePanel.new)).
Proof.
  split.
  - apply (proj1 (proj2 (load_messages_keeps_first_of_each_id
                           [message_record "a1" 1000; message_record "a1" 1001]
                           MessagePanel.new))
             [] (message_record "a1" 1000) [message_record "a1" 1001]).
    + reflexivity.
    + apply not_elem_of_nil.
  - apply (proj2 (proj2 (proj2 (load_messages_keeps_first_of_each_id
                                  [message_record "a1" 1000; message_record "a1" 1001]
                                  MessagePanel.new)))).
    repeat constructor; by eexists.
Defined.

(** X3.  When the records have pairwise different ids, the loaded history
    holds all of them, in descending order of time, and records with the
    same time stay in the order of the file; a file that is in order is
    loaded as it is. *)
Theorem load_messages_orders_by_time (data : list NtfyMessage.dict)
    (st : MessagePanel.t) :
  NoDup (id_of <$> data) →
  let h := MessagePanel.messages (MessagePanel.load_messages data st) in
  h ≡ₚ NtfyMessage.init <$> data
  ∧ descending h
  ∧ (∀ t, filter (λ m, NtfyMessage.time m = t) h
          = filter (λ m, NtfyMessage.time m = t) (NtfyMessage.init <$> data))
  ∧ (descending (NtfyMessage.init <$> data) → h = NtfyMessage.init <$> data).
Proof.
  intros Hnd. cbv zeta. rewrite load_messages_unfold. simpl.
  rewrite (load_loop_all data ∅ [] Hnd) by set_solver. simpl.
  split; [apply sorted_by_time_desc_perm|].
  split; [apply sorted_by_time_desc_descending|].
  split; [intros t; apply sorted_by_time_desc_filter|].
  apply sorted_by_time_desc_id.
Qed.

Lemma load_messages_orders_by_time_witness :
  MessagePanel.messages
    (MessagePanel.load_messages
       [message_record "a1" 1000; message_record "a2" 1001; message_record "a3" 1001]
       MessagePanel.new)
  ≡ₚ NtfyMessage.init
       <$> [message_record "a1" 1000; message_record "a2" 1001;
            message_record "a3" 1001].
Proof.
  apply (load_messages_orders_by_time
           [message_record "a1" 1000; message_record "a2" 1001;
            message_record "a3" 1001] MessagePanel.new).
  vm_compute. repeat constructor; set_solver.
Defined.

(** X4.  Clearing the messages lets a message in again: a message that was
    admitted is admitted once more after [clear_messages], and is then the
    whole history. *)
Theorem clearing_lets_a_message_in_again (m : NtfyMessage.t) (st : MessagePanel.t) :
  (MessagePanel.add_message m st).1 = true →
  let cleared := MessagePanel.clear_messages (after_admission st m) in
  (MessagePanel.add_message m cleared).1 = true
  ∧ MessagePanel.messages (after_admission cleared m) = [m]
  ∧ MessagePanel.message_ids (after_admission cleared m) = {[ NtfyMessage.id m ]}.
Proof.
  intros Ht cleared.
  destruct (add_message_cases m st) as [(He & Hi & _ & _)|[_ Heq]];
    [|by rewrite Heq in Ht].
  unfold after_admission at 1 2.
  destruct (add_message_cases m cleared) as [(_ & _ & _ & ->)|[[?|[?|Hin]] _]];
    try done.
  simpl. repeat split. set_solver.
Qed.

Lemma clearing_lets_a_message_in_again_witness :
  let cleared :=
    MessagePanel.clear_messages (after_admission MessagePanel.new first_a1) in
  (MessagePanel.add_message first_a1 cleared).1 = true
  ∧ MessagePanel.messages (after_admission cleared first_a1) = [first_a1]
  ∧ MessagePanel.message_ids (after_admission cleared first_a1) = {[ "a1" ]}.
Proof.
  apply (clearing_lets_a_message_in_again first_a1 MessagePanel.new).
  vm_compute. reflexivity.
Defined.

(** X5.  In every state of the panel a session can reach, the dedup index
    is exactly the set of ids of the messages in the history. *)
Theorem index_is_the_ids_of_the_history (st : MessagePanel.t) :
  reachable st →
  MessagePanel.message_ids st
  = list_to_set (NtfyMessage.id <$> MessagePanel.messages st).
Proof.
  induction 1 as [|m st _ IH|data st _ _|st _ _]; [done| | |done].
  - unfold after_admission.
    destruct (add_message_cases m st) as [(_ & _ & _ & ->)|[_ ->]]; [|done].
    simpl. destruct (place_split m (MessagePanel.messages st))
      as (l1 & l2 & Hl & -> & _ & _).
    rewrite IH, Hl, !fmap_app, fmap_cons, !list_to_set_app_L, list_to_set_cons.
    set_solver.
  - apply load_messages_index.
Qed.

Lemma index_is_the_ids_of_the_history_witness :
  MessagePanel.message_ids
    (MessagePanel.load_messages [message_record "a1" 1000]
       (after_admission MessagePanel.new then_a2))
  = list_to_set
      (NtfyMessage.id
         <$> MessagePanel.messages
               (MessagePanel.load_messages [message_record "a1" 1000]
                  (after_admission MessagePanel.new then_a2))).
Proof.
  apply index_is_the_ids_of_the_history.
  apply reach_load, reach_add, reach_new.
Defined.

(** X6.  As long as every record of a loaded file has an [id] key, no two
    messages of the history have the same id, whatever admissions, loads
    and clearings the session goes through. *)
Theorem history_ids_are_pairwise_different (st : MessagePanel.t) :
  reachable_with_ids st →
  NoDup (NtfyMessage.id <$> MessagePanel.messages st).
Proof.
  intros Hr.
  assert (NoDup (NtfyMessage.id <$> MessagePanel.messages st)
          ∧ MessagePanel.message_ids st
            = list_to_set (NtfyMessage.id <$> MessagePanel.messages st)) as [H _];
    [|done].
  induction Hr as [|m st _ [IHn IHi]|data st Hall _ _|st _ _].
  - split; [constructor|done].
  - unfold after_admission.
    destruct (add_message_cases m st) as [(_ & _ & Hn & ->)|[_ ->]]; [|done].
    simpl. destruct (place_split m (MessagePanel.messages st))
      as (l1 & l2 & Hl & -> & _ & _).
    rewrite IHi, Hl in Hn |- *. rewrite Hl in IHn.
    rewrite !fmap_app, fmap_cons.
    rewrite fmap_app in IHn, Hn. rewrite list_to_set_app_L in Hn.
    apply NoDup_app in IHn as (H1 & H12 & H2).
    split.
    + apply NoDup_app. repeat split; [done| |].
      * intros i Hi Hi'. apply elem_of_cons in Hi' as [->|Hi']; [|by eapply H12].
        apply Hn. set_solver.
      * apply NoDup_cons. split; [|done]. intros Hi. apply Hn. set_solver.
    + rewrite !list_to_set_app_L, list_to_set_cons. set_solver.
  - split; [|apply load_messages_index].
    rewrite load_messages_unfold. simpl.
    rewrite sorted_by_time_desc_perm.
    destruct (load_loop_spec data ∅ []) as (new & -> & _ & Hnd). simpl.
    by apply Hnd.
  - split; [constructor|done].
Qed.

Lemma history_ids_are_pairwise_different_witness :
  NoDup (NtfyMessage.id
           <$> MessagePanel.messages
                 (after_admission
                    (MessagePanel.load_messages
                       [message_record "a1" 1000; message_record "a1" 1001]
                       MessagePanel.new)
                    then_a2)).
Proof.
  apply history_ids_are_pairwise_different.
  apply reach_ids_add, reach_ids_load; [|apply reach_ids_new].
  repeat constructor; by eexists.
Defined.

(** X7.  An admitted message that is newer than every entry becomes the
    first entry of the history; one that is not newer than any entry
    becomes the last. *)
Theorem newest_goes_first_oldest_last (m : NtfyMessage.t) (st : MessagePanel.t) :
  (MessagePanel.add_message m st).1 = true →
  (Forall (newer m) (MessagePanel.messages st) →
   MessagePanel.messages (after_admission st m) = m :: MessagePanel.messages st)
  ∧ (Forall (λ e, not_older e m) (MessagePanel.messages st) →
     MessagePanel.messages (after_admission st m) = MessagePanel.messages st ++ [m]).
Proof.
  intros Ht. unfold after_admission.
  destruct (add_message_cases m st) as [(_ & _ & _ & Heq)|[_ Heq]];
    rewrite Heq in Ht |- *; [|done].
  simpl. split; [apply place_front|apply place_back].
Qed.

Lemma newest_goes_first_oldest_last_witness :
  MessagePanel.messages
    (after_admission (after_admission MessagePanel.new first_a1) (sample "a2" 1001))
  = [sample "a2" 1001; first_a1]
  ∧ MessagePanel.messages
      (after_admission (after_admission MessagePanel.new first_a1) then_a2)
    = [first_a1; then_a2].
Proof.
  split.
  - apply (proj1 (newest_goes_first_oldest_last (sample "a2" 1001)
                    (after_admission MessagePanel.new first_a1) eq_refl)).
    repeat constructor.
  - apply (proj2 (newest_goes_first_oldest_last then_a2
                    (after_admission MessagePanel.new first_a1) eq_refl)).
    repeat constructor. unfold not_older. simpl. lia.
Defined.

(** * Further properties of the registry *)

Section RegistryMore.

Implicit Types (s : SubscriptionPanel.sub) (self : SubscriptionPanel.t)
  (l : list SubscriptionPanel.sub).

Lemma rstrip_slash_fixed (u : string) :
  ends_with_slash u = false → SubscriptionPanel.rstrip_slash u = u.
Proof.
  induction u as [|c u IH]; [done|]. simpl.
  destruct u as [|c' u'].
  - simpl. by intros ->.
  - intros H. rewrite (IH H). done.
Qed.

Lemma has_scheme_head (u : string) :
  SubscriptionPanel.has_scheme u = true → ∃ rest, u = String "h" rest.
Proof.
  unfold SubscriptionPanel.has_scheme. destruct u as [|c u]; [done|].
  cbn [String.prefix]. destruct (ascii_dec "h" c) as [<-|]; [intros _; by eexists|done].
Qed.

Lemma normalize_nonempty (server_url : string) :
  SubscriptionPanel.normalize server_url ≠ "".
Proof.
  destruct (normalize_cases server_url) as (u & _ & Hs & ->).
  apply has_scheme_head in Hs as [rest ->]. simpl.
  by destruct (SubscriptionPanel.rstrip_slash rest).
Qed.

Lemma normalize_fixed (u : string) :
  SubscriptionPanel.has_scheme u = true → ends_with_slash u = false →
  SubscriptionPanel.normalize u = u.
Proof.
  intros Hs He. unfold SubscriptionPanel.normalize. rewrite Hs.
  by apply rstrip_slash_fixed.
Qed.

(** With keys that are pairwise different, the update loops change the
    entry with the key and nothing else. *)
Lemma update_first_map server_url topic_name (f : SubscriptionPanel.sub → SubscriptionPanel.sub) l :
  NoDup (sub_key <$> l) →
  SubscriptionPanel.update_first server_url topic_name f l
  = (λ s, if SubscriptionPanel.has_key server_url topic_name s then f s else s) <$> l.
Proof.
  induction l as [|s l IH]; [done|]. rewrite fmap_cons. intros Hnd.
  apply NoDup_cons in Hnd as [Hs Hnd]. cbn [SubscriptionPanel.update_first].
  rewrite fmap_cons.
  destruct (SubscriptionPanel.has_key server_url topic_name s) eqn:Hk;
    [|by rewrite IH].
  f_equal. symmetry. etrans; [|apply list_fmap_id].
  apply list_fmap_ext. intros i s' Hs'. simpl.
  destruct (SubscriptionPanel.has_key server_url topic_name s') eqn:Hk'; [|done].
  exfalso. apply Hs.
  unfold SubscriptionPanel.has_key in Hk, Hk'.
  apply andb_true_iff in Hk as [H1 H2]. apply andb_true_iff in Hk' as [H1' H2'].
  apply bool_decide_eq_true in H1, H2, H1', H2'.
  apply list_elem_of_fmap. exists s'. split.
  - unfold sub_key. congruence.
  - by eapply list_elem_of_lookup_2.
Qed.

Lemma registry_entries_nonempty self :
  registry_reachable self →
  Forall (λ s, SubscriptionPanel.server s ≠ "" ∧ SubscriptionPanel.topic s ≠ "")
    (SubscriptionPanel.subscriptions self).
Proof.
  induction 1 as [|u t self _ IH|i self _ IH|u t st self Hr IH|u t n self Hr IH].
  - constructor.
  - destruct (add_subscription_cases u t self) as [(_ & Ht & _ & ->)|[_ ->]];
      simpl; [|done].
    apply Forall_app. split; [done|].
    constructor; [|constructor]. simpl. split; [apply normalize_nonempty|done].
  - simpl. apply Forall_forall. intros s Hs.
    refine (proj1 (Forall_forall _ _) IH s _).
    eapply elem_of_sublist; [exact Hs|apply sublist_delete].
  - simpl. rewrite update_first_map by (by apply registry_invariant).
    apply Forall_fmap. eapply Forall_impl; [exact IH|].
    intros s Hs. simpl. by destruct (SubscriptionPanel.has_key u t s).
  - simpl. rewrite update_first_map by (by apply registry_invariant).
    apply Forall_fmap. eapply Forall_impl; [exact IH|].
    intros s Hs. simpl. by destruct (SubscriptionPanel.has_key u t s).
Qed.

End RegistryMore.

(** X8.  A URL that already has a scheme and no trailing slash is stored as
    it is, so normalising is idempotent whenever its result still starts
    with a scheme; that is the case for every URL with a host part that is
    not made of slashes only, with or without scheme. *)
Theorem normalize_is_idempotent :
  (∀ u, SubscriptionPanel.has_scheme (SubscriptionPanel.normalize u) = true →
        SubscriptionPanel.normalize (SubscriptionPanel.normalize u)
        = SubscriptionPanel.normalize u)
  ∧ (∀ scheme rest,
       scheme = "http://" ∨ scheme = "https://" →
       SubscriptionPanel.rstrip_slash rest ≠ "" →
       SubscriptionPanel.normalize (scheme +:+ rest)
       = scheme +:+ SubscriptionPanel.rstrip_slash rest
       ∧ SubscriptionPanel.has_scheme (SubscriptionPanel.normalize (scheme +:+ rest))
         = true)
  ∧ (∀ host,
       SubscriptionPanel.has_scheme host = false →
       SubscriptionPanel.rstrip_slash host ≠ "" →
       SubscriptionPanel.normalize host
       = "https://" +:+ SubscriptionPanel.rstrip_slash host
       ∧ SubscriptionPanel.has_scheme (SubscriptionPanel.normalize host) = true).
Proof.
  assert (∀ scheme rest, scheme = "http://" ∨ scheme = "https://" →
            SubscriptionPanel.has_scheme (scheme +:+ rest) = true) as Hsch.
  { intros scheme rest [-> | ->]; unfold SubscriptionPanel.has_scheme;
      rewrite prefix_append; [done|apply orb_true_r]. }
  split; [|split].
  - intros u Hs. apply normalize_fixed; [done|].
    unfold SubscriptionPanel.normalize. apply rstrip_slash_no_trailing.
  - intros scheme rest Hs Hne.
    rewrite (normalize_keeps_scheme scheme rest Hs Hne). split; [done|].
    by apply Hsch.
  - intros host Hs Hne. unfold SubscriptionPanel.normalize. rewrite Hs.
    rewrite (rstrip_slash_append "https://" host Hne). split; [done|].
    apply Hsch. by right.
Qed.

Lemma normalize_is_idempotent_witness :
  SubscriptionPanel.normalize (SubscriptionPanel.normalize "ntfy.sh//")
  = SubscriptionPanel.normalize "ntfy.sh//"
  ∧ SubscriptionPanel.normalize "ntfy.example.org/"
    = "https://" +:+ SubscriptionPanel.rstrip_slash "ntfy.example.org/".
Proof.
  split.
  - apply (proj1 normalize_is_idempotent). reflexivity.
  - apply (proj2 (proj2 normalize_is_idempotent)); [reflexivity|discriminate].
Defined.

(** X9.  Two spellings of a server that normalise to the same URL are the
    same subscription: once one has been entered with a topic, entering
    the other with that topic is refused and leaves the registry as it is.
    In particular entering the same subscription twice adds it once. *)
Theorem add_subscription_refuses_same_server (u1 u2 topic_name : string)
    (self : SubscriptionPanel.t) :
  u1 ≠ "" → topic_name ≠ "" →
  SubscriptionPanel.normalize u1 = SubscriptionPanel.normalize u2 →
  let self' := (SubscriptionPanel.add_subscription u1 topic_name self).2 in
  SubscriptionPanel.add_subscription u2 topic_name self' = (false, self').
Proof.
  intros Hu Ht Hn self'.
  assert ((SubscriptionPanel.normalize u2, topic_name)
            ∈ sub_key <$> SubscriptionPanel.subscriptions self') as Hin.
  { subst self'. rewrite <- Hn.
    destruct (add_subscription_cases u1 topic_name self)
      as [(_ & _ & _ & ->)|[[?|[?|Hin]] ->]]; try done.
    simpl. rewrite fmap_app. apply elem_of_app. right. apply list_elem_of_here. }
  destruct (add_subscription_cases u2 topic_name self')
    as [(_ & _ & Hnot & _)|[_ Heq]]; done.
Qed.

Lemma add_subscription_refuses_same_server_witness :
  SubscriptionPanel.add_subscription "https://ntfy.sh" "alerts" alerts_registry
  = (false, alerts_registry).
Proof.
  apply (add_subscription_refuses_same_server "ntfy.sh/" "https://ntfy.sh" "alerts"
           SubscriptionPanel.new).
  - discriminate.
  - discriminate.
  - reflexivity.
Defined.

(** X10.  In a registry a session can reach, [update_subscription_status]
    and [update_subscription_message_count] change the status, or the
    count, of the entry with the given key and nothing else: no other entry
    and no other field changes, the order and the keys stay, and a key
    that is not in the registry changes nothing. *)
Theorem updates_touch_one_entry (self : SubscriptionPanel.t)
    (server_url topic_name status : string) (count : nat) :
  registry_reachable self →
  SubscriptionPanel.subscriptions
    (SubscriptionPanel.update_subscription_status server_url topic_name status self)
  = (λ s, if SubscriptionPanel.has_key server_url topic_name s
          then {| SubscriptionPanel.server := SubscriptionPanel.server s;
                  SubscriptionPanel.topic := SubscriptionPanel.topic s;
                  SubscriptionPanel.status := status;
                  SubscriptionPanel.message_count := SubscriptionPanel.message_count s |}
          else s) <$> SubscriptionPanel.subscriptions self
  ∧ SubscriptionPanel.subscriptions
      (SubscriptionPanel.update_subscription_message_count server_url topic_name count self)
    = (λ s, if SubscriptionPanel.has_key server_url topic_name s
            then {| SubscriptionPanel.server := SubscriptionPanel.server s;
                    SubscriptionPanel.topic := SubscriptionPanel.topic s;
                    SubscriptionPanel.status := SubscriptionPanel.status s;
                    SubscriptionPanel.message_count := count |}
            else s) <$> SubscriptionPanel.subscriptions self
  ∧ ((server_url, topic_name) ∉ sub_key <$> SubscriptionPanel.subscriptions self →
     SubscriptionPanel.update_subscription_status server_url topic_name status self
     = self
     ∧ SubscriptionPanel.update_subscription_message_count server_url topic_name
         count self = self).
Proof.
  intros Hr. destruct (registry_invariant self Hr) as [Hnd _].
  unfold SubscriptionPanel.update_subscription_status,
    SubscriptionPanel.update_subscription_message_count. simpl.
  rewrite !update_first_map by done. repeat split.
  - destruct self as [subs]. simpl in *. f_equal.
    etrans; [|apply list_fmap_id]. apply list_fmap_ext. intros i s Hs. simpl.
    destruct (SubscriptionPanel.has_key server_url topic_name s) eqn:Hk; [|done].
    exfalso. apply H. apply existsb_has_key, existsb_exists.
    exists s. split; [|done]. apply list_elem_of_In. by eapply list_elem_of_lookup_2.
  - destruct self as [subs]. simpl in *. f_equal.
    etrans; [|apply list_fmap_id]. apply list_fmap_ext. intros i s Hs. simpl.
    destruct (SubscriptionPanel.has_key server_url topic_name s) eqn:Hk; [|done].
    exfalso. apply H. apply existsb_has_key, existsb_exists.
    exists s. split; [|done]. apply list_elem_of_In. by eapply list_elem_of_lookup_2.
Qed.

Lemma updates_touch_one_entry_witness :
  SubscriptionPanel.subscriptions
    (SubscriptionPanel.update_subscription_status "https://ntfy.sh" "alerts" "已连接"
       alerts_registry)
  = [ {| SubscriptionPanel.server := "https://ntfy.sh";
         SubscriptionPanel.topic := "alerts";
         SubscriptionPanel.status := "已连接";
         SubscriptionPanel.message_count := 0%nat |} ].
Proof.
  apply (proj1 (updates_touch_one_entry alerts_registry "https://ntfy.sh" "alerts"
                  "已连接" 0 (registry_add _ _ _ registry_new))).
Defined.

(** X11.  Removing the selected row from a registry a session can reach
    takes out that entry and no other: the entries before and behind it
    stay in their order, its key is no longer in the registry, and, if its
    server starts with a scheme, entering it again is accepted and puts it
    at the end, not connected and with a count of 0. *)
Theorem remove_subscription_frees_the_key (self : SubscriptionPanel.t)
    (selected : nat) (s : SubscriptionPanel.sub) :
  registry_reachable self →
  SubscriptionPanel.subscriptions self !! selected = Some s →
  let self' := SubscriptionPanel.remove_subscription selected self in
  SubscriptionPanel.subscriptions self'
  = take selected (SubscriptionPanel.subscriptions self)
    ++ drop (S selected) (SubscriptionPanel.subscriptions self)
  ∧ (sub_key s ∉ sub_key <$> SubscriptionPanel.subscriptions self')
  ∧ (SubscriptionPanel.has_scheme (SubscriptionPanel.server s) = true →
     SubscriptionPanel.add_subscription (SubscriptionPanel.server s)
       (SubscriptionPanel.topic s) self'
     = (true,
        {| SubscriptionPanel.subscriptions :=
             SubscriptionPanel.subscriptions self'
             ++ [ {| SubscriptionPanel.server := SubscriptionPanel.server s;
                     SubscriptionPanel.topic := SubscriptionPanel.topic s;
                     SubscriptionPanel.status := "未连接";
                     SubscriptionPanel.message_count := 0%nat |} ] |})).
Proof.
  intros Hr Hs self'.
  destruct (registry_invariant self Hr) as [Hnd Hsl].
  pose proof (registry_entries_nonempty self Hr) as Hne.
  assert (SubscriptionPanel.subscriptions self'
          = take selected (SubscriptionPanel.subscriptions self)
            ++ drop (S selected) (SubscriptionPanel.subscriptions self)) as Heq
    by apply delete_take_drop.
  assert (sub_key s ∉ sub_key <$> SubscriptionPanel.subscriptions self') as Hfree.
  { rewrite Heq. rewrite <- (take_drop_middle _ _ _ Hs) in Hnd.
    rewrite fmap_app, fmap_cons in Hnd.
    apply NoDup_app in Hnd as (_ & H12 & H2). apply NoDup_cons in H2 as [H2 _].
    rewrite fmap_app. intros Hin. apply elem_of_app in Hin as [Hin|Hin]; [|done].
    apply (H12 _ Hin). left. }
  split; [done|]. split; [done|]. intros Hsch.
  assert (SubscriptionPanel.normalize (SubscriptionPanel.server s)
          = SubscriptionPanel.server s) as Hfix.
  { apply normalize_fixed; [done|].
    refine (proj1 (Forall_forall _ _) Hsl _ _).
    apply list_elem_of_fmap_2. by eapply list_elem_of_lookup_2. }
  destruct (proj1 (Forall_forall _ _) Hne s) as [Hsrv Htop];
    [by eapply list_elem_of_lookup_2|].
  destruct (add_subscription_cases (SubscriptionPanel.server s)
              (SubscriptionPanel.topic s) self')
    as [(_ & _ & _ & ->)|[[?|[?|Hin]] _]]; try done.
  - by rewrite Hfix.
  - rewrite Hfix in Hin. done.
Qed.

Lemma remove_subscription_frees_the_key_witness :
  SubscriptionPanel.subscriptions
    (SubscriptionPanel.remove_subscription 0 alerts_registry) = []
  ∧ sub_key alerts
    ∉ sub_key <$> SubscriptionPanel.subscriptions
                    (SubscriptionPanel.remove_subscription 0 alerts_registry).
Proof.
  destruct (remove_subscription_frees_the_key alerts_registry 0 alerts
              (registry_add _ _ _ registry_new) eq_refl) as (H1 & H2 & _).
  split; [exact H1|exact H2].
Defined.

(** * Further properties of the workers *)

Section WorkersMore.

Variable json_loads : string → NtfyGUI.parsed.
Variable reconnect_delay : nat.

Implicit Types (subscription : SubscriptionPanel.sub) (p : NtfyGUI.pc)
  (o : NtfyGUI.observation).

Lemma stream_loop_app server_url (lines1 lines2 : list (bool * string)) :
  NtfyGUI.stream_loop json_loads server_url (lines1 ++ lines2)
  = match NtfyGUI.stream_loop json_loads server_url lines1 with
    | (trace1, NtfyGUI.Exhausted) =>
        ((trace1 ++ (NtfyGUI.stream_loop json_loads server_url lines2).1),
         (NtfyGUI.stream_loop json_loads server_url lines2).2)
    | r => r
    end.
Proof.
  induction lines1 as [|[stop line] lines1 IH]; simpl.
  - by destruct (NtfyGUI.stream_loop json_loads server_url lines2).
  - destruct stop; [done|]. case_bool_decide; [done|].
    destruct (json_loads line); try done.
    + rewrite IH.
      by destruct (NtfyGUI.stream_loop json_loads server_url lines1) as [t1 []].
    + rewrite IH.
      by destruct (NtfyGUI.stream_loop json_loads server_url lines1) as [t1 []].
Qed.

Lemma stream_loop_stamped server_url lines :
  Forall (stamped [server_url]) (NtfyGUI.stream_loop json_loads server_url lines).1.
Proof.
  induction lines as [|[stop line] lines IH]; simpl; [constructor|].
  destruct stop; [constructor|]. case_bool_decide; [done|].
  destruct (json_loads line); try constructor.
  - destruct (NtfyGUI.stream_loop json_loads server_url lines).
    constructor; [|done]. simpl. apply list_elem_of_here.
  - destruct (NtfyGUI.stream_loop json_loads server_url lines). by constructor.
Qed.

Lemma listen_stamped subscription s :
  Forall (stamped [SubscriptionPanel.server subscription])
    (NtfyGUI.listen_subscription_messages json_loads subscription s).1.
Proof.
  unfold NtfyGUI.listen_subscription_messages.
  destruct (NtfyGUI.connected s); [|by repeat constructor].
  pose proof (stream_loop_stamped (SubscriptionPanel.server subscription)
                (NtfyGUI.received s)) as H.
  destruct (NtfyGUI.stream_loop _ _ _) as [trace []]; simpl in *.
  - destruct (NtfyGUI.broken s); simpl; repeat constructor; try done.
    apply Forall_app. split; [done|by repeat constructor].
  - by repeat constructor.
  - by repeat constructor.
Qed.

Lemma step_stamped subscription p o :
  Forall (stamped [SubscriptionPanel.server subscription])
    (NtfyGUI.step json_loads reconnect_delay subscription p o).2.
Proof.
  destruct p as [n|n|n raised|n k|]; simpl.
  - destruct (NtfyGUI.stop_listening o); by repeat constructor.
  - pose proof (listen_stamped subscription (NtfyGUI.next_session o)) as H.
    by destruct (NtfyGUI.listen_subscription_messages _ _ _).
  - destruct (NtfyGUI.stop_listening o); [by repeat constructor|].
    destruct (NtfyGUI.auto_reconnect o), raised; by repeat constructor.
  - destruct (NtfyGUI.stop_listening o); by repeat constructor.
  - constructor.
Qed.

Lemma run_stamped subscription p os :
  Forall (stamped [SubscriptionPanel.server subscription])
    (NtfyGUI.run json_loads reconnect_delay subscription p os).2.
Proof.
  revert p. induction os as [|o os IH]; intros p; simpl; [constructor|].
  pose proof (step_stamped subscription p o) as H.
  destruct (NtfyGUI.step _ _ _ _ _) as [p1 t1].
  specialize (IH p1). destruct (NtfyGUI.run _ _ _ _ _) as [p2 t2].
  simpl in *. by apply Forall_app.
Qed.

Lemma stamped_mono urls urls' e :
  urls ⊆ urls' → stamped urls e → stamped urls' e.
Proof. intros Hsub. destruct e as [[]| | |]; simpl; auto. Qed.

Lemma fetch_lines_stamped server_url lines total :
  Forall (stamped [server_url])
    (NtfyGUI.fetch_lines json_loads server_url lines total).1.
Proof.
  revert total. induction lines as [|line lines IH]; intros total; simpl;
    [constructor|].
  case_bool_decide; [done|].
  destruct (json_loads line); try constructor.
  - match goal with |- context [NtfyGUI.fetch_lines _ _ _ ?t] => specialize (IH t) end.
    destruct (NtfyGUI.fetch_lines _ _ _ _).
    constructor; [|done]. simpl. apply list_elem_of_here.
  - specialize (IH total). destruct (NtfyGUI.fetch_lines _ _ _ _). by constructor.
Qed.

Lemma fetch_subscriptions_stamped
    (requests : list (SubscriptionPanel.sub * NtfyGUI.response)) total :
  Forall (stamped (SubscriptionPanel.server <$> requests.*1))
    (NtfyGUI.fetch_subscriptions json_loads requests total).1.
Proof.
  revert total. induction requests as [|[s [lines|]] requests IH]; intros total;
    simpl; [constructor| |].
  - pose proof (fetch_lines_stamped (SubscriptionPanel.server s) lines total) as H.
    destruct (NtfyGUI.fetch_lines _ _ _ _) as [t1 [e|total']]; simpl in *.
    + constructor; [done|].
      eapply Forall_impl; [exact H|]. intros e'. apply stamped_mono. set_solver.
    + specialize (IH total'). destruct (NtfyGUI.fetch_subscriptions _ _ _).
      constructor; [done|]. apply Forall_app. split.
      * eapply Forall_impl; [exact H|]. intros e'. apply stamped_mono. set_solver.
      * eapply Forall_impl; [exact IH|]. intros e'. apply stamped_mono. set_solver.
  - specialize (IH total). destruct (NtfyGUI.fetch_subscriptions _ _ _).
    repeat constructor.
    eapply Forall_impl; [exact IH|]. intros e'. apply stamped_mono. set_solver.
Qed.

End WorkersMore.

Section WorkersMore2.

Variable json_loads : string → NtfyGUI.parsed.
Variable reconnect_delay : nat.

Implicit Types (subscription : SubscriptionPanel.sub) (p : NtfyGUI.pc)
  (o : NtfyGUI.observation).

Lemma stream_loop_idle server_url (lines : list (bool * string)) :
  NtfyGUI.stream_loop json_loads server_url lines
  = NtfyGUI.stream_loop json_loads server_url
      (List.filter (λ l, negb (is_idle_line l)) lines).
Proof.
  induction lines as [|[stop line] lines IH]; [done|].
  cbn [List.filter]. unfold is_idle_line at 1. cbn [fst snd].
  destruct stop; cbn [negb andb]; [done|].
  case_bool_decide as Hl; cbn [negb].
  - cbn [NtfyGUI.stream_loop]. by rewrite (bool_decide_eq_true_2 _ Hl).
  - cbn [NtfyGUI.stream_loop]. rewrite (bool_decide_eq_false_2 _ Hl).
    by rewrite IH.
Qed.

Lemma fetch_lines_idle server_url (lines : list string) total :
  NtfyGUI.fetch_lines json_loads server_url lines total
  = NtfyGUI.fetch_lines json_loads server_url
      (List.filter (λ l, negb (bool_decide (l = ""))) lines) total.
Proof.
  revert total. induction lines as [|line lines IH]; intros total; [done|].
  cbn [List.filter]. case_bool_decide as Hl; cbn [negb].
  - cbn [NtfyGUI.fetch_lines]. by rewrite (bool_decide_eq_true_2 _ Hl).
  - cbn [NtfyGUI.fetch_lines]. rewrite (bool_decide_eq_false_2 _ Hl).
    destruct (json_loads line); try done; by rewrite IH.
Qed.

Lemma fetch_lines_app server_url (lines1 lines2 : list string) total :
  NtfyGUI.fetch_lines json_loads server_url (lines1 ++ lines2) total
  = match NtfyGUI.fetch_lines json_loads server_url lines1 total with
    | (trace1, inr total1) =>
        (trace1 ++ (NtfyGUI.fetch_lines json_loads server_url lines2 total1).1,
         (NtfyGUI.fetch_lines json_loads server_url lines2 total1).2)
    | r => r
    end.
Proof.
  revert total. induction lines1 as [|line lines1 IH]; intros total; simpl.
  - by destruct (NtfyGUI.fetch_lines json_loads server_url lines2 total).
  - case_bool_decide; [done|].
    destruct (json_loads line); try done.
    + rewrite IH. by destruct (NtfyGUI.fetch_lines _ _ lines1 _) as [t1 [|]].
    + rewrite IH. by destruct (NtfyGUI.fetch_lines _ _ lines1 _) as [t1 [|]].
Qed.

Lemma fetch_subscriptions_app
    (requests1 requests2 : list (SubscriptionPanel.sub * NtfyGUI.response)) total :
  NtfyGUI.fetch_subscriptions json_loads (requests1 ++ requests2) total
  = match NtfyGUI.fetch_subscriptions json_loads requests1 total with
    | (trace1, inr total1) =>
        (trace1 ++ (NtfyGUI.fetch_subscriptions json_loads requests2 total1).1,
         (NtfyGUI.fetch_subscriptions json_loads requests2 total1).2)
    | r => r
    end.
Proof.
  revert total. induction requests1 as [|[s [lines|]] requests1 IH]; intros total;
    simpl.
  - by destruct (NtfyGUI.fetch_subscriptions json_loads requests2 total).
  - destruct (NtfyGUI.fetch_lines _ _ _ _) as [t1 [e|total1]]; [done|].
    rewrite IH.
    destruct (NtfyGUI.fetch_subscriptions _ requests1 _) as [t2 [e|total2]];
      [done|]. simpl. by rewrite <- app_assoc.
  - rewrite IH.
    by destruct (NtfyGUI.fetch_subscriptions _ requests1 _) as [t2 [e|total2]].
Qed.

Lemma step_keeps_running subscription p o :
  p ≠ NtfyGUI.Exited → quiet o → NtfyGUI.auto_reconnect o = true →
  (NtfyGUI.step json_loads reconnect_delay subscription p o).1 ≠ NtfyGUI.Exited.
Proof.
  intros Hp Hq Ha. destruct p as [n|n|n raised|n k|]; simpl; try done.
  - by rewrite Hq.
  - by destruct (NtfyGUI.listen_subscription_messages _ _ _).
  - rewrite Hq, Ha. simpl. unfold NtfyGUI.enter_backoff. by case reconnect_delay.
  - rewrite Hq. simpl. by destruct k as [|[|k]].
Qed.

Lemma step_attempts subscription p o n n' :
  attempts_of p = Some n →
  attempts_of (NtfyGUI.step json_loads reconnect_delay subscription p o).1 = Some n' →
  n' = match p with NtfyGUI.Ended _ _ => S n | _ => n end.
Proof.
  destruct p as [k|k|k raised|k r|]; simpl; intros [= <-]; try done.
  - destruct (NtfyGUI.stop_listening o); simpl; congruence.
  - destruct (NtfyGUI.listen_subscription_messages _ _ _). simpl. congruence.
  - destruct (NtfyGUI.stop_listening o); [done|].
    destruct (NtfyGUI.auto_reconnect o); [|done]. simpl.
    unfold NtfyGUI.enter_backoff. case reconnect_delay; simpl; congruence.
  - destruct (NtfyGUI.stop_listening o); [done|]. simpl.
    destruct r as [|[|r]]; simpl; congruence.
Qed.

End WorkersMore2.

(** X12.  Every message a worker hands over carries the server of the
    subscription it was read for, whatever the record itself says under
    [server]: for the stream worker that is its subscription, for the
    history fetch one of the subscriptions asked for. *)
Theorem messages_carry_the_subscription_server :
  (∀ json_loads reconnect_delay subscription p os m live,
     NtfyGUI.CallAfter (NtfyGUI.AddMessageAndNotify m live)
       ∈ (NtfyGUI.run json_loads reconnect_delay subscription p os).2 →
     NtfyMessage.server m = SubscriptionPanel.server subscription)
  ∧ (∀ json_loads (requests : list (SubscriptionPanel.sub * NtfyGUI.response))
       since m live,
       NtfyGUI.CallAfter (NtfyGUI.AddMessageAndNotify m live)
         ∈ (NtfyGUI.fetch_thread json_loads requests since).1 →
       ∃ s, s ∈ requests.*1 ∧ NtfyMessage.server m = SubscriptionPanel.server s).
Proof.
  split.
  - intros json_loads delay subscription p os m live Hin.
    pose proof (proj1 (Forall_forall _ _)
                  (run_stamped json_loads delay subscription p os) _ Hin) as H.
    simpl in H. by apply list_elem_of_singleton in H.
  - intros json_loads requests since m live Hin.
    unfold NtfyGUI.fetch_thread in Hin.
    pose proof (fetch_subscriptions_stamped json_loads requests 0) as H.
    destruct (NtfyGUI.fetch_subscriptions _ _ _) as [trace [e|total]];
      simpl in *.
    + pose proof (proj1 (Forall_forall _ _) H _ Hin) as Hs. simpl in Hs.
      apply list_elem_of_fmap in Hs as (s & -> & Hs). by exists s.
    + apply elem_of_app in Hin as [Hin|Hin].
      * pose proof (proj1 (Forall_forall _ _) H _ Hin) as Hs. simpl in Hs.
        apply list_elem_of_fmap in Hs as (s & -> & Hs). by exists s.
      * by apply list_elem_of_singleton in Hin.
Qed.

Lemma messages_carry_the_subscription_server_witness :
  NtfyMessage.server
    (NtfyMessage.init
       (NtfyMessage.set_server "https://ntfy.sh" (message_record "a1" 1000)))
  = SubscriptionPanel.server alerts.
Proof.
  apply (proj1 messages_carry_the_subscription_server sample_loads
           NtfyGUI.default_reconnect_delay alerts (NtfyGUI.Listening 0)
           [ {| NtfyGUI.stop_listening := false; NtfyGUI.auto_reconnect := true;
                NtfyGUI.next_session :=
                  {| NtfyGUI.connected := true;
                     NtfyGUI.received := [(false, "line a1")];
                     NtfyGUI.broken := false |} |} ]
           _ true).
  vm_compute. do 2 apply list_elem_of_further. apply list_elem_of_here.
Defined.

(** X13.  A stop request seen when a line arrives ends the reading: that
    line and the lines behind it are not decoded, nothing of them is handed
    over, and [listen_subscription_messages] returns without an exception,
    also when the connection breaks afterwards. *)
Theorem stop_request_ends_the_stream
    (json_loads : string → NtfyGUI.parsed) (subscription : SubscriptionPanel.sub)
    (lines1 : list (bool * string)) (line : string) (rest : list (bool * string))
    (b : bool) :
  (NtfyGUI.stream_loop json_loads (SubscriptionPanel.server subscription) lines1).2
  = NtfyGUI.Exhausted →
  NtfyGUI.listen_subscription_messages json_loads subscription
    {| NtfyGUI.connected := true;
       NtfyGUI.received := lines1 ++ (true, line) :: rest;
       NtfyGUI.broken := b |}
  = (NtfyGUI.Log NtfyGUI.Info NtfyGUI.LogConnect
     :: NtfyGUI.CallAfter
          (NtfyGUI.UpdateSubscriptionStatus (SubscriptionPanel.server subscription)
             (SubscriptionPanel.topic subscription) "已连接")
     :: (NtfyGUI.stream_loop json_loads (SubscriptionPanel.server subscription)
           lines1).1,
     None).
Proof.
  intros Hex. unfold NtfyGUI.listen_subscription_messages.
  cbn [NtfyGUI.connected NtfyGUI.received NtfyGUI.broken].
  rewrite stream_loop_app.
  destruct (NtfyGUI.stream_loop json_loads _ lines1) as [t1 ex1].
  simpl in Hex. subst ex1. simpl. by rewrite app_nil_r.
Qed.

Lemma stop_request_ends_the_stream_witness :
  NtfyGUI.queued
    (NtfyGUI.listen_subscription_messages sample_loads alerts
       {| NtfyGUI.connected := true;
          NtfyGUI.received :=
            [(false, "line a1")] ++ (true, "line a2") :: [(false, "line a3")];
          NtfyGUI.broken := true |}).1
  = [ NtfyGUI.UpdateSubscriptionStatus "https://ntfy.sh" "alerts" "已连接";
      NtfyGUI.AddMessageAndNotify
        (NtfyMessage.init
           (NtfyMessage.set_server "https://ntfy.sh" (message_record "a1" 1000)))
        true ].
Proof.
  rewrite (stop_request_ends_the_stream sample_loads alerts [(false, "line a1")]
             "line a2" [(false, "line a3")] true); reflexivity.
Defined.

(** X14.  Empty lines are skipped without a trace: leaving out the empty
    lines that arrive while no stop is requested changes nothing in what the
    stream loop does, and leaving out the empty lines of a response changes
    nothing in what the history fetch does and counts. *)
Theorem empty_lines_are_ignored (json_loads : string → NtfyGUI.parsed)
    (server_url : string) :
  (∀ lines,
     NtfyGUI.stream_loop json_loads server_url lines
     = NtfyGUI.stream_loop json_loads server_url
         (List.filter (λ l, negb (is_idle_line l)) lines))
  ∧ (∀ lines total,
       NtfyGUI.fetch_lines json_loads server_url lines total
       = NtfyGUI.fetch_lines json_loads server_url
           (List.filter (λ l, negb (bool_decide (l = ""))) lines) total).
Proof. split; [apply stream_loop_idle|apply fetch_lines_idle]. Qed.

(** X15.  With auto-reconnect on and no stop request seen, the worker never
    leaves its loop, whatever happens to its connections: refused,
    broken, or ended by an exception of the line loop. *)
Theorem worker_keeps_running
    (json_loads : string → NtfyGUI.parsed) (reconnect_delay : nat)
    (subscription : SubscriptionPanel.sub) (p : NtfyGUI.pc)
    (os : list NtfyGUI.observation) :
  p ≠ NtfyGUI.Exited →
  Forall (λ o, quiet o ∧ NtfyGUI.auto_reconnect o = true) os →
  (NtfyGUI.run json_loads reconnect_delay subscription p os).1 ≠ NtfyGUI.Exited.
Proof.
  intros Hp Hos. revert p Hp. induction Hos as [|o os [Hq Ha] _ IH]; intros p Hp;
    simpl; [done|].
  pose proof (step_keeps_running json_loads reconnect_delay subscription p o Hp Hq Ha)
    as Hs.
  destruct (NtfyGUI.step _ _ _ _ _) as [p1 t1]. specialize (IH p1 Hs).
  by destruct (NtfyGUI.run _ _ _ _ _).
Qed.

Lemma worker_keeps_running_witness :
  (NtfyGUI.run sample_loads NtfyGUI.default_reconnect_delay alerts
     (NtfyGUI.LoopHead 0) (repeat (observe false true) 20)).1 ≠ NtfyGUI.Exited.
Proof.
  apply worker_keeps_running; [discriminate|].
  repeat constructor.
Defined.

(** X16.  The reconnect counter goes up by one each time the worker decides
    to reconnect and is never set back, not even by a connection that
    succeeds: along any run it only grows. *)
Theorem reconnect_counter_never_goes_back
    (json_loads : string → NtfyGUI.parsed) (reconnect_delay : nat)
    (subscription : SubscriptionPanel.sub) :
  (∀ p o n n',
     attempts_of p = Some n →
     attempts_of (NtfyGUI.step json_loads reconnect_delay subscription p o).1
     = Some n' →
     n' = match p with NtfyGUI.Ended _ _ => S n | _ => n end)
  ∧ (∀ os p n n',
       attempts_of p = Some n →
       attempts_of (NtfyGUI.run json_loads reconnect_delay subscription p os).1
       = Some n' →
       (n ≤ n')%nat).
Proof.
  split; [intros p o n n'; apply step_attempts|].
  induction os as [|o os IH]; intros p n n' Hn Hn'; simpl in Hn'.
  - rewrite Hn in Hn'. injection Hn' as ->. lia.
  - pose proof (step_attempts json_loads reconnect_delay subscription p o n) as Hs.
    destruct (NtfyGUI.step _ _ _ _ _) as [p1 t1]. simpl in Hs.
    specialize (IH p1).
    destruct (NtfyGUI.run _ _ _ p1 os) as [p2 t2] eqn:E. simpl in *.
    destruct (attempts_of p1) as [n1|] eqn:E1.
    + specialize (Hs n1 Hn eq_refl). specialize (IH n1 n' eq_refl Hn').
      destruct p; lia.
    + destruct p1; try discriminate E1.
      rewrite run_exited in E. injection E as <- <-. discriminate Hn'.
Qed.

Lemma reconnect_counter_never_goes_back_witness :
  attempts_of
    (NtfyGUI.run sample_loads NtfyGUI.default_reconnect_delay alerts
       (NtfyGUI.Listening 3)
       [ {| NtfyGUI.stop_listening := false; NtfyGUI.auto_reconnect := true;
            NtfyGUI.next_session :=
              {| NtfyGUI.connected := true;
                 NtfyGUI.received := [(false, "line a1")];
                 NtfyGUI.broken := false |} |};
         observe false true ]).1 = Some 4%nat
  ∧ (3 ≤ 4)%nat.
Proof.
  split; [reflexivity|].
  apply (proj2 (reconnect_counter_never_goes_back sample_loads
                  NtfyGUI.default_reconnect_delay alerts)
           [ {| NtfyGUI.stop_listening := false; NtfyGUI.auto_reconnect := true;
                NtfyGUI.next_session :=
                  {| NtfyGUI.connected := true;
                     NtfyGUI.received := [(false, "line a1")];
                     NtfyGUI.broken := false |} |};
             observe false true ]
           (NtfyGUI.Listening 3)); reflexivity.
Defined.



(** X18.  A subscription whose history request fails is passed over: the
    fetch hands over, counts and finishes exactly as it would without that
    subscription in the list. *)
Theorem failed_request_is_passed_over
    (json_loads : string → NtfyGUI.parsed)
    (requests1 requests2 : list (SubscriptionPanel.sub * NtfyGUI.response))
    (s : SubscriptionPanel.sub) (since : string) :
  let with_failure :=
    NtfyGUI.fetch_thread json_loads (requests1 ++ (s, None) :: requests2) since in
  let without :=
    NtfyGUI.fetch_thread json_loads (requests1 ++ requests2) since in
  NtfyGUI.queued with_failure.1 = NtfyGUI.queued without.1
  ∧ with_failure.2 = without.2.
Proof.
  cbv zeta. unfold NtfyGUI.fetch_thread.
  rewrite !fetch_subscriptions_app.
  destruct (NtfyGUI.fetch_subscriptions json_loads requests1 0)
    as [t1 [e|total1]]; [done|].
  cbn [NtfyGUI.fetch_subscriptions].
  destruct (NtfyGUI.fetch_subscriptions json_loads requests2 total1)
    as [t2 [e|total2]]; cbn [fst snd]; rewrite !queued_app; done.
Qed.

(** X19.  A line of a response that is not valid UTF-8, or that decodes to
    something other than a JSON object, ends the whole history fetch with
    the exception: what was handed over before that line stays queued, the
    rest of the response and the remaining subscriptions are not read, and
    no completion report is queued. *)
Theorem undecodable_line_ends_the_fetch
    (json_loads : string → NtfyGUI.parsed)
    (requests1 requests2 : list (SubscriptionPanel.sub * NtfyGUI.response))
    (s : SubscriptionPanel.sub) (lines1 lines2 : list string) (line since : string)
    (trace1 trace2 : list NtfyGUI.effect) (total1 total2 : nat) :
  NtfyGUI.fetch_subscriptions json_loads requests1 0 = (trace1, inr total1) →
  NtfyGUI.fetch_lines json_loads (SubscriptionPanel.server s) lines1 total1
  = (trace2, inr total2) →
  line ≠ "" →
  json_loads line = NtfyGUI.BadUnicode ∨ json_loads line = NtfyGUI.NonObject →
  ∃ e,
    NtfyGUI.fetch_thread json_loads
      (requests1 ++ (s, Some (lines1 ++ line :: lines2)) :: requests2) since
    = (trace1 ++ NtfyGUI.Log NtfyGUI.Info NtfyGUI.LogFetch :: trace2, Some e)
    ∧ List.filter is_fetch_report
        (trace1 ++ NtfyGUI.Log NtfyGUI.Info NtfyGUI.LogFetch :: trace2) = [].
Proof.
  intros H1 H2 Hne Hl.
  assert (∀ total t r,
            NtfyGUI.fetch_lines json_loads (SubscriptionPanel.server s)
              (line :: lines2) total = (t, r) →
            t = [] ∧ ∃ e, r = inl e) as Hbad.
  { intros total t r. cbn [NtfyGUI.fetch_lines].
    rewrite (bool_decide_eq_false_2 _ Hne).
    destruct Hl as [Hl|Hl]; rewrite Hl; intros [= <- <-]; eauto. }
  assert (∀ url lines total t total',
            NtfyGUI.fetch_lines json_loads url lines total = (t, inr total') →
            List.filter is_fetch_report t = []) as Hnl.
  { intros url lines. induction lines as [|l lines IH]; intros total t total';
      simpl.
    - by intros [= <- _].
    - case_bool_decide; [apply IH|].
      destruct (json_loads l); try done.
      + destruct (NtfyGUI.fetch_lines json_loads url lines _) as [t' r] eqn:E.
        intros [= <- ->]. simpl. by eapply IH.
      + destruct (NtfyGUI.fetch_lines json_loads url lines _) as [t' r] eqn:E.
        intros [= <- ->]. simpl. by eapply IH. }
  assert (∀ requests total t total',
            NtfyGUI.fetch_subscriptions json_loads requests total = (t, inr total') →
            List.filter is_fetch_report t = []) as Hns.
  { induction requests as [|[s' [lines|]] requests IH]; intros total t total';
      simpl.
    - by intros [= <- _].
    - destruct (NtfyGUI.fetch_lines json_loads _ lines total) as [t1 [e|tot1]] eqn:E1;
        [done|].
      destruct (NtfyGUI.fetch_subscriptions json_loads requests tot1) as [t2 r] eqn:E2.
      intros [= <- ->]. simpl. rewrite List.filter_app.
      by rewrite (Hnl _ _ _ _ _ E1), (IH _ _ _ E2).
    - destruct (NtfyGUI.fetch_subscriptions json_loads requests total) as [t2 r] eqn:E2.
      intros [= <- ->]. simpl. by eapply IH. }
  destruct (NtfyGUI.fetch_lines json_loads (SubscriptionPanel.server s)
              (line :: lines2) total2) as [t3 r3] eqn:E3.
  destruct (Hbad _ _ _ E3) as [-> [e ->]].
  exists e. split.
  - unfold NtfyGUI.fetch_thread.
    rewrite fetch_subscriptions_app, H1. cbn [NtfyGUI.fetch_subscriptions].
    rewrite fetch_lines_app, H2, E3. cbn [fst snd]. by rewrite app_nil_r.
  - rewrite List.filter_app. simpl.
    by rewrite (Hns _ _ _ _ H1), (Hnl _ _ _ _ _ H2).
Qed.

Lemma undecodable_line_ends_the_fetch_witness :
  ∃ e,
    NtfyGUI.fetch_thread
      (λ line, if bool_decide (line = "[]") then NtfyGUI.NonObject
               else sample_loads line)
      ([] ++ (alerts, Some (["line a1"] ++ "[]" :: ["line a2"])) :: []) "10m"
    = ([] ++ NtfyGUI.Log NtfyGUI.Info NtfyGUI.LogFetch
          :: [NtfyGUI.CallAfter
                (NtfyGUI.AddMessageAndNotify
                   (NtfyMessage.init
                      (NtfyMessage.set_server "https://ntfy.sh"
                         (message_record "a1" 1000))) false)],
       Some e)
    ∧ List.filter is_fetch_report
        ([] ++ NtfyGUI.Log NtfyGUI.Info NtfyGUI.LogFetch
            :: [NtfyGUI.CallAfter
                  (NtfyGUI.AddMessageAndNotify
                     (NtfyMessage.init
                        (NtfyMessage.set_server "https://ntfy.sh"
                           (message_record "a1" 1000))) false)]) = [].
Proof.
  apply (undecodable_line_ends_the_fetch
           (λ line, if bool_decide (line = "[]") then NtfyGUI.NonObject
                    else sample_loads line)
           [] [] alerts ["line a1"] ["line a2"] "[]" "10m" [] _ 0 1).
  - reflexivity.
  - reflexivity.
  - discriminate.
  - right. reflexivity.
Defined.

(** * The list control: calls that raise *)

Section ListCtrlFacts.

Variable formats : Z → bool.

Implicit Types (m : NtfyMessage.t) (g : NtfyGUI.t) (st : MessagePanel.t)
  (msgs : list NtfyMessage.t) (key : string * string).

(** [add_message] with the list control: the panel is the one of
    [MessagePanel.add_message]; the call raises exactly when the message
    has been stored and its time stamp cannot be formatted. *)
Lemma add_message_outcome m st :
  WithListCtrl.add_message formats m st
  = (if (MessagePanel.add_message m st).1
     then if formats (NtfyMessage.time m)
          then WithListCtrl.Returned true else WithListCtrl.Raised
     else WithListCtrl.Returned false,
     (MessagePanel.add_message m st).2).
Proof.
  unfold WithListCtrl.add_message, MessagePanel.add_message,
    WithListCtrl._insert_message_into_listctrl.
  destruct (bool_decide (NtfyMessage.event m = "message")
            && negb (bool_decide (NtfyMessage.id m = ""))); [|done].
  destruct (bool_decide (NtfyMessage.id m ∈ MessagePanel.message_ids st)); [done|].
  cbn [fst snd]. by destruct (formats (NtfyMessage.time m)).
Qed.

Lemma insert_all_outcome msgs :
  WithListCtrl.insert_all formats msgs
  = if forallb (formattable formats) msgs
    then WithListCtrl.Returned tt else WithListCtrl.Raised.
Proof.
  induction msgs as [|m msgs IH]; [done|].
  cbn [WithListCtrl.insert_all forallb].
  unfold WithListCtrl._insert_message_into_listctrl, formattable at 1.
  by destruct (formats (NtfyMessage.time m)).
Qed.

Lemma forallb_formattable msgs :
  forallb (formattable formats) msgs = true
  ↔ Forall (λ m, formattable formats m = true) msgs.
Proof.
  rewrite forallb_forall, Forall_forall.
  split; intros H m Hm; apply H; by apply list_elem_of_In.
Qed.

(** [load_messages] with the list control: the panel is the one of
    [MessagePanel.load_messages]. *)
Lemma load_messages_outcome (data : list NtfyMessage.dict) st :
  WithListCtrl.load_messages formats data st
  = (WithListCtrl.insert_all formats
       (MessagePanel.messages (MessagePanel.load_messages data st)),
     MessagePanel.load_messages data st).
Proof.
  unfold WithListCtrl.load_messages, MessagePanel.load_messages.
  by destruct (MessagePanel.load_loop _ _ _) as [ids loaded].
Qed.

(** [add_message_and_notify] as a case distinction: not admitted; stored
    and raised; stored, counted and shown. *)
Lemma add_message_and_notify_cases m (live : bool) g :
  let panel := NtfyGUI.message_panel g in
  let key := (NtfyMessage.server m, NtfyMessage.topic m) in
  let count := S (default 0%nat (NtfyGUI.sub_message_counts g !! key)) in
  (MessagePanel.add_message m panel = (false, panel)
   ∧ WithListCtrl.add_message_and_notify formats m live g
     = (WithListCtrl.Returned tt,
        {| NtfyGUI.message_panel := panel;
           NtfyGUI.sub_panel := NtfyGUI.sub_panel g;
           NtfyGUI.sub_message_counts := NtfyGUI.sub_message_counts g |}, []))
  ∨ ((MessagePanel.add_message m panel).1 = true
     ∧ formats (NtfyMessage.time m) = false
     ∧ WithListCtrl.add_message_and_notify formats m live g
       = (WithListCtrl.Raised,
          {| NtfyGUI.message_panel := after_admission panel m;
             NtfyGUI.sub_panel := NtfyGUI.sub_panel g;
             NtfyGUI.sub_message_counts := NtfyGUI.sub_message_counts g |}, []))
  ∨ ((MessagePanel.add_message m panel).1 = true
     ∧ formats (NtfyMessage.time m) = true
     ∧ WithListCtrl.add_message_and_notify formats m live g
       = (WithListCtrl.Returned tt,
          {| NtfyGUI.message_panel := after_admission panel m;
             NtfyGUI.sub_panel :=
               SubscriptionPanel.update_subscription_message_count
                 (NtfyMessage.server m) (NtfyMessage.topic m) count
                 (NtfyGUI.sub_panel g);
             NtfyGUI.sub_message_counts :=
               <[key := count]> (NtfyGUI.sub_message_counts g) |},
          if live then live_notification m else [])).
Proof.
  cbv zeta. unfold WithListCtrl.add_message_and_notify, after_admission.
  rewrite add_message_outcome.
  destruct (add_message_cases m (NtfyGUI.message_panel g))
    as [(_ & _ & _ & Heq)|[_ Heq]]; rewrite Heq; cbn [fst snd].
  - right. destruct (formats (NtfyMessage.time m)); [right|left]; done.
  - by left.
Qed.

(** With a time stamp that can be formatted, the call does what
    [NtfyGUI.add_message_and_notify] says. *)
Lemma add_message_and_notify_formattable m (live : bool) g :
  formats (NtfyMessage.time m) = true →
  WithListCtrl.add_message_and_notify formats m live g
  = (WithListCtrl.Returned tt,
     (NtfyGUI.add_message_and_notify m live g).1,
     (NtfyGUI.add_message_and_notify m live g).2).
Proof.
  intros Hf. unfold WithListCtrl.add_message_and_notify,
    NtfyGUI.add_message_and_notify.
  rewrite add_message_outcome, Hf.
  by destruct (MessagePanel.add_message m (NtfyGUI.message_panel g)) as [[] panel].
Qed.

(** The history and the dedup index do not depend on the list control. *)
Lemma run_call_panel (c : NtfyGUI.call) g g' :
  NtfyGUI.message_panel g = NtfyGUI.message_panel g' →
  NtfyGUI.message_panel (WithListCtrl.run_call formats c g).1.1
  = NtfyGUI.message_panel (NtfyGUI.run_call c g').1.1.
Proof.
  intros Hp. destruct c as [u t st'|u t st'|m live|text]; cbn; try done.
  unfold WithListCtrl.add_message_and_notify, NtfyGUI.add_message_and_notify.
  rewrite add_message_outcome, Hp.
  destruct (MessagePanel.add_message m (NtfyGUI.message_panel g')) as [[] panel];
    cbn; [|done].
  by destruct (formats (NtfyMessage.time m)).
Qed.

Lemma run_calls_panel (queue : list NtfyGUI.call) g g' :
  NtfyGUI.message_panel g = NtfyGUI.message_panel g' →
  NtfyGUI.message_panel (WithListCtrl.run_calls formats queue g).1.1
  = NtfyGUI.message_panel (NtfyGUI.run_calls queue g').1.1.
Proof.
  revert g g'. induction queue as [|c queue IH]; intros g g' Hp; [done|].
  cbn [WithListCtrl.run_calls NtfyGUI.run_calls].
  pose proof (run_call_panel c g g' Hp) as H1.
  destruct (WithListCtrl.run_call formats c g) as [[g1 out1] q1].
  destruct (NtfyGUI.run_call c g') as [[g1' out1'] q1'].
  cbn [fst snd] in H1. specialize (IH g1 g1' H1).
  destruct (WithListCtrl.run_calls formats queue g1) as [[g2 out2] q2].
  by destruct (NtfyGUI.run_calls queue g1') as [[g2' out2'] q2'].
Qed.

(** Calls handed over as historical raise no balloon. *)
Lemma run_calls_no_balloon (queue : list NtfyGUI.call) g :
  Forall (call_flag_is false) queue →
  Forall (λ o, is_balloon o = false) (WithListCtrl.run_calls formats queue g).1.2.
Proof.
  revert g. induction queue as [|c queue IH]; intros g Hq; [constructor|].
  apply Forall_cons in Hq as [Hc Hq].
  cbn [WithListCtrl.run_calls].
  assert (Forall (λ o, is_balloon o = false) (WithListCtrl.run_call formats c g).1.2)
    as H1.
  { destruct c as [u t st'|u t st'|m live|text]; cbn; try by repeat constructor.
    cbn in Hc. subst live.
    destruct (add_message_and_notify_cases m false g)
      as [[_ ->]|[(_ & _ & ->)|(_ & _ & ->)]]; constructor. }
  destruct (WithListCtrl.run_call formats c g) as [[g1 out1] q1].
  specialize (IH g1 Hq).
  destruct (WithListCtrl.run_calls formats queue g1) as [[g2 out2] q2].
  cbn [fst snd] in *. by apply Forall_app.
Qed.

Lemma filter_formattable msgs :
  Forall (λ m, formattable formats m = true) msgs →
  List.filter (formattable formats) msgs = msgs.
Proof.
  induction 1 as [|m msgs Hm _ IH]; [done|].
  cbn [List.filter]. by rewrite Hm, IH.
Qed.

End ListCtrlFacts.

(** ** Notifications and the list control *)

(** The text of a notification is cut by characters, not by bytes. *)
Example take_chars_counts_characters :
  NtfyMessage.take_chars 2 "新消息" = "新消"
  ∧ NtfyMessage.take_chars 2 "hi there" = "hi"
  ∧ String.length (NtfyMessage.take_chars 2 "新消息") = 6%nat.
Proof. vm_compute. done. Qed.

(** C3, the code at the failing input.  A live message of kind [message]
    with a fresh, non-empty id whose time stamp cannot be formatted is
    stored in the history and in the dedup index, and then
    [add_message] raises from [_insert_message_into_listctrl]:
    [add_message_and_notify] is left at its first statement, so nothing is
    shown and nothing is counted.  The id is now in the dedup index, so the
    message is refused as a duplicate when it is delivered again: it is in
    the history and is never notified. *)
Theorem stored_live_message_is_not_notified (formats : Z → bool)
    (m : NtfyMessage.t) (g : NtfyGUI.t) :
  NtfyMessage.event m = "message" →
  NtfyMessage.id m ≠ "" →
  NtfyMessage.id m ∉ MessagePanel.message_ids (NtfyGUI.message_panel g) →
  formats (NtfyMessage.time m) = false →
  let r := WithListCtrl.add_message_and_notify formats m true g in
  r.1.1 = WithListCtrl.Raised
  ∧ m ∈ MessagePanel.messages (NtfyGUI.message_panel r.1.2)
  ∧ NtfyMessage.id m ∈ MessagePanel.message_ids (NtfyGUI.message_panel r.1.2)
  ∧ r.2 = []
  ∧ NtfyGUI.sub_message_counts r.1.2 = NtfyGUI.sub_message_counts g
  ∧ NtfyGUI.sub_panel r.1.2 = NtfyGUI.sub_panel g
  ∧ WithListCtrl.add_message_and_notify formats m true r.1.2
    = (WithListCtrl.Returned tt, r.1.2, []).
Proof.
  intros He Hi Hfresh Hf r. subst r.
  destruct (add_message_cases m (NtfyGUI.message_panel g))
    as [(_ & _ & _ & Heq)|[[?|[?|?]] _]]; try done.
  destruct (add_message_and_notify_cases formats m true g)
    as [[Hno _]|[(_ & _ & ->)|(_ & Hyes & _)]]; [congruence| |congruence].
  cbn [fst snd NtfyGUI.message_panel NtfyGUI.sub_panel NtfyGUI.sub_message_counts].
  unfold after_admission. rewrite Heq.
  cbn [snd MessagePanel.messages MessagePanel.message_ids].
  split; [done|]. split.
  { destruct (place_split m (MessagePanel.messages (NtfyGUI.message_panel g)))
      as (l1 & l2 & _ & -> & _). set_solver. }
  split; [set_solver|]. do 3 (split; [done|]).
  match goal with |- WithListCtrl.add_message_and_notify _ _ _ ?g1 = _ =>
    destruct (add_message_and_notify_cases formats m true g1)
      as [[_ ->]|[(Ha & _)|(Ha & _)]]; [done| |] end.
  all: cbn [NtfyGUI.message_panel] in Ha;
    match type of Ha with (MessagePanel.add_message _ ?st).1 = _ =>
      destruct (add_message_cases m st) as [(_ & _ & Hn & _)|[_ Hst]];
      [exfalso; apply Hn; cbn; set_solver|by rewrite Hst in Ha] end.
Qed.

Lemma stored_live_message_is_not_notified_witness :
  let r := WithListCtrl.add_message_and_notify sample_formats late_a9 true NtfyGUI.new in
  r.1.1 = WithListCtrl.Raised
  ∧ late_a9 ∈ MessagePanel.messages (NtfyGUI.message_panel r.1.2)
  ∧ r.2 = [].
Proof.
  destruct (stored_live_message_is_not_notified sample_formats late_a9 NtfyGUI.new)
    as (H1 & H2 & _ & H4 & _).
  - reflexivity.
  - discriminate.
  - cbn. set_solver.
  - reflexivity.
  - by repeat split.
Defined.

(** X27.  [add_message_and_notify] raises the balloon exactly when
    [add_message] has answered "newly added" and the message was handed
    over as live; then it shows the status text and the balloon, and for a
    message handed over as historical it shows nothing.  A worker on the
    live stream hands every message over as live, the history fetch hands
    every message over as historical, and the calls queued by a history
    fetch raise no balloon, whatever the state of the frame and whatever
    time stamps can be formatted. *)
Theorem balloon_follows_the_answer_and_the_flag :
  (∀ formats m live g,
     existsb is_balloon (WithListCtrl.add_message_and_notify formats m live g).2
     = newly_added (WithListCtrl.add_message formats m (NtfyGUI.message_panel g)).1
       && live)
  ∧ (∀ formats m g,
       (WithListCtrl.add_message formats m (NtfyGUI.message_panel g)).1
       = WithListCtrl.Returned true →
       (WithListCtrl.add_message_and_notify formats m true g).2 = live_notification m
       ∧ (WithListCtrl.add_message_and_notify formats m false g).2 = [])
  ∧ (∀ json_loads reconnect_delay subscription p os m live,
       NtfyGUI.CallAfter (NtfyGUI.AddMessageAndNotify m live)
         ∈ (NtfyGUI.run json_loads reconnect_delay subscription p os).2 →
       live = true)
  ∧ (∀ json_loads subscription s m live,
       NtfyGUI.CallAfter (NtfyGUI.AddMessageAndNotify m live)
         ∈ (NtfyGUI.listen_subscription_messages json_loads subscription s).1 →
       live = true)
  ∧ (∀ json_loads requests since m live,
       NtfyGUI.CallAfter (NtfyGUI.AddMessageAndNotify m live)
         ∈ (NtfyGUI.fetch_thread json_loads requests since).1 →
       live = false)
  ∧ (∀ formats json_loads requests since g,
       Forall (λ o, is_balloon o = false)
         (WithListCtrl.run_calls formats
            (NtfyGUI.queued (NtfyGUI.fetch_thread json_loads requests since).1)
            g).1.2).
Proof.
  assert (∀ formats m live g,
            (WithListCtrl.add_message_and_notify formats m live g).2
            = if newly_added
                   (WithListCtrl.add_message formats m (NtfyGUI.message_panel g)).1
                 && live
              then live_notification m else []) as Hshown.
  { intros formats m live g. rewrite add_message_outcome. cbn [fst].
    destruct (add_message_and_notify_cases formats m live g)
      as [[Ha ->]|[(Ha & Hf & ->)|(Ha & Hf & ->)]]; rewrite ?Ha, ?Hf; cbn;
      [done|done|by destruct live]. }
  split; [|split; [|split; [|split; [|split]]]].
  - intros formats m live g. rewrite Hshown.
    by destruct (newly_added _), live.
  - intros formats m g H. rewrite !Hshown, H. done.
  - intros json_loads delay subscription p os m live Hin.
    exact (proj1 (Forall_forall _ _) (run_live json_loads delay subscription p os)
             _ Hin).
  - intros json_loads subscription s m live Hin.
    exact (proj1 (Forall_forall _ _) (listen_live json_loads subscription s) _ Hin).
  - intros json_loads requests since m live Hin.
    exact (proj1 (Forall_forall _ _)
             (fetch_thread_historical json_loads requests since) _ Hin).
  - intros formats json_loads requests since g.
    apply run_calls_no_balloon, queued_flag, fetch_thread_historical.
Qed.

Lemma balloon_follows_the_answer_and_the_flag_witness :
  (WithListCtrl.add_message_and_notify sample_formats first_a1 true NtfyGUI.new).2
  = live_notification first_a1
  ∧ (WithListCtrl.add_message_and_notify sample_formats first_a1 false NtfyGUI.new).2
    = [].
Proof.
  apply (proj1 (proj2 balloon_follows_the_answer_and_the_flag)).
  vm_compute. reflexivity.
Defined.

(** ** Lines that cannot be decoded *)

(** C5, the code at the failing input.  The first line of the stream is the
    single byte 255, which is not valid UTF-8; the lines of the messages
    [a1] and [a2] follow.  [line.decode('utf-8')] raises
    [UnicodeDecodeError], which [except json.JSONDecodeError] does not
    catch: the exception leaves the loop over the lines and the function,
    no decode error is logged, and neither message is handed over, so the
    history stays empty. *)
Theorem invalid_utf8_line_ends_the_stream :
  let s := {| NtfyGUI.connected := true;
              NtfyGUI.received :=
                [(false, invalid_utf8); (false, "line a1"); (false, "line a2")];
              NtfyGUI.broken := false |} in
  let r := NtfyGUI.listen_subscription_messages sample_loads_bytes alerts s in
  (NtfyGUI.stream_loop sample_loads_bytes "https://ntfy.sh" (NtfyGUI.received s)).2
  = NtfyGUI.Raise NtfyGUI.UnicodeDecodeError
  ∧ r.2 = Some NtfyGUI.UnicodeDecodeError
  ∧ decode_errors r.1 = 0%nat
  ∧ NtfyGUI.queued r.1
    = [NtfyGUI.UpdateSubscriptionStatus "https://ntfy.sh" "alerts" "已连接"]
  ∧ ∀ formats,
      MessagePanel.messages
        (NtfyGUI.message_panel
           (WithListCtrl.run_calls formats (NtfyGUI.queued r.1) NtfyGUI.new).1.1)
      = [].
Proof. vm_compute. done. Qed.

(** X28.  One non-empty line on which [json.loads] raises
    [JSONDecodeError], followed by [N] lines that decode to events of kind
    [message] with non-empty ids, pairwise different and not in the dedup
    index, and no stop request while they are read: the loop over the lines
    runs to the end of the stream, the function returns without an
    exception, one decode error is logged, and when the GUI thread has run
    the queued calls the history is [N] entries longer, whatever time
    stamps can be formatted. *)
Theorem malformed_line_is_skipped
    (json_loads : string → NtfyGUI.parsed) (subscription : SubscriptionPanel.sub)
    (bad : string) (valid : list (string * NtfyMessage.dict)) (g : NtfyGUI.t) :
  bad ≠ "" →
  json_loads bad = NtfyGUI.JSONDecodeError →
  Forall (λ ld, ld.1 ≠ "" ∧ json_loads ld.1 = NtfyGUI.Object ld.2
                ∧ NtfyMessage.event (NtfyMessage.init ld.2) = "message"
                ∧ id_of ld.2 ≠ "") valid →
  NoDup ((λ ld, id_of ld.2) <$> valid) →
  (∀ ld, ld ∈ valid →
         id_of ld.2 ∉ MessagePanel.message_ids (NtfyGUI.message_panel g)) →
  let s := {| NtfyGUI.connected := true;
              NtfyGUI.received := (false, bad) :: ((λ ld, (false, ld.1)) <$> valid);
              NtfyGUI.broken := false |} in
  let r := NtfyGUI.listen_subscription_messages json_loads subscription s in
  (NtfyGUI.stream_loop json_loads (SubscriptionPanel.server subscription)
     (NtfyGUI.received s)).2 = NtfyGUI.Exhausted
  ∧ r.2 = None
  ∧ decode_errors r.1 = 1%nat
  ∧ ∀ formats,
      length (MessagePanel.messages
                (NtfyGUI.message_panel
                   (WithListCtrl.run_calls formats (NtfyGUI.queued r.1) g).1.1))
      = (length (MessagePanel.messages (NtfyGUI.message_panel g)) + length valid)%nat.
Proof.
  intros Hbad Hjson Hvalid Hnd Hfresh s r.
  set (url := SubscriptionPanel.server subscription).
  set (ms := (λ ld : string * NtfyMessage.dict,
                NtfyMessage.init (NtfyMessage.set_server url ld.2)) <$> valid).
  assert (NtfyGUI.stream_loop json_loads url (NtfyGUI.received s)
          = (NtfyGUI.Log NtfyGUI.Warning (NtfyGUI.LogJSONError bad)
               :: (NtfyGUI.CallAfter
                     <$> ((λ m, NtfyGUI.AddMessageAndNotify m true) <$> ms)),
             NtfyGUI.Exhausted)) as Hloop.
  { subst s. cbn [NtfyGUI.received NtfyGUI.stream_loop].
    rewrite (bool_decide_eq_false_2 _ Hbad), Hjson.
    rewrite (stream_loop_valid json_loads url valid).
    - subst ms. by rewrite <- !list_fmap_compose.
    - eapply Forall_impl; [exact Hvalid|]. naive_solver. }
  assert (r = (NtfyGUI.Log NtfyGUI.Info NtfyGUI.LogConnect
               :: NtfyGUI.CallAfter
                    (NtfyGUI.UpdateSubscriptionStatus url
                       (SubscriptionPanel.topic subscription) "已连接")
               :: NtfyGUI.Log NtfyGUI.Warning (NtfyGUI.LogJSONError bad)
               :: (NtfyGUI.CallAfter
                     <$> ((λ m, NtfyGUI.AddMessageAndNotify m true) <$> ms)),
               None)) as Hr.
  { subst r. unfold NtfyGUI.listen_subscription_messages.
    fold url. unfold s in Hloop |- *.
    cbn [NtfyGUI.connected NtfyGUI.broken NtfyGUI.received] in Hloop |- *.
    by rewrite Hloop. }
  rewrite Hloop, Hr. cbn [fst snd].
  assert (length ms = length valid) as Hlen by (subst ms; apply length_fmap).
  destruct (admissions_fresh true ms g) as [Ha Hl].
  { subst ms. apply Forall_fmap. eapply Forall_impl; [exact Hvalid|].
    intros [line data] (_ & _ & He & Hi). done. }
  { subst ms. rewrite <- list_fmap_compose.
    erewrite list_fmap_ext; [exact Hnd|]. by intros ? []. }
  { subst ms. intros m Hm. apply list_elem_of_fmap in Hm as (ld & -> & Hld).
    by apply (Hfresh ld). }
  repeat split.
  - unfold decode_errors. cbn [List.filter NtfyGUI.is_json_error length].
    fold (decode_errors (NtfyGUI.CallAfter
                           <$> ((λ m, NtfyGUI.AddMessageAndNotify m true) <$> ms))).
    by rewrite decode_errors_calls.
  - intros formats.
    change (NtfyGUI.queued (?a :: NtfyGUI.CallAfter ?c :: ?b :: ?t))
      with (c :: NtfyGUI.queued t).
    rewrite queued_calls.
    rewrite (run_calls_panel formats _ g g eq_refl).
    cbn [NtfyGUI.run_calls NtfyGUI.run_call].
    destruct (NtfyGUI.run_calls _ g) as [[g2 out2] q2]. cbn [fst snd] in *.
    by rewrite Hl, Hlen.
Qed.

Lemma malformed_line_is_skipped_witness :
  let s := {| NtfyGUI.connected := true;
              NtfyGUI.received :=
                [(false, "{not json"); (false, "line a1"); (false, "line a2")];
              NtfyGUI.broken := false |} in
  let r := NtfyGUI.listen_subscription_messages sample_loads alerts s in
  (NtfyGUI.stream_loop sample_loads "https://ntfy.sh" (NtfyGUI.received s)).2
  = NtfyGUI.Exhausted
  ∧ r.2 = None
  ∧ decode_errors r.1 = 1%nat
  ∧ ∀ formats,
      length (MessagePanel.messages
                (NtfyGUI.message_panel
                   (WithListCtrl.run_calls formats (NtfyGUI.queued r.1)
                      NtfyGUI.new).1.1))
      = 2%nat.
Proof.
  apply (malformed_line_is_skipped sample_loads alerts "{not json"
           [("line a1", message_record "a1" 1000);
            ("line a2", message_record "a2" 1001)] NtfyGUI.new).
  - discriminate.
  - reflexivity.
  - repeat constructor; discriminate.
  - vm_compute. repeat constructor; set_solver.
  - intros ld _. simpl. set_solver.
Defined.


(** * The counters of the frame, clearing, saving and loading *)

Section FrameData.

Implicit Types (m : NtfyMessage.t) (g : NtfyGUI.t) (s : SubscriptionPanel.sub)
  (key : string * string) (msgs : list NtfyMessage.t).

Lemma messages_of_app key (l1 l2 : list NtfyMessage.t) :
  messages_of key (l1 ++ l2) = (messages_of key l1 + messages_of key l2)%nat.
Proof.
  unfold messages_of, Persistence.count_messages.
  by rewrite List.filter_app, length_app.
Qed.

Lemma messages_of_cons key m msgs :
  messages_of key (m :: msgs)
  = ((if bool_decide ((NtfyMessage.server m, NtfyMessage.topic m) = key)
      then 1 else 0) + messages_of key msgs)%nat.
Proof.
  destruct key as [u t]. unfold messages_of, Persistence.count_messages.
  cbn [List.filter fst snd].
  destruct (decide (NtfyMessage.server m = u)) as [Hu|Hu];
    destruct (decide (NtfyMessage.topic m = t)) as [Ht|Ht];
    rewrite ?(bool_decide_eq_true_2 _ Hu), ?(bool_decide_eq_false_2 _ Hu),
      ?(bool_decide_eq_true_2 _ Ht), ?(bool_decide_eq_false_2 _ Ht); cbn [andb].
  - rewrite bool_decide_eq_true_2 by congruence. done.
  - rewrite bool_decide_eq_false_2 by congruence. done.
  - rewrite bool_decide_eq_false_2 by congruence. done.
  - rewrite bool_decide_eq_false_2 by congruence. done.
Qed.

Lemma messages_of_place key m msgs :
  messages_of key (place m msgs)
  = ((if bool_decide ((NtfyMessage.server m, NtfyMessage.topic m) = key)
      then 1 else 0) + messages_of key msgs)%nat.
Proof.
  destruct (place_split m msgs) as (l1 & l2 & -> & -> & _ & _).
  rewrite !messages_of_app, messages_of_cons. lia.
Qed.

Lemma has_key_sub_key s s' :
  SubscriptionPanel.has_key (SubscriptionPanel.server s) (SubscriptionPanel.topic s) s'
  = bool_decide (sub_key s' = sub_key s).
Proof.
  unfold SubscriptionPanel.has_key, sub_key.
  destruct (decide (SubscriptionPanel.server s' = SubscriptionPanel.server s)) as [Hu|Hu];
    destruct (decide (SubscriptionPanel.topic s' = SubscriptionPanel.topic s)) as [Ht|Ht];
    rewrite ?(bool_decide_eq_true_2 _ Hu), ?(bool_decide_eq_false_2 _ Hu),
      ?(bool_decide_eq_true_2 _ Ht), ?(bool_decide_eq_false_2 _ Ht); cbn [andb];
    symmetry; [apply bool_decide_eq_true_2|apply bool_decide_eq_false_2..]; congruence.
Qed.

Lemma update_count_entries u t (n : nat) (p : SubscriptionPanel.t) :
  NoDup (sub_key <$> SubscriptionPanel.subscriptions p) →
  SubscriptionPanel.subscriptions
    (SubscriptionPanel.update_subscription_message_count u t n p)
  = (λ s, if bool_decide (sub_key s = (u, t)) then with_count n s else s)
      <$> SubscriptionPanel.subscriptions p.
Proof.
  intros Hnd. unfold SubscriptionPanel.update_subscription_message_count.
  cbn [SubscriptionPanel.subscriptions].
  rewrite update_first_map by done. apply list_fmap_ext. intros i s _.
  pose proof (has_key_sub_key (fresh_entry (u, t)) s) as H. cbn in H. by rewrite H.
Qed.

Lemma update_count_keys u t (n : nat) (p : SubscriptionPanel.t) :
  sub_key <$> SubscriptionPanel.subscriptions
                (SubscriptionPanel.update_subscription_message_count u t n p)
  = sub_key <$> SubscriptionPanel.subscriptions p.
Proof.
  unfold SubscriptionPanel.update_subscription_message_count.
  cbn [SubscriptionPanel.subscriptions].
  by edestruct update_first_keys as [_ ->].
Qed.

(** What the counting loop leaves behind. *)
Lemma set_counts_spec (count : string * string → nat)
    (subs : list SubscriptionPanel.sub) g :
  NoDup (sub_key <$> SubscriptionPanel.subscriptions (NtfyGUI.sub_panel g)) →
  NtfyGUI.message_panel (set_counts count subs g) = NtfyGUI.message_panel g
  ∧ SubscriptionPanel.subscriptions (NtfyGUI.sub_panel (set_counts count subs g))
    = (λ s, if bool_decide (sub_key s ∈ sub_key <$> subs)
            then with_count (count (sub_key s)) s else s)
        <$> SubscriptionPanel.subscriptions (NtfyGUI.sub_panel g)
  ∧ ∀ key, NtfyGUI.sub_message_counts (set_counts count subs g) !! key
           = if bool_decide (key ∈ sub_key <$> subs) then Some (count key)
             else NtfyGUI.sub_message_counts g !! key.
Proof.
  revert g. induction subs as [|sub rest IH]; intros g Hnd.
  - split; [done|]. split; [|done].
    cbn [set_counts]. symmetry. etrans; [|apply list_fmap_id].
    apply list_fmap_ext. intros i s _. by rewrite bool_decide_eq_false_2 by set_solver.
  - cbn [set_counts].
    match goal with |- context [set_counts count rest ?g1] =>
      destruct (IH g1) as (Hp & Hs & Hc) end.
    { cbn [NtfyGUI.sub_panel]. by rewrite update_count_keys. }
    rewrite Hp, Hs. cbn [NtfyGUI.message_panel NtfyGUI.sub_panel
                          NtfyGUI.sub_message_counts] in *.
    split; [done|]. split.
    + rewrite update_count_entries by done. rewrite <- list_fmap_compose.
      apply list_fmap_ext. intros i s _. cbn [compose]. rewrite fmap_cons.
      change (SubscriptionPanel.server sub, SubscriptionPanel.topic sub)
        with (sub_key sub).
      destruct (decide (sub_key s = sub_key sub)) as [He|He].
      * rewrite (bool_decide_eq_true_2 _ He).
        rewrite (bool_decide_eq_true_2 (sub_key s ∈ sub_key sub :: _))
          by (rewrite He; left).
        change (sub_key (with_count (count (sub_key sub)) s)) with (sub_key s).
        rewrite He. by destruct (bool_decide _).
      * rewrite (bool_decide_eq_false_2 _ He).
        destruct (decide (sub_key s ∈ sub_key <$> rest)) as [Hr|Hr].
        -- rewrite (bool_decide_eq_true_2 _ Hr).
           by rewrite bool_decide_eq_true_2 by (by right).
        -- rewrite (bool_decide_eq_false_2 _ Hr).
           rewrite bool_decide_eq_false_2; [done|].
           intros Hin. apply elem_of_cons in Hin as [?|?]; done.
    + intros key. rewrite Hc, fmap_cons.
      destruct (decide (key ∈ sub_key <$> rest)) as [Hr|Hr].
      * rewrite (bool_decide_eq_true_2 _ Hr).
        by rewrite bool_decide_eq_true_2 by (by right).
      * rewrite (bool_decide_eq_false_2 _ Hr).
        destruct (decide (key = sub_key sub)) as [->|He].
        -- rewrite lookup_insert_eq. by rewrite bool_decide_eq_true_2 by left.
        -- rewrite lookup_insert_ne by done.
           rewrite bool_decide_eq_false_2; [done|].
           intros Hin. apply elem_of_cons in Hin as [?|?]; done.
Qed.

Lemma reset_counts_set_counts (subs : list SubscriptionPanel.sub) g :
  ControlPanel.reset_counts subs g = set_counts (λ _, 0%nat) subs g.
Proof.
  revert g. induction subs as [|sub rest IH]; intros g; [done|].
  cbn [ControlPanel.reset_counts set_counts]. by rewrite IH.
Qed.

Lemma recount_set_counts (subs : list SubscriptionPanel.sub) g :
  Persistence.recount subs g
  = set_counts
      (λ key, messages_of key (MessagePanel.messages (NtfyGUI.message_panel g)))
      subs g.
Proof.
  revert g. induction subs as [|sub rest IH]; intros g; [done|].
  cbn [Persistence.recount set_counts]. by rewrite IH.
Qed.

Lemma add_saved_subscriptions_reachable (subs : list (string * string))
    (p : SubscriptionPanel.t) :
  registry_reachable p →
  registry_reachable (Persistence.add_saved_subscriptions subs p).
Proof.
  revert p. induction subs as [|[u t] subs IH]; intros p Hp; [done|].
  cbn [Persistence.add_saved_subscriptions]. by apply IH, registry_add.
Qed.


Lemma rows_of_place formats key m msgs :
  rows_of formats key (place m msgs)
  = ((if formattable formats m
          && bool_decide ((NtfyMessage.server m, NtfyMessage.topic m) = key)
      then 1 else 0) + rows_of formats key msgs)%nat.
Proof.
  unfold rows_of.
  destruct (place_split m msgs) as (l1 & l2 & -> & -> & _ & _).
  rewrite !List.filter_app. cbn [List.filter].
  destruct (formattable formats m); cbn [andb].
  - rewrite !messages_of_app, messages_of_cons. lia.
  - done.
Qed.

Lemma frame_reachable_registry formats g :
  frame_reachable formats g → registry_reachable (NtfyGUI.sub_panel g).
Proof.
  induction 1 as [|c g _ IH|u t g _ IH|i g _ IH|auto self _ IH].
  - constructor.
  - destruct c as [u t st|u t st|m live|text]; cbn; try done.
    + by apply registry_status.
    + destruct (add_message_and_notify_cases formats m live g)
        as [[_ ->]|[(_ & _ & ->)|(_ & _ & ->)]]; cbn;
        [done|done|by apply registry_count].
  - by apply registry_add.
  - by apply registry_remove.
  - unfold Listening.start_listening.
    destruct (negb _); [done|].
    by destruct (Listening.start_threads _ _ _) as [[counts threads] trace].
Qed.

End FrameData.

Section FrameDataMore.

Implicit Types (m : NtfyMessage.t) (g : NtfyGUI.t) (s : SubscriptionPanel.sub)
  (key : string * string) (msgs : list NtfyMessage.t).



End FrameDataMore.

Section ListeningFacts.

Implicit Types (s : SubscriptionPanel.sub) (subs : list SubscriptionPanel.sub)
  (counts : gmap (string * string) nat) (threads : gset (string * string))
  (self : Listening.t).

(** What the loop of [start_listening] leaves behind. *)
Lemma start_threads_spec subs counts threads :
  (∀ key, (Listening.start_threads subs counts threads).1.1 !! key
          = match counts !! key with
            | Some n => Some n
            | None => if bool_decide (key ∈ sub_key <$> subs) then Some 0%nat else None
            end)
  ∧ (Listening.start_threads subs counts threads).1.2
    = list_to_set (sub_key <$> subs) ∪ threads
  ∧ (Listening.start_threads subs counts threads).2 = Listening.StartThread <$> subs.
Proof.
  revert counts threads. induction subs as [|sub rest IH]; intros counts threads.
  - cbn. split; [|split; [set_solver|done]].
    intros key. by destruct (counts !! key).
  - cbn [Listening.start_threads].
    match goal with |- context [Listening.start_threads rest ?c ?t] =>
      destruct (IH c t) as (Hc & Ht & Hs);
      destruct (Listening.start_threads rest c t) as [[counts' threads'] trace] end.
    cbn [fst snd] in *. change (SubscriptionPanel.server sub, SubscriptionPanel.topic sub)
      with (sub_key sub) in *.
    rewrite Ht, Hs, !fmap_cons, list_to_set_cons.
    split; [|split; [set_solver|done]].
    intros key. rewrite Hc.
    destruct (decide (key = sub_key sub)) as [->|Hk].
    + rewrite (bool_decide_eq_true_2 (_ ∈ _ :: _)) by left.
      destruct (counts !! sub_key sub) as [n|] eqn:E; [by rewrite E|].
      by rewrite lookup_insert_eq.
    + assert (bool_decide (key ∈ sub_key sub :: (sub_key <$> rest))
              = bool_decide (key ∈ sub_key <$> rest)) as ->.
      { apply bool_decide_ext. rewrite elem_of_cons. tauto. }
      destruct (counts !! sub_key sub) as [n|] eqn:E; [done|].
      by rewrite lookup_insert_ne.
Qed.

(** [start_listening] as a case distinction. *)
Lemma start_listening_cases auto self :
  (Listening.listening_threads self ≠ ∅
   ∧ Listening.start_listening auto self = (self, [Listening.LogAlreadyListening]))
  ∨ (Listening.listening_threads self = ∅
     ∧ ∃ counts,
         let subs :=
           SubscriptionPanel.subscriptions (NtfyGUI.sub_panel (Listening.frame self)) in
         (∀ key, counts !! key
                 = match NtfyGUI.sub_message_counts (Listening.frame self) !! key with
                   | Some n => Some n
                   | None =>
                       if bool_decide (key ∈ sub_key <$> subs) then Some 0%nat else None
                   end)
         ∧ Listening.start_listening auto self
           = ({| Listening.frame :=
                   {| NtfyGUI.message_panel := NtfyGUI.message_panel (Listening.frame self);
                      NtfyGUI.sub_panel := NtfyGUI.sub_panel (Listening.frame self);
                      NtfyGUI.sub_message_counts := counts |};
                 Listening.listening_threads := list_to_set (sub_key <$> subs);
                 Listening.stop_listening := false;
                 Listening.auto_reconnect := auto;
                 Listening.current_subscriptions := Listening.RegistryList |},
              (Listening.StartThread <$> subs)
              ++ [ Listening.CallAfter
                     (NtfyGUI.SetStatusText
                        ("正在监听 " +:+ pretty (length subs) +:+ " 个订阅"));
                   Listening.SetConnectedState true ])).
Proof.
  unfold Listening.start_listening.
  destruct (decide (Listening.listening_threads self = ∅)) as [He|He].
  - right. split; [done|]. rewrite (bool_decide_eq_true_2 _ He). cbn [negb].
    match goal with |- context [Listening.start_threads ?l ?c ?t] =>
      destruct (start_threads_spec l c t) as (Hc & Ht & Hs);
      destruct (Listening.start_threads l c t) as [[counts threads] trace] end.
    cbn [fst snd] in *. exists counts. split; [exact Hc|].
    rewrite Ht, Hs, He, union_empty_r_L. done.
  - left. split; [done|]. by rewrite (bool_decide_eq_false_2 _ He).
Qed.

Lemma start_listening_frame auto self :
  NtfyGUI.message_panel (Listening.frame (Listening.start_listening auto self).1)
  = NtfyGUI.message_panel (Listening.frame self)
  ∧ NtfyGUI.sub_panel (Listening.frame (Listening.start_listening auto self).1)
    = NtfyGUI.sub_panel (Listening.frame self)
  ∧ ∀ key,
      default 0%nat
        (NtfyGUI.sub_message_counts
           (Listening.frame (Listening.start_listening auto self).1) !! key)
      = default 0%nat (NtfyGUI.sub_message_counts (Listening.frame self) !! key).
Proof.
  destruct (start_listening_cases auto self) as [[_ ->]|(_ & counts & Hc & ->)];
    [done|].
  cbn. split; [done|]. split; [done|]. intros key. rewrite Hc.
  destruct (NtfyGUI.sub_message_counts (Listening.frame self) !! key); [done|].
  by destruct (bool_decide _).
Qed.

End ListeningFacts.

Ltac frame_simpl :=
  cbn [fst snd compose NtfyGUI.run_call NtfyGUI.message_panel NtfyGUI.sub_panel
         NtfyGUI.sub_message_counts MessagePanel.messages MessagePanel.message_ids
         SubscriptionPanel.subscriptions SubscriptionPanel.message_count
         SubscriptionPanel.server SubscriptionPanel.topic SubscriptionPanel.status
         SubscriptionPanel.update_subscription_status
         SubscriptionPanel.remove_subscription with_sub_panel with_count] in *.

(** X20.  As long as messages come into the history by
    [add_message_and_notify] only (no load, no click on "clear"), the
    counter the frame keeps for a (server, topic) key, read as 0 when the
    key is absent, is the number of messages of the history with that
    server and topic whose time stamp could be formatted for the list
    control; a message whose time stamp cannot be formatted is stored but
    not counted.  The count shown for a subscription is either that number
    or still 0, whatever subscriptions are added and removed and however
    often listening is started in between.  When every time stamp of the
    history can be formatted, the counter is the number of messages of the
    history with that server and topic. *)
Theorem counters_count_the_history (formats : Z → bool) (g : NtfyGUI.t) :
  frame_reachable formats g →
  let history := MessagePanel.messages (NtfyGUI.message_panel g) in
  (∀ key, default 0%nat (NtfyGUI.sub_message_counts g !! key)
          = rows_of formats key history)
  ∧ Forall (λ s, SubscriptionPanel.message_count s = 0%nat
               ∨ SubscriptionPanel.message_count s
                 = rows_of formats (sub_key s) history)
      (SubscriptionPanel.subscriptions (NtfyGUI.sub_panel g))
  ∧ (Forall (λ m, formattable formats m = true) history →
     ∀ key, default 0%nat (NtfyGUI.sub_message_counts g !! key)
            = messages_of key history).
Proof.
  intros Hg history. subst history.
  assert ((∀ key, default 0%nat (NtfyGUI.sub_message_counts g !! key)
                  = rows_of formats key
                      (MessagePanel.messages (NtfyGUI.message_panel g)))
          ∧ Forall (λ s, SubscriptionPanel.message_count s = 0%nat
                       ∨ SubscriptionPanel.message_count s
                         = rows_of formats (sub_key s)
                             (MessagePanel.messages (NtfyGUI.message_panel g)))
              (SubscriptionPanel.subscriptions (NtfyGUI.sub_panel g))) as [H1 H2].
  2:{ split; [done|]. split; [done|]. intros Hall key.
      rewrite H1. unfold rows_of. by rewrite filter_formattable. }
  induction Hg as [|c g Hg [IH1 IH2]|u t g Hg [IH1 IH2]|i g Hg [IH1 IH2]
                   |auto self Hg [IH1 IH2]].
  5:{ destruct (start_listening_frame auto self) as (-> & -> & Hc).
      split; [|done]. intros key. by rewrite Hc. }
  - split; [done|constructor].
  - pose proof (proj1 (registry_invariant _ (frame_reachable_registry _ _ Hg)))
      as Hnd.
    destruct c as [u t st|u t st|m live|text];
      cbn [WithListCtrl.run_call]; frame_simpl; try done.
    + split; [done|].
      rewrite update_first_map by done. apply Forall_fmap.
      eapply Forall_impl; [exact IH2|]. intros s Hs. frame_simpl.
      by destruct (SubscriptionPanel.has_key u t s).
    + destruct (add_message_and_notify_cases formats m live g)
        as [[_ ->]|[(Ha & Hf & ->)|(Ha & Hf & ->)]]; frame_simpl; [done| |].
      * unfold after_admission.
        destruct (add_message_cases m (NtfyGUI.message_panel g))
          as [(_ & _ & _ & Heq)|[_ Heq]]; rewrite Heq in Ha |- *; [|done].
        frame_simpl. split.
        -- intros key. rewrite rows_of_place. unfold formattable.
           rewrite Hf. apply IH1.
        -- eapply Forall_impl; [exact IH2|]. intros s Hs. frame_simpl.
           rewrite rows_of_place. unfold formattable. by rewrite Hf.
      * unfold after_admission.
        destruct (add_message_cases m (NtfyGUI.message_panel g))
          as [(_ & _ & _ & Heq)|[_ Heq]]; rewrite Heq in Ha |- *; [|done].
        frame_simpl. split.
        -- intros key. rewrite rows_of_place. unfold formattable. rewrite Hf.
           cbn [andb].
           destruct (decide ((NtfyMessage.server m, NtfyMessage.topic m) = key))
             as [<-|Hk].
           ++ rewrite lookup_insert_eq, bool_decide_eq_true_2 by done. frame_simpl.
              by rewrite IH1.
           ++ rewrite lookup_insert_ne, bool_decide_eq_false_2 by done. apply IH1.
        -- rewrite update_count_entries by done. apply Forall_fmap.
           eapply Forall_impl; [exact IH2|]. intros s Hs. frame_simpl.
           rewrite rows_of_place. unfold formattable. rewrite Hf. cbn [andb].
           destruct (decide (sub_key s = (NtfyMessage.server m, NtfyMessage.topic m)))
             as [He|He].
           ++ rewrite (bool_decide_eq_true_2 _ He). right. frame_simpl.
              change (sub_key (with_count _ s)) with (sub_key s). rewrite He.
              rewrite bool_decide_eq_true_2 by done. by rewrite IH1.
           ++ rewrite (bool_decide_eq_false_2 _ He).
              rewrite bool_decide_eq_false_2 by done. exact Hs.
  - frame_simpl. split; [done|].
    destruct (add_subscription_cases u t (NtfyGUI.sub_panel g))
      as [(_ & _ & _ & ->)|[_ ->]]; frame_simpl; [|done].
    apply Forall_app. split; [done|]. constructor; [by left|constructor].
  - frame_simpl. split; [done|]. by apply Forall_delete.
Qed.

Lemma counters_count_the_history_witness :
  let g :=
    (WithListCtrl.run_call sample_formats (NtfyGUI.AddMessageAndNotify late_a9 true)
       (WithListCtrl.run_call sample_formats
          (NtfyGUI.AddMessageAndNotify first_a1 true)
          (with_sub_panel alerts_registry NtfyGUI.new)).1.1).1.1 in
  MessagePanel.messages (NtfyGUI.message_panel g) = [late_a9; first_a1]
  ∧ default 0%nat (NtfyGUI.sub_message_counts g !! ("https://ntfy.sh", "alerts"))
    = 1%nat.
Proof.
  intros g. split; [reflexivity|].
  destruct (counters_count_the_history sample_formats g) as (H & _ & _).
  - apply (frame_call sample_formats (NtfyGUI.AddMessageAndNotify late_a9 true)).
    apply (frame_call sample_formats (NtfyGUI.AddMessageAndNotify first_a1 true)).
    apply (frame_add sample_formats "ntfy.sh/" "alerts"). apply frame_new.
  - rewrite H. reflexivity.
Defined.

(** X21.  A click on "clear" empties the history and the dedup index and
    sets to 0 the count of every subscription of the registry and the
    counter of its key.  The counter of a key that is not in the registry
    (a subscription that was removed) keeps its value. *)
Theorem clear_resets_registered_counters (g : NtfyGUI.t) :
  registry_reachable (NtfyGUI.sub_panel g) →
  let g' := (ControlPanel.on_clear_click g).1 in
  let keys := sub_key <$> SubscriptionPanel.subscriptions (NtfyGUI.sub_panel g) in
  NtfyGUI.message_panel g' = MessagePanel.new
  ∧ SubscriptionPanel.subscriptions (NtfyGUI.sub_panel g')
    = with_count 0 <$> SubscriptionPanel.subscriptions (NtfyGUI.sub_panel g)
  ∧ (∀ key, key ∈ keys → NtfyGUI.sub_message_counts g' !! key = Some 0%nat)
  ∧ (∀ key, key ∉ keys →
       NtfyGUI.sub_message_counts g' !! key = NtfyGUI.sub_message_counts g !! key)
  ∧ (ControlPanel.on_clear_click g).2 = [NtfyGUI.StatusText "消息已清空"].
Proof.
  intros Hr g' keys. subst g' keys. unfold ControlPanel.on_clear_click.
  cbn [fst snd]. rewrite reset_counts_set_counts.
  match goal with |- context [set_counts ?f ?l ?g1] =>
    destruct (set_counts_spec f l g1) as (Hp & Hs & Hc) end.
  { cbn. by apply registry_invariant. }
  rewrite Hp, Hs. cbn [NtfyGUI.message_panel NtfyGUI.sub_panel
                        NtfyGUI.sub_message_counts] in *.
  split; [done|]. split; [|split; [|split; [|done]]].
  - apply list_fmap_ext. intros i s Hi.
    rewrite bool_decide_eq_true_2; [done|].
    apply list_elem_of_fmap_2. by eapply list_elem_of_lookup_2.
  - intros key Hk. by rewrite Hc, bool_decide_eq_true_2.
  - intros key Hk. by rewrite Hc, bool_decide_eq_false_2.
Qed.

Lemma clear_resets_registered_counters_witness :
  NtfyGUI.message_panel (ControlPanel.on_clear_click frame_with_alerts).1
  = MessagePanel.new
  ∧ NtfyGUI.sub_message_counts (ControlPanel.on_clear_click frame_with_alerts).1
      !! ("https://ntfy.sh", "alerts") = Some 0%nat.
Proof.
  destruct (clear_resets_registered_counters frame_with_alerts)
    as (Hp & _ & Hc & _).
  - apply (registry_add "ntfy.sh/" "alerts"), registry_new.
  - split; [exact Hp|]. apply Hc. vm_compute. left.
Defined.

(** X22.  After [load_data] has read a file whose messages all have a time
    stamp that can be formatted (or that has no messages), the count of
    every subscription of the registry, and the counter of its key, is the
    number of messages of the history with that server and topic, and
    counters of other keys are left as they were.  When a loaded message
    has a time stamp that cannot be formatted, the subscriptions and the
    history are loaded all the same, but the counting is skipped: the
    counters stay as they were and the entries keep the count they had. *)
Theorem load_data_counts_the_loaded_history (formats : Z → bool)
    (data : Persistence.saved) (g : NtfyGUI.t) :
  registry_reachable (NtfyGUI.sub_panel g) →
  let g' := Persistence.load_data formats (Persistence.Stored data) g in
  let history := MessagePanel.messages (NtfyGUI.message_panel g') in
  (Persistence.messages data = []
   ∨ Forall (λ m, formattable formats m = true) history →
   Forall (λ s, SubscriptionPanel.message_count s = messages_of (sub_key s) history
              ∧ NtfyGUI.sub_message_counts g' !! sub_key s
                = Some (messages_of (sub_key s) history))
     (SubscriptionPanel.subscriptions (NtfyGUI.sub_panel g'))
   ∧ (∀ key,
        key ∉ sub_key <$> SubscriptionPanel.subscriptions (NtfyGUI.sub_panel g') →
        NtfyGUI.sub_message_counts g' !! key = NtfyGUI.sub_message_counts g !! key))
  ∧ (Persistence.messages data ≠ [] →
     ¬ Forall (λ m, formattable formats m = true) history →
     NtfyGUI.message_panel g'
     = MessagePanel.load_messages (Persistence.messages data) (NtfyGUI.message_panel g)
     ∧ NtfyGUI.sub_panel g'
       = Persistence.add_saved_subscriptions (Persistence.subscriptions data)
           (NtfyGUI.sub_panel g)
     ∧ NtfyGUI.sub_message_counts g' = NtfyGUI.sub_message_counts g).
Proof.
  intros Hr g' history. subst g' history.
  assert (∀ panel,
            let g1 :=
              {| NtfyGUI.message_panel := panel;
                 NtfyGUI.sub_panel :=
                   Persistence.add_saved_subscriptions (Persistence.subscriptions data)
                     (NtfyGUI.sub_panel g);
                 NtfyGUI.sub_message_counts := NtfyGUI.sub_message_counts g |} in
            let g' :=
              Persistence.recount
                (SubscriptionPanel.subscriptions (NtfyGUI.sub_panel g1)) g1 in
            NtfyGUI.message_panel g' = panel
            ∧ Forall (λ s, SubscriptionPanel.message_count s
                           = messages_of (sub_key s) (MessagePanel.messages panel)
                           ∧ NtfyGUI.sub_message_counts g' !! sub_key s
                             = Some (messages_of (sub_key s)
                                       (MessagePanel.messages panel)))
                (SubscriptionPanel.subscriptions (NtfyGUI.sub_panel g'))
            ∧ (∀ key,
                 key ∉ sub_key
                       <$> SubscriptionPanel.subscriptions (NtfyGUI.sub_panel g') →
                 NtfyGUI.sub_message_counts g' !! key
                 = NtfyGUI.sub_message_counts g !! key)) as Hcount.
  { intros panel g1 g'. subst g' g1. rewrite recount_set_counts.
    match goal with |- context [set_counts ?f ?l ?g1] =>
      destruct (set_counts_spec f l g1) as (Hp & Hs & Hc);
      [|generalize dependent (set_counts f l g1)] end.
    { cbn. by apply registry_invariant, add_saved_subscriptions_reachable. }
    intros g' Hp Hs Hc.
    cbn [NtfyGUI.message_panel NtfyGUI.sub_panel NtfyGUI.sub_message_counts] in *.
    split; [done|]. rewrite Hs. split.
    - apply Forall_fmap, Forall_forall. intros s Hin. cbn [compose].
      pose proof (list_elem_of_fmap_2 sub_key _ _ Hin) as Hk.
      rewrite (bool_decide_eq_true_2 _ Hk).
      change (sub_key (with_count _ s)) with (sub_key s). split; [done|].
      by rewrite Hc, (bool_decide_eq_true_2 _ Hk).
    - intros key Hk. rewrite Hc. rewrite bool_decide_eq_false_2; [done|].
      intros Hin. apply Hk. rewrite <- list_fmap_compose.
      erewrite list_fmap_ext; [exact Hin|]. intros i s _. cbn [compose].
      by destruct (bool_decide _). }
  cbn [Persistence.load_data].
  destruct (Persistence.messages data) as [|d rest] eqn:Hdata.
  - destruct (Hcount (NtfyGUI.message_panel g)) as (Hp & Hs & Hc).
    cbn [NtfyGUI.sub_panel] in Hp, Hs, Hc. rewrite Hp.
    split; [intros _; by split|done].
  - rewrite load_messages_outcome, insert_all_outcome.
    set (panel := MessagePanel.load_messages (d :: rest) (NtfyGUI.message_panel g)).
    destruct (forallb (formattable formats) (MessagePanel.messages panel)) eqn:Hall.
    + destruct (Hcount panel) as (Hp & Hs & Hc).
      cbn [NtfyGUI.sub_panel] in Hp, Hs, Hc. rewrite Hp.
      split; [intros _; by split|].
      intros _ Hno. exfalso. apply Hno. by apply forallb_formattable.
    + cbn [NtfyGUI.message_panel NtfyGUI.sub_panel NtfyGUI.sub_message_counts].
      split; [|done]. intros [?|Hyes]; [done|].
      apply forallb_formattable in Hyes. congruence.
Qed.

Lemma load_data_counts_the_loaded_history_witness :
  let stored := Persistence.Stored (Persistence.save_data frame_with_alerts) in
  let g' := Persistence.load_data sample_formats stored NtfyGUI.new in
  Forall (λ s, SubscriptionPanel.message_count s
               = messages_of (sub_key s)
                   (MessagePanel.messages (NtfyGUI.message_panel g')))
    (SubscriptionPanel.subscriptions (NtfyGUI.sub_panel g'))
  ∧ NtfyGUI.sub_message_counts
      (Persistence.load_data (λ _, false) stored NtfyGUI.new) = ∅.
Proof.
  intros stored g'. split.
  - destruct (load_data_counts_the_loaded_history sample_formats
                (Persistence.save_data frame_with_alerts) NtfyGUI.new) as [H _].
    { apply registry_new. }
    destruct H as [H _]; [right; by repeat constructor|].
    eapply Forall_impl; [exact H|]. by intros s [Hs _].
  - destruct (load_data_counts_the_loaded_history (λ _, false)
                (Persistence.save_data frame_with_alerts) NtfyGUI.new) as [_ H].
    { apply registry_new. }
    destruct H as (_ & _ & H); [done| |exact H].
    intros Hall. by apply Forall_cons in Hall as [? _].
Defined.



(** * Starting and stopping *)

Section ListeningMore.

Implicit Types (s : SubscriptionPanel.sub) (subs : list SubscriptionPanel.sub)
  (g : NtfyGUI.t) (self : Listening.t).

Lemma started_threads subs (rest : list Listening.effect) :
  started ((Listening.StartThread <$> subs) ++ rest) = subs ++ started rest.
Proof.
  induction subs as [|s subs IH]; [done|].
  rewrite fmap_cons. cbn. by rewrite <- IH.
Qed.

Lemma update_status_entries u t (st : string) (p : SubscriptionPanel.t) :
  NoDup (sub_key <$> SubscriptionPanel.subscriptions p) →
  SubscriptionPanel.subscriptions
    (SubscriptionPanel.update_subscription_status u t st p)
  = (λ s, if bool_decide (sub_key s = (u, t)) then with_status st s else s)
      <$> SubscriptionPanel.subscriptions p.
Proof.
  intros Hnd. unfold SubscriptionPanel.update_subscription_status.
  cbn [SubscriptionPanel.subscriptions].
  rewrite update_first_map by done. apply list_fmap_ext. intros i s _.
  pose proof (has_key_sub_key (fresh_entry (u, t)) s) as H. cbn in H. by rewrite H.
Qed.

Lemma update_status_keys u t (st : string) (p : SubscriptionPanel.t) :
  sub_key <$> SubscriptionPanel.subscriptions
                (SubscriptionPanel.update_subscription_status u t st p)
  = sub_key <$> SubscriptionPanel.subscriptions p.
Proof.
  unfold SubscriptionPanel.update_subscription_status.
  cbn [SubscriptionPanel.subscriptions].
  by edestruct update_first_keys as [_ ->].
Qed.

(** The status requests of the control panel change nothing by
    themselves: each queues the update of the registry. *)
Lemma run_calls_status_requests (st text : string) subs g :
  NtfyGUI.run_calls
    (((λ s, NtfyGUI.UpdateSubscriptionStatus
              (SubscriptionPanel.server s) (SubscriptionPanel.topic s) st) <$> subs)
     ++ [NtfyGUI.SetStatusText text]) g
  = (g, [NtfyGUI.StatusText text],
     (λ s, NtfyGUI.SubPanelUpdateStatus
             (SubscriptionPanel.server s) (SubscriptionPanel.topic s) st) <$> subs).
Proof.
  induction subs as [|s subs IH]; [done|].
  rewrite !fmap_cons. cbn [app NtfyGUI.run_calls NtfyGUI.run_call].
  by rewrite IH.
Qed.

(** What the queued updates of the registry leave behind. *)
Lemma run_calls_status_updates (st : string) subs g :
  NoDup (sub_key <$> SubscriptionPanel.subscriptions (NtfyGUI.sub_panel g)) →
  let g' :=
    (NtfyGUI.run_calls
       ((λ s, NtfyGUI.SubPanelUpdateStatus
                (SubscriptionPanel.server s) (SubscriptionPanel.topic s) st) <$> subs)
       g).1.1 in
  NtfyGUI.message_panel g' = NtfyGUI.message_panel g
  ∧ NtfyGUI.sub_message_counts g' = NtfyGUI.sub_message_counts g
  ∧ SubscriptionPanel.subscriptions (NtfyGUI.sub_panel g')
    = (λ s, if bool_decide (sub_key s ∈ sub_key <$> subs)
            then with_status st s else s)
        <$> SubscriptionPanel.subscriptions (NtfyGUI.sub_panel g).
Proof.
  cbv zeta. revert g. induction subs as [|sub rest IH]; intros g Hnd.
  - cbn. split; [done|]. split; [done|].
    symmetry. etrans; [|apply list_fmap_id].
    apply list_fmap_ext. intros i s _. by rewrite bool_decide_eq_false_2 by set_solver.
  - rewrite fmap_cons. cbn [NtfyGUI.run_calls NtfyGUI.run_call].
    match goal with |- context [NtfyGUI.run_calls _ ?g1] =>
      destruct (IH g1) as (Hp & Hc & Hs);
      [|destruct (NtfyGUI.run_calls _ g1) as [[g2 out] queue]] end.
    { cbn [NtfyGUI.sub_panel]. by rewrite update_status_keys. }
    cbn [fst snd NtfyGUI.message_panel NtfyGUI.sub_panel
           NtfyGUI.sub_message_counts] in *.
    split; [done|]. split; [done|].
    rewrite Hs, update_status_entries by done. rewrite <- list_fmap_compose.
    apply list_fmap_ext. intros i s _. cbn [compose]. rewrite fmap_cons.
    change (SubscriptionPanel.server sub, SubscriptionPanel.topic sub)
      with (sub_key sub).
    destruct (decide (sub_key s = sub_key sub)) as [He|He].
    + rewrite (bool_decide_eq_true_2 _ He).
      rewrite (bool_decide_eq_true_2 (sub_key s ∈ sub_key sub :: _))
        by (rewrite He; left).
      change (sub_key (with_status st s)) with (sub_key s).
      by destruct (bool_decide _).
    + rewrite (bool_decide_eq_false_2 _ He).
      destruct (decide (sub_key s ∈ sub_key <$> rest)) as [Hr|Hr].
      * rewrite (bool_decide_eq_true_2 _ Hr).
        by rewrite bool_decide_eq_true_2 by (by right).
      * rewrite (bool_decide_eq_false_2 _ Hr).
        rewrite bool_decide_eq_false_2; [done|].
        intros Hin. apply elem_of_cons in Hin as [?|?]; done.
Qed.

Lemma queued_status_requests (st : string) subs (c : NtfyGUI.call) (b : bool) :
  Listening.queued
    (((λ s, Listening.CallAfter
              (NtfyGUI.UpdateSubscriptionStatus
                 (SubscriptionPanel.server s) (SubscriptionPanel.topic s) st)) <$> subs)
     ++ [Listening.CallAfter c; Listening.SetConnectedState b])
  = ((λ s, NtfyGUI.UpdateSubscriptionStatus
             (SubscriptionPanel.server s) (SubscriptionPanel.topic s) st) <$> subs)
    ++ [c].
Proof.
  induction subs as [|s subs IH]; [done|].
  rewrite !fmap_cons. cbn. by rewrite <- IH.
Qed.

End ListeningMore.

(** X24.  When no worker is registered, [start_listening] starts one
    worker for each subscription of the registry, in order, and lowers the
    stop flag; it keeps every counter that exists and gives a counter to
    each subscription that has none.  Once it has started a worker, a
    further start is refused: nothing changes and no worker is started. *)
Theorem start_listening_starts_each_once (auto : bool) (self : Listening.t) :
  Listening.listening_threads self = ∅ →
  let subs := SubscriptionPanel.subscriptions (NtfyGUI.sub_panel (Listening.frame self)) in
  let self' := (Listening.start_listening auto self).1 in
  started (Listening.start_listening auto self).2 = subs
  ∧ Listening.listening_threads self' = list_to_set (sub_key <$> subs)
  ∧ Listening.stop_listening self' = false
  ∧ Listening.auto_reconnect self' = auto
  ∧ (∀ key n,
       NtfyGUI.sub_message_counts (Listening.frame self) !! key = Some n →
       NtfyGUI.sub_message_counts (Listening.frame self') !! key = Some n)
  ∧ (∀ key, key ∈ sub_key <$> subs →
       is_Some (NtfyGUI.sub_message_counts (Listening.frame self') !! key))
  ∧ (subs ≠ [] →
     ∀ auto', Listening.start_listening auto' self'
              = (self', [Listening.LogAlreadyListening])).
Proof.
  intros Hnone subs self'. subst self'.
  destruct (start_listening_cases auto self) as [[Hsome _]|(_ & counts & Hc & ->)];
    [done|].
  fold subs in Hc |- *. cbn [fst snd Listening.listening_threads
    Listening.stop_listening Listening.auto_reconnect Listening.frame
    NtfyGUI.sub_message_counts].
  split; [by rewrite started_threads, app_nil_r|].
  do 3 (split; [done|]). split; [|split].
  - intros key n Hn. by rewrite Hc, Hn.
  - intros key Hk. rewrite Hc, (bool_decide_eq_true_2 _ Hk).
    by destruct (NtfyGUI.sub_message_counts (Listening.frame self) !! key).
  - intros Hne auto'.
    match goal with |- Listening.start_listening _ ?st = _ =>
      destruct (start_listening_cases auto' st) as [[_ ->]|[He _]]; [done|] end.
    cbn [Listening.listening_threads Listening.frame NtfyGUI.sub_panel] in He.
    fold subs in He. destruct subs as [|s subs']; [done|].
    rewrite fmap_cons, list_to_set_cons in He. set_solver.
Qed.

Lemma start_listening_starts_each_once_witness :
  started (Listening.start_listening true listening_alerts).2
  = SubscriptionPanel.subscriptions alerts_registry
  ∧ Listening.start_listening false (Listening.start_listening true listening_alerts).1
    = ((Listening.start_listening true listening_alerts).1,
       [Listening.LogAlreadyListening]).
Proof.
  destruct (start_listening_starts_each_once true listening_alerts eq_refl)
    as (Hs & _ & _ & _ & _ & _ & Hagain).
  split; [exact Hs|]. apply Hagain. done.
Defined.

(** X25.  [stop_listening_func] raises the stop flag, switches
    auto-reconnect off and forgets the registered workers.  After a start,
    once the GUI thread has run the calls it queues, every subscription of
    the registry shows the status "已断开", and history, counters, keys
    and counts are as before. *)
Theorem stop_marks_every_subscription_disconnected (self : Listening.t) :
  Listening.current_subscriptions self = Listening.RegistryList →
  registry_reachable (NtfyGUI.sub_panel (Listening.frame self)) →
  let self' := (Listening.stop_listening_func self).1 in
  let g' :=
    Listening.settle (Listening.queued (Listening.stop_listening_func self).2)
      (Listening.frame self') in
  Listening.stop_listening self' = true
  ∧ Listening.auto_reconnect self' = false
  ∧ Listening.listening_threads self' = ∅
  ∧ SubscriptionPanel.subscriptions (NtfyGUI.sub_panel g')
    = with_status "已断开"
        <$> SubscriptionPanel.subscriptions (NtfyGUI.sub_panel (Listening.frame self))
  ∧ NtfyGUI.message_panel g' = NtfyGUI.message_panel (Listening.frame self)
  ∧ NtfyGUI.sub_message_counts g' = NtfyGUI.sub_message_counts (Listening.frame self).
Proof.
  intros Hcur Hr self' g'. subst self' g'.
  unfold Listening.stop_listening_func, Listening.current. rewrite Hcur.
  cbn [fst snd Listening.stop_listening Listening.auto_reconnect
         Listening.listening_threads Listening.frame].
  do 3 (split; [done|]).
  rewrite queued_status_requests. unfold Listening.settle.
  rewrite run_calls_status_requests.
  match goal with |- context [NtfyGUI.run_calls ?q ?g] =>
    pose proof (run_calls_status_updates "已断开"
                  (SubscriptionPanel.subscriptions
                     (NtfyGUI.sub_panel (Listening.frame self)))
                  g (proj1 (registry_invariant _ Hr))) as (Hp & Hc & Hs) end.
  rewrite Hp, Hc, Hs. split; [|done].
  apply list_fmap_ext. intros i s Hi.
  rewrite bool_decide_eq_true_2; [done|].
  apply list_elem_of_fmap_2. by eapply list_elem_of_lookup_2.
Qed.

Lemma stop_marks_every_subscription_disconnected_witness :
  let self := (Listening.start_listening true listening_alerts).1 in
  SubscriptionPanel.status
  <$> SubscriptionPanel.subscriptions
        (NtfyGUI.sub_panel
           (Listening.settle
              (Listening.queued (Listening.stop_listening_func self).2)
              (Listening.frame (Listening.stop_listening_func self).1)))
  = ["已断开"].
Proof.
  intros self.
  destruct (stop_marks_every_subscription_disconnected self)
    as (_ & _ & _ & Hs & _).
  - reflexivity.
  - apply (registry_add "ntfy.sh/" "alerts"), registry_new.
  - rewrite Hs. reflexivity.
Defined.

(** * The priority label *)

(** X26.  [get_priority_text] answers "Unknown" exactly for the priorities
    outside 1..5, and a message built from a record without a [priority]
    key is labelled "Default". *)
Theorem priority_label_bounds :
  (∀ m : NtfyMessage.t,
     NtfyMessage.get_priority_text m = "Unknown"
     ↔ ¬ (1 ≤ NtfyMessage.priority m ≤ 5)%Z)
  ∧ (∀ data : NtfyMessage.dict,
       NtfyMessage.d_priority data = None →
       NtfyMessage.get_priority_text (NtfyMessage.init data) = "Default").
Proof.
  split.
  - intros m. unfold NtfyMessage.get_priority_text.
    destruct (NtfyMessage.priority m) as [|p|p]; [split; [lia|done]| |split; [lia|done]].
    destruct p as [[p|p|]|[p|p|]|]; try destruct p as [p|p|];
      (split; [intros H; first [discriminate H|lia]|intros H; first [done|lia]]).
  - intros data Hp. unfold NtfyMessage.get_priority_text, NtfyMessage.init.
    cbn [NtfyMessage.priority]. by rewrite Hp.
Qed.

Lemma priority_label_bounds_witness :
  NtfyMessage.get_priority_text (NtfyMessage.init (message_record "a1" 1000))
  = "Default".
Proof.
  apply (proj2 priority_label_bounds). reflexivity.
Defined.
